(** * snitch: TODO extraction and in-place rewriting

    A shallow embedding of the Go sources of snitch (the [Todo] entity, the
    two marker regular expressions, the tree walker and the in-place
    rewriter), together with the properties of its specification. *)

From Stdlib Require Import ZArith Ascii String List Bool Lia.
From Stdlib Require Import DecimalString DecimalZ.
From stdpp Require Import base gmap strings list.

#[local] Open Scope Z_scope.
#[local] Arguments String.append : simpl nomatch.

(** ** Go strings

    A Go [string] is a sequence of bytes; it is embedded as Rocq's [string],
    a sequence of 8-bit [ascii] characters. *)

Module Str.

Definition LF : ascii := "010"%char.
Definition CR : ascii := "013"%char.

(** The one-byte string "\n". *)
Definition NL : string := String LF EmptyString.

Definition is_newline (c : ascii) : bool := Ascii.eqb c LF.

(** [no_newline s]: no byte of [s] is a line feed. *)
Fixpoint no_newline (s : string) : bool :=
  match s with
  | EmptyString => true
  | String c s' => negb (is_newline c) && no_newline s'
  end.

(** [strip_prefix lit s] is [Some r] when [s = lit ++ r] (Go's
    [strings.CutPrefix]). *)
Fixpoint strip_prefix (lit s : string) : option string :=
  match lit with
  | EmptyString => Some s
  | String c lit' =>
      match s with
      | String d s' => if Ascii.eqb c d then strip_prefix lit' s' else None
      | EmptyString => None
      end
  end.

(** [contains pat s]: [pat] occurs in [s] (Go's [strings.Contains]). *)
Fixpoint contains (pat s : string) : bool :=
  match strip_prefix pat s with
  | Some _ => true
  | None =>
      match s with
      | String _ s' => contains pat s'
      | EmptyString => false
      end
  end.

Definition is_empty (s : string) : bool :=
  match s with EmptyString => true | _ => false end.

(** Length of a string as an integer, as Go's [len]. *)
Definition len (s : string) : Z := Z.of_nat (String.length s).

(** [firstn n s]: the first [n] bytes of [s] (the slice [s[:n]]). *)
Fixpoint firstn (n : nat) (s : string) : string :=
  match n, s with
  | S n', String c s' => String c (firstn n' s')
  | _, _ => EmptyString
  end.

(** [replicate n c]: [n] copies of the byte [c]. *)
Definition replicate (n : N) (c : ascii) : string :=
  N.iter n (String c) EmptyString.

(** The ways of cutting [s] in two. *)
Fixpoint splits (s : string) : list (string * string) :=
  (EmptyString, s) ::
  match s with
  | EmptyString => []
  | String c s' => List.map (λ ab, (String c ab.1, ab.2)) (splits s')
  end.

(** [free lit]: an occurrence of [lit] cannot overlap a later occurrence of
    [lit]. *)
Definition free (lit : string) : Prop :=
  ∀ x w q y, lit +:+ q = String x w +:+ lit +:+ y → ∃ u, q = u +:+ lit +:+ y.

End Str.

(** ** The fragment of Go's [regexp] that the program uses

    Both patterns of the program are a sequence of anchors, literals and
    capturing dot-star groups.  [exec] is the backtracking matcher with the
    leftmost-first (Perl) preference order of Go's [regexp]: a greedy dot-star
    first takes as many bytes other than line feed as it can and gives them
    back one at a time.  Without flags the dot matches every character but
    the line feed and the two anchors match at the two ends of the text only.
    Go matches UTF-8 characters; since the literals of the program are ASCII,
    every cut that the matcher accepts falls between characters and matching
    byte by byte captures the same groups. *)

Module Regexp.

Inductive node : Type :=
| BeginText                 (* ^  *)
| EndText                   (* $  *)
| Literal (lit : string)    (* literal text *)
| CaptureDotStar.           (* a capturing dot-star group *)

Definition regexp := list node.

(** Greedy dot-star followed by the continuation [k]: [k a b] is tried on
    every split [s = a ++ b] with [a] free of line feeds, longest [a]
    first. *)
Fixpoint dotstar {R : Type} (s : string) (k : string → string → option R)
  : option R :=
  match s with
  | String c s' =>
      if Str.is_newline c then k EmptyString s
      else match dotstar s' (λ a b, k (String c a) b) with
           | Some r => Some r
           | None => k EmptyString s
           end
  | EmptyString => k EmptyString EmptyString
  end.

(** [exec re bot s] matches [re] at the head of [s]; [bot] tells whether
    the head of [s] is the beginning of the text.  The result is the list
    of captured groups and the unmatched remainder. *)
Fixpoint exec (re : regexp) (bot : bool) (s : string)
  : option (list string * string) :=
  match re with
  | [] => Some ([], s)
  | BeginText :: re' => if bot then exec re' bot s else None
  | EndText :: re' =>
      match s with
      | EmptyString => exec re' bot s
      | String _ _ => None
      end
  | Literal lit :: re' =>
      match Str.strip_prefix lit s with
      | Some s' => exec re' (bot && Str.is_empty lit) s'
      | None => None
      end
  | CaptureDotStar :: re' =>
      dotstar s (λ a b,
        match exec re' (bot && Str.is_empty a) b with
        | Some (groups, rest) => Some (a :: groups, rest)
        | None => None
        end)
  end.

(** Unanchored search from every start position, leftmost first. *)
Fixpoint find_from (re : regexp) (bot : bool) (s : string)
  : option (list string) :=
  match exec re bot s with
  | Some (groups, rest) =>
      Some (Str.firstn (String.length s - String.length rest) s :: groups)
  | None =>
      match s with
      | String _ s' => find_from re false s'
      | EmptyString => None
      end
  end.

(** [FindStringSubmatch re s]: [None] is Go's [nil]; otherwise element 0
    is the text of the match and element [i] the text of group [i]. *)
Definition FindStringSubmatch (re : regexp) (s : string)
  : option (list string) :=
  find_from re true s.

(** [groups[i]] of the program text. *)
Definition group (groups : list string) (i : nat) : string :=
  nth i groups EmptyString.

(** The tail shared by the two patterns of the program: a group, a literal,
    a group and the end of the text. *)
Definition two_groups (lit : string) : regexp :=
  [CaptureDotStar; Literal lit; CaptureDotStar; EndText].

End Regexp.

(** ** The Todo entity (todo.go) *)

(** The project configuration is declared outside the translated sources;
    the parser only uses its title transformation. *)
Module Config.
Record TitleConfig := { Transform : string → string }.
Record ProjectConfig := { Title : TitleConfig }.
End Config.

Record Todo : Type := mkTodo {
  Prefix : string;
  Suffix : string;
  ID : option string;
  Filename : string;
  Line : Z;
  Title : string
}.

(** [func (todo Todo) String() string] *)
Definition Todo_String (todo : Todo) : string :=
  match ID todo with
  | None => Prefix todo +:+ "TODO: " +:+ Suffix todo
  | Some id => Prefix todo +:+ "TODO(" +:+ id +:+ "): " +:+ Suffix todo
  end.

(** The pattern of [lineAsUnreportedTodo]: start of text, group 1, the
    literal "TODO: ", group 2, end of text. *)
Definition unreportedTodo : Regexp.regexp :=
  [Regexp.BeginText; Regexp.CaptureDotStar; Regexp.Literal "TODO: ";
   Regexp.CaptureDotStar; Regexp.EndText].

(** The pattern of [lineAsReportedTodo]: start of text, group 1, the
    literal "TODO(", group 2, the literal "): ", group 3, end of text. *)
Definition reportedTodo : Regexp.regexp :=
  [Regexp.BeginText; Regexp.CaptureDotStar; Regexp.Literal "TODO(";
   Regexp.CaptureDotStar; Regexp.Literal "): "; Regexp.CaptureDotStar;
   Regexp.EndText].

Definition lineAsUnreportedTodo (projectConfig : Config.ProjectConfig)
    (line : string) : option Todo :=
  match Regexp.FindStringSubmatch unreportedTodo line with
  | Some groups =>
      let prefix := Regexp.group groups 1 in
      let suffix := Regexp.group groups 2 in
      let title := Config.Transform (Config.Title projectConfig) suffix in
      Some {| Prefix := prefix; Suffix := suffix; ID := None;
              Filename := ""; Line := 0; Title := title |}
  | None => None
  end.

Definition lineAsReportedTodo (projectConfig : Config.ProjectConfig)
    (line : string) : option Todo :=
  match Regexp.FindStringSubmatch reportedTodo line with
  | Some groups =>
      let prefix := Regexp.group groups 1 in
      let suffix := Regexp.group groups 3 in
      let id := Regexp.group groups 2 in
      let title := Config.Transform (Config.Title projectConfig) suffix in
      Some {| Prefix := prefix; Suffix := suffix; ID := Some id;
              Filename := ""; Line := 0; Title := title |}
  | None => None
  end.

(** [LineAsTodo] constructs a Todo from a string: the unreported shape is
    tried first. *)
Definition LineAsTodo (projectConfig : Config.ProjectConfig) (line : string)
    : option Todo :=
  match lineAsUnreportedTodo projectConfig line with
  | Some todo => Some todo
  | None =>
      match lineAsReportedTodo projectConfig line with
      | Some todo => Some todo
      | None => None
      end
  end.


(** The pattern of [lineAsReportedTodo] after its start-of-text anchor. *)
Definition reported_tail : Regexp.regexp :=
  Regexp.CaptureDotStar :: Regexp.Literal "TODO(" :: Regexp.two_groups "): ".

(** The Todos that the two parsers build from the captured groups. *)
Definition unreported (projectConfig : Config.ProjectConfig) (p q : string)
    : Todo :=
  {| Prefix := p; Suffix := q; ID := None; Filename := ""; Line := 0;
     Title := Config.Transform (Config.Title projectConfig) q |}.

Definition reported (projectConfig : Config.ProjectConfig) (p i q : string)
    : Todo :=
  {| Prefix := p; Suffix := q; ID := Some i; Filename := ""; Line := 0;
     Title := Config.Transform (Config.Title projectConfig) q |}.

(** ** The earlier version of the parser

    In the earlier version of the program the parser takes no project
    configuration and a Todo has no title; the patterns and the order of
    the two attempts are the same. *)

Module Legacy.

Record Todo : Type := mkTodo {
  Prefix : string;
  Suffix : string;
  Id : option string;
  Filename : string;
  Line : Z
}.

Definition LineAsUnreportedTodo (line : string) : option Todo :=
  match Regexp.FindStringSubmatch unreportedTodo line with
  | Some groups =>
      Some {| Prefix := Regexp.group groups 1; Suffix := Regexp.group groups 2;
              Id := None; Filename := ""; Line := 0 |}
  | None => None
  end.

Definition LineAsReportedTodo (line : string) : option Todo :=
  match Regexp.FindStringSubmatch reportedTodo line with
  | Some groups =>
      Some {| Prefix := Regexp.group groups 1; Suffix := Regexp.group groups 3;
              Id := Some (Regexp.group groups 2); Filename := ""; Line := 0 |}
  | None => None
  end.

Definition LineAsTodo (line : string) : option Todo :=
  match LineAsUnreportedTodo line with
  | Some todo => Some todo
  | None =>
      match LineAsReportedTodo line with
      | Some todo => Some todo
      | None => None
      end
  end.

End Legacy.

(** The earlier version is the current parser with the title forgotten. *)
Definition forgetTitle (todo : Todo) : Legacy.Todo :=
  {| Legacy.Prefix := Prefix todo; Legacy.Suffix := Suffix todo;
     Legacy.Id := ID todo; Legacy.Filename := Filename todo;
     Legacy.Line := Line todo |}.

(** A project configuration whose title transformation is the identity. *)
Definition plainConfig : Config.ProjectConfig :=
  {| Config.Title := {| Config.Transform := λ suffix, suffix |} |}.

(** ** Go's [int] and [error] *)

Module GoInt.

(** [int] is a 64-bit two's complement integer; arithmetic wraps around. *)
Definition wrap (z : Z) : Z := (z + 2 ^ 63) mod 2 ^ 64 - 2 ^ 63.

Definition add (a b : Z) : Z := wrap (a + b).

Definition in_range (z : Z) : Prop := - 2 ^ 63 ≤ z < 2 ^ 63.

End GoInt.

(** The error values that reach the program.  [None : option error] is
    Go's [nil] error. *)
Inductive error : Type :=
| EOF                                  (* io.EOF *)
| ErrTooLong                           (* bufio.ErrTooLong *)
| PathError (op path why : string)     (* os.PathError *)
| LinkError (op old new why : string)  (* os.LinkError *)
| ExitError (code : Z)                 (* exec.ExitError *)
| OtherError (msg : string).           (* any other error value *)

#[global] Instance error_eq_dec : EqDecision error.
Proof. solve_decision. Defined.

(** ** [bufio.Scanner] with the default split function [ScanLines] *)

Module Bufio.

(** [bufio.MaxScanTokenSize]: a line of this many bytes or more does not fit
    the scanner's buffer. *)
Definition MaxScanTokenSize : Z := 64 * 1024.

(** The segments of [data] between line feeds; the last segment is what
    follows the last line feed (empty when [data] ends with one). *)
Fixpoint split_LF (data : string) : list string :=
  match data with
  | EmptyString => [EmptyString]
  | String c rest =>
      if Str.is_newline c then EmptyString :: split_LF rest
      else match split_LF rest with
           | seg :: segs => String c seg :: segs
           | [] => [String c EmptyString]
           end
  end.

(** [dropCR] drops a terminal carriage return. *)
Fixpoint dropCR (s : string) : string :=
  match s with
  | EmptyString => EmptyString
  | String c EmptyString => if Ascii.eqb c Str.CR then EmptyString else s
  | String c s' => String c (dropCR s')
  end.

Definition too_long (seg : string) : bool := MaxScanTokenSize <=? Str.len seg.

(** The tokens that successive calls of [Scan] deliver and the value of
    [Err()] once [Scan] has returned false.  Every segment is a token, with
    its terminal carriage return dropped, except an empty last segment;
    scanning stops at the first segment that does not fit the buffer. *)
Fixpoint scan_segments (segs : list string) : list string * option error :=
  match segs with
  | [] => ([], None)
  | seg :: rest =>
      if too_long seg then ([], Some ErrTooLong)
      else match rest with
           | [] => (if Str.is_empty seg then [] else [dropCR seg], None)
           | _ :: _ =>
               let '(toks, err) := scan_segments rest in
               (dropCR seg :: toks, err)
           end
  end.

Record Scanner : Type := mkScanner { tokens : list string; Err : option error }.

(** What the scanner reads from: the bytes that the reader delivers, and the
    error that ends the reading when it is not the end of the input. *)
Record Input : Type := mkInput { delivered : string; read_err : option error }.

(** A [bytes.Buffer], or a file that is read to its end. *)
Definition Buffer (data : string) : Input := mkInput data None.

(** After a read error the scanner still delivers the bytes it holds, as at
    the end of the input, and [Err()] is the error. *)
Definition NewScanner (r : Input) : Scanner :=
  let '(toks, err) := scan_segments (split_LF (delivered r)) in
  mkScanner toks (match err with Some e => Some e | None => read_err r end).

End Bufio.

(** ** The file system seen by the rewriter

    The rewriter opens, creates, appends to and renames regular files.  The
    model keeps the contents of the regular files by path, a set of paths on
    which creation and replacement are refused, and the paths whose reading
    fails, with the number of bytes delivered before the failure and its
    error. *)

Module OS.

Record FS : Type := mkFS {
  files : gmap string string;
  locked : gset string;
  faults : gmap string (nat * error)
}.

(** An open file is designated by its path: truncating the path truncates
    what a reader opened before sees. *)
Definition File : Type := string.

(** [os.Open], for reading.  The model knows one failure of it, the
    missing file. *)
Definition Open (fs : FS) (name : string) : error + File :=
  match files fs !! name with
  | Some _ => inr name
  | None => inl (PathError "open" name "no such file or directory")
  end.

(** [os.Create] truncates the file when it exists. *)
Definition Create (fs : FS) (name : string) : error + (File * FS) :=
  if decide (name ∈ locked fs)
  then inl (PathError "open" name "permission denied")
  else inr (name,
            mkFS (<[name := EmptyString]> (files fs)) (locked fs) (faults fs)).

Definition contents (fs : FS) (f : File) : string :=
  default EmptyString (files fs !! f).

(** What a reader of the open file [f] receives. *)
Definition read (fs : FS) (f : File) : Bufio.Input :=
  match faults fs !! f with
  | Some (k, err) => Bufio.mkInput (Str.firstn k (contents fs f)) (Some err)
  | None => Bufio.Buffer (contents fs f)
  end.

(** [fmt.Fprintln(f, s)] appends [s] and a line feed. *)
Definition Fprintln (fs : FS) (f : File) (s : string) : FS :=
  mkFS (<[f := contents fs f +:+ s +:+ Str.NL]> (files fs)) (locked fs)
    (faults fs).

Definition Rename (fs : FS) (oldpath newpath : string) : FS * option error :=
  match files fs !! oldpath with
  | None =>
      (fs, Some (LinkError "rename" oldpath newpath "no such file or directory"))
  | Some data =>
      if decide (newpath ∈ locked fs)
      then (fs, Some (LinkError "rename" oldpath newpath "permission denied"))
      else (mkFS (<[newpath := data]> (delete oldpath (files fs))) (locked fs)
              (faults fs), None)
  end.

End OS.

(** ** The in-place rewriter (todo.go) *)

Definition LineCallback : Type := Z → string → string * bool.

(** The loop [for scanner.Scan()] of [updateToFile]. *)
Fixpoint scanLoop (lineCallback : LineCallback) (outputFile : OS.File)
    (lines : list string) (lineNumber : Z) (fs : OS.FS) : OS.FS :=
  match lines with
  | [] => fs
  | line :: rest =>
      let '(replace, remove) := lineCallback lineNumber line in
      let fs' := if remove then fs else OS.Fprintln fs outputFile replace in
      scanLoop lineCallback outputFile rest (GoInt.add lineNumber 1) fs'
  end.

(** [updateToFile]: the value returned is the error of [os.Create], which is
    nil once the loop is reached: [scanner.Err()] is not consulted, the
    result of [Fprintln] is dropped, and the deferred assignment of the
    error of [Close] comes after the result has been fixed. *)
Definition updateToFile (todo : Todo) (outputFilename : string)
    (lineCallback : LineCallback) (fs : OS.FS) : OS.FS * option error :=
  match OS.Open fs (Filename todo) with
  | inl err => (fs, Some err)
  | inr inputFile =>
      match OS.Create fs outputFilename with
      | inl err => (fs, Some err)
      | inr (outputFile, fs1) =>
          let scanner := Bufio.NewScanner (OS.read fs1 inputFile) in
          (scanLoop lineCallback outputFile (Bufio.tokens scanner) 1 fs1, None)
      end
  end.

Definition updateInPlace (todo : Todo) (lineCallback : LineCallback)
    (fs : OS.FS) : OS.FS * option error :=
  let outputFilename := Filename todo +:+ ".snitch" in
  match updateToFile todo outputFilename lineCallback fs with
  | (fs1, Some err) => (fs1, Some err)
  | (fs1, None) => OS.Rename fs1 outputFilename (Filename todo)
  end.

(** [Update] updates the file where the Todo is located in-place. *)
Definition Update (todo : Todo) (fs : OS.FS) : OS.FS * option error :=
  updateInPlace todo
    (λ lineNumber line,
       if lineNumber =? Line todo then (Todo_String todo, false)
       else (line, false))
    fs.

(** [Remove] removes the Todo from the file where it is located in-place. *)
Definition Remove (todo : Todo) (fs : OS.FS) : OS.FS * option error :=
  updateInPlace todo
    (λ lineNumber line,
       if lineNumber =? Line todo then (EmptyString, true)
       else (line, false))
    fs.

(** ** The tree walker (todo.go) *)

Module Walk.

(** A [bufio.Reader] over an opened file, as [ReadLine] shows it: the texts
    that remain to be returned, and the error returned once they are
    exhausted ([EOF] at the end of the file). *)
Record Reader : Type := mkReader { pending : list string; failure : error }.

(** [reader.ReadLine()]: the text, the error and the reader afterwards. *)
Definition ReadLine (reader : Reader) : string * option error * Reader :=
  match pending reader with
  | text :: rest => (text, None, mkReader rest (failure reader))
  | [] => (EmptyString, Some (failure reader), reader)
  end.

(** What the walker observes of its environment: the result of [os.Open]
    for every path, and the exit status and standard output of
    "git ls-files" for every directory. *)
Record World : Type := mkWorld {
  os_Open : string → error + Reader;
  git_ls_files : string → option error * string
}.

Section Visitor.

(** The visitor is a closure; [St] is the state it captures. *)
Context {St : Type}.

Definition Visit : Type := Todo → St → St * option error.

(** The loop of [WalkTodosOfFile], by recursion on the state of the reader:
    [texts] are the results of the calls of [ReadLine] that succeed,
    [failure] is the error of the call that ends the loop, [line] is the
    loop counter. *)
Fixpoint walkLines (projectConfig : Config.ProjectConfig) (path : string)
    (visit : Visit) (texts : list string) (failure : error) (line : Z)
    (st : St) : St * option error :=
  match texts with
  | [] => (st, if decide (failure = EOF) then None else Some failure)
  | text :: rest =>
      match LineAsTodo projectConfig text with
      | Some todo =>
          let todo := {| Prefix := Prefix todo; Suffix := Suffix todo;
                         ID := ID todo; Filename := path; Line := line;
                         Title := Title todo |} in
          match visit todo st with
          | (st', Some err) => (st', Some err)
          | (st', None) =>
              walkLines projectConfig path visit rest failure
                (GoInt.add line 1) st'
          end
      | None =>
          walkLines projectConfig path visit rest failure
            (GoInt.add line 1) st
      end
  end.

(** [WalkTodosOfFile] visits all of the TODOs in a particular file. *)
Definition WalkTodosOfFile (projectConfig : Config.ProjectConfig)
    (w : World) (path : string) (visit : Visit) (st : St)
    : St * option error :=
  match os_Open w path with
  | inl err => (st, Some err)
  | inr reader =>
      walkLines projectConfig path visit (pending reader) (failure reader) 1 st
  end.

(** The loop of [WalkTodosOfDir] over the lines of the listing. *)
Fixpoint walkFiles (projectConfig : Config.ProjectConfig) (w : World)
    (visit : Visit) (filepaths : list string) (st : St)
    : St * option error :=
  match filepaths with
  | [] => (st, None)
  | filepath :: rest =>
      match WalkTodosOfFile projectConfig w filepath visit st with
      | (st', Some err) => (st', Some err)
      | (st', None) => walkFiles projectConfig w visit rest st'
      end
  end.

(** [WalkTodosOfDir] visits all of the TODOs in a particular directory. *)
Definition WalkTodosOfDir (projectConfig : Config.ProjectConfig)
    (w : World) (dirpath : string) (visit : Visit) (st : St)
    : St * option error :=
  match git_ls_files w dirpath with
  | (Some err, _) => (st, Some err)
  | (None, outb) =>
      walkFiles projectConfig w visit
        (Bufio.tokens (Bufio.NewScanner (Bufio.Buffer outb))) st
  end.

End Visitor.

End Walk.

(** ** Text files as sequences of lines *)

Module Text.

(** [chop segs] drops the empty segment that follows a final line feed. *)
Fixpoint chop (segs : list string) : list string :=
  match segs with
  | [] => []
  | seg :: rest =>
      match rest with
      | [] => if Str.is_empty seg then [] else [seg]
      | _ :: _ => seg :: chop rest
      end
  end.

(** The lines of a text: what stands between its line feeds. *)
Definition lines (data : string) : list string := chop (Bufio.split_LF data).

(** The text made of the given lines, each followed by a line feed. *)
Fixpoint unlines (ls : list string) : string :=
  match ls with
  | [] => EmptyString
  | l :: rest => l +:+ Str.NL +:+ unlines rest
  end.

Fixpoint ends_with (c : ascii) (s : string) : bool :=
  match s with
  | EmptyString => false
  | String d EmptyString => Ascii.eqb d c
  | String _ s' => ends_with c s'
  end.

(** The text with a line feed added at its end when it is not empty and
    does not end with one. *)
Definition normalize_eof (data : string) : string :=
  if Str.is_empty data || ends_with Str.LF data then data
  else data +:+ Str.NL.

(** [short data]: every line of [data] is shorter than the scanner's
    buffer. *)
Definition short (data : string) : bool :=
  forallb (λ seg, negb (Bufio.too_long seg)) (Bufio.split_LF data).

(** [no_cr data]: no line of [data] ends with a carriage return. *)
Definition no_cr (data : string) : bool :=
  forallb (λ seg, negb (ends_with Str.CR seg)) (Bufio.split_LF data).

(** The copy that the rewriter makes of a text: every line without its
    terminal carriage return, followed by a line feed. *)
Definition copy (data : string) : string :=
  unlines (Bufio.dropCR <$> lines data).

End Text.

(** ** [bufio.Reader] and [ReadLine]

    [bufio.NewReader] gives the reader a buffer of 4096 bytes.  [ReadLine]
    returns a line without its line feed, and without the carriage return
    before it; a line that does not fit the buffer comes in pieces, one for
    each call, the walker dropping the flag that says so.  When a full
    buffer ends with a carriage return, that byte is left for the next
    call.  At the end of the input what follows the last line feed is
    returned as it is, unless it is empty. *)

Module ReadLine.

Definition defaultBufSize : nat := 4096.

(** [drop n s]: [s] without its first [n] bytes (the slice [s[n:]]). *)
Fixpoint drop (n : nat) (s : string) : string :=
  match n, s with
  | S n', String _ s' => drop n' s'
  | _, _ => s
  end.

(** How many bytes of a segment that fills the buffer a call returns. *)
Definition taken (seg : string) : nat :=
  if Text.ends_with Str.CR (Str.firstn defaultBufSize seg)
  then pred defaultBufSize else defaultBufSize.

(** The texts returned for what remains of a segment between line feeds;
    [terminated] tells whether a line feed follows the segment.  Every
    call but the last takes at least 4095 bytes, so that [fuel] above the
    length of the segment is enough. *)
Fixpoint pieces (fuel : nat) (terminated : bool) (seg : string)
    : list string :=
  match fuel with
  | O => []
  | S fuel' =>
      if (String.length seg <? defaultBufSize)%nat
      then if terminated then [Bufio.dropCR seg]
           else if Str.is_empty seg then [] else [seg]
      else Str.firstn (taken seg) seg
           :: pieces fuel' terminated (drop (taken seg) seg)
  end.

Fixpoint texts_of (segs : list string) : list string :=
  match segs with
  | [] => []
  | seg :: rest =>
      match rest with
      | [] => pieces (S (String.length seg)) false seg
      | _ :: _ => pieces (S (String.length seg)) true seg ++ texts_of rest
      end
  end.

(** The texts that successive calls of [ReadLine] return on an input of
    bytes [data] that is read to its end. *)
Definition texts (data : string) : list string :=
  texts_of (Bufio.split_LF data).

(** [bufio.NewReader] over a file of bytes [data] that is read to its
    end. *)
Definition NewReader (data : string) : Walk.Reader :=
  Walk.mkReader (texts data) EOF.

(** The lines of a text as [ReadLine] means them: every line that ends with
    a line feed without the carriage return before it, and what follows the
    last line feed, when it is not empty, as it is. *)
Fixpoint rows_of (segs : list string) : list string :=
  match segs with
  | [] => []
  | seg :: rest =>
      match rest with
      | [] => if Str.is_empty seg then [] else [seg]
      | _ :: _ => Bufio.dropCR seg :: rows_of rest
      end
  end.

Definition rows (data : string) : list string :=
  rows_of (Bufio.split_LF data).

(** [brief data]: every line of [data] is shorter than the buffer of the
    reader. *)
Definition brief (data : string) : bool :=
  forallb (λ seg, (String.length seg <? defaultBufSize)%nat)
    (Bufio.split_LF data).

End ReadLine.

(** The lines that the loop of [updateToFile] prints. *)
Fixpoint written (lineCallback : LineCallback) (lines : list string)
    (lineNumber : Z) : list string :=
  match lines with
  | [] => []
  | line :: rest =>
      let '(replace, remove) := lineCallback lineNumber line in
      (if remove then [] else [replace])
      ++ written lineCallback rest (GoInt.add lineNumber 1)
  end.

(** The callbacks of [Update] and [Remove]: [hit] on the target line, the
    identity elsewhere. *)
Definition at_line (target : Z) (hit : string * bool) : LineCallback :=
  λ lineNumber line, if lineNumber =? target then hit else (line, false).

(** ** Sample inputs *)

Module Sample.

Definition todoAt (filename : string) (line : Z) : Todo :=
  {| Prefix := "// "; Suffix := "fix"; ID := Some "#7"; Filename := filename;
     Line := line; Title := "fix" |}.

(** A file system with the single file "f". *)
Definition disk (data : string) : OS.FS := OS.mkFS {[ "f" := data ]} ∅ ∅.

(** The same, on a device that fails after delivering [k] bytes of "f". *)
Definition badDisk (data : string) (k : nat) : OS.FS :=
  OS.mkFS {[ "f" := data ]} ∅
    {[ "f" := (k, PathError "read" "f" "input/output error") ]}.

(** Two lines ended by line feeds. *)
Definition unixText : string := "a" +:+ Str.NL +:+ "b" +:+ Str.NL.

(** Two lines ended by carriage return and line feed. *)
Definition dosText : string :=
  "a" +:+ String Str.CR Str.NL +:+ "b" +:+ String Str.CR Str.NL.

(** A line that ends with a carriage return of its own, then a line "b". *)
Definition crText : string :=
  "a" +:+ String Str.CR (String Str.CR Str.NL) +:+ "b" +:+ Str.NL.

(** A line "a", a line of 65536 bytes, a line "b". *)
Definition longText : string :=
  "a" +:+ Str.NL +:+ Str.replicate 65536 "x" +:+ Str.NL +:+ "b" +:+ Str.NL.

Definition identity : LineCallback := λ _ line, (line, false).

End Sample.

Module SampleWalk.
Import Walk.

(** Three tracked files: "a" and "c" hold one TODO each, "b" cannot be
    opened. *)
Definition world : World :=
  {| os_Open := λ path,
       if String.eqb path "b"
       then inl (PathError "open" "b" "permission denied")
       else inr (mkReader ["// TODO: in " +:+ path] EOF);
     git_ls_files := λ _,
       (None, "a" +:+ Str.NL +:+ "b" +:+ Str.NL +:+ "c" +:+ Str.NL) |}.

(** A visitor that records the Todos it is given. *)
Definition record : @Visit (list Todo) := λ todo seen, (seen ++ [todo], None).

(** A visitor that records the Todo it is given and fails. *)
Definition refuse : @Visit (list Todo) :=
  λ todo seen, (seen ++ [todo], Some (OtherError "refused")).

End SampleWalk.

(** ** The log form of a Todo (todo.go) *)

Module Fmt.

(** The verb "%d" of [fmt] on an [int]: decimal digits, with a minus sign
    for a negative number. *)
Definition d (z : Z) : string := NilZero.string_of_int (Z.to_int z).

End Fmt.

(** [LogString] formats TODO for compilation logging. *)
Definition LogString (todo : Todo) : string :=
  match ID todo with
  | None =>
      Filename todo +:+ ":" +:+ Fmt.d (Line todo) +:+ ": "
      +:+ Prefix todo +:+ "TODO: " +:+ Suffix todo
  | Some id =>
      Filename todo +:+ ":" +:+ Fmt.d (Line todo) +:+ ": "
      +:+ Prefix todo +:+ "TODO(" +:+ id +:+ "): " +:+ Suffix todo
  end.

(** ** The subcommands (main.go) *)

Module Main.

(** The console of the process: what remains to be read from the standard
    input, as [ReadString] shows it, and what has been printed. *)
Record Console : Type := mkConsole {
  stdin : Walk.Reader;
  stdout : string
}.

(** The state that the visitor of [reportSubcommand] captures. *)
Record ReportState : Type := mkReportState {
  console : Console;
  todosToReport : list Todo
}.

Definition question : string := "Do you want to report this? [y/n] ".

Definition yes : string := "y" +:+ Str.NL.
Definition no : string := "n" +:+ Str.NL.

(** The visitor of [listSubcommand]: it prints the log form and a line
    feed. *)
Definition listVisit : @Walk.Visit Console :=
  λ todo c,
    (mkConsole (stdin c) (stdout c +:+ LogString todo +:+ Str.NL), None).

(** The reads of the visitor of [reportSubcommand]: the first call of
    [ReadString] and the loop that asks again until the answer is [yes] or
    [no] or the read fails.  The result is the last text, the last error,
    the replies that remain and the output. *)
Fixpoint ask (replies : list string) (failure : error) (out : string)
    : string * option error * list string * string :=
  match replies with
  | [] => (EmptyString, Some failure, [], out)
  | text :: rest =>
      if negb (String.eqb text yes) && negb (String.eqb text no)
      then ask rest failure (out +:+ question)
      else (text, None, rest, out)
  end.

(** The visitor of [reportSubcommand]. *)
Definition reportVisit : @Walk.Visit ReportState :=
  λ todo st,
    match ID todo with
    | None =>
        let c := console st in
        let out := stdout c +:+ LogString todo +:+ Str.NL +:+ question in
        match ask (Walk.pending (stdin c)) (Walk.failure (stdin c)) out with
        | (text, err, rest, out') =>
            let c' := mkConsole (Walk.mkReader rest (Walk.failure (stdin c)))
                        out' in
            match err with
            | Some e => (mkReportState c' (todosToReport st), Some e)
            | None =>
                if String.eqb text no
                then (mkReportState c' (todosToReport st), None)
                else (mkReportState c' (todosToReport st ++ [todo]), None)
            end
        end
    | Some _ => (st, None)
    end.

End Main.

(** ** The walker of the earlier version *)

Module LegacyWalk.

Section Visitor.
Context {St : Type}.

Definition Visit : Type := Legacy.Todo → St → St * option error.

(** The loop [for scanner.Scan()] of the earlier [WalkTodosOfFile]. *)
Fixpoint scanLoop (path : string) (visit : Visit) (texts : list string)
    (line : Z) (st : St) : St * option error + St :=
  match texts with
  | [] => inr st
  | text :: rest =>
      match Legacy.LineAsTodo text with
      | Some todo =>
          let todo := {| Legacy.Prefix := Legacy.Prefix todo;
                         Legacy.Suffix := Legacy.Suffix todo;
                         Legacy.Id := Legacy.Id todo;
                         Legacy.Filename := path; Legacy.Line := line |} in
          match visit todo st with
          | (st', Some err) => inl (st', Some err)
          | (st', None) => scanLoop path visit rest (GoInt.add line 1) st'
          end
      | None => scanLoop path visit rest (GoInt.add line 1) st
      end
  end.

(** The earlier [WalkTodosOfFile]: the error of the visitor, or else
    [scanner.Err()]. *)
Definition WalkTodosOfFile (fs : OS.FS) (path : string) (visit : Visit)
    (st : St) : St * option error :=
  match OS.Open fs path with
  | inl err => (st, Some err)
  | inr file =>
      let scanner := Bufio.NewScanner (OS.read fs file) in
      match scanLoop path visit (Bufio.tokens scanner) 1 st with
      | inl result => result
      | inr st' => (st', Bufio.Err scanner)
      end
  end.

End Visitor.

End LegacyWalk.

(** ** The first version (main.go) *)

Module Oldest.

(** The log form of the first version ends with a line feed. *)
Definition String (todo : Legacy.Todo) : string :=
  match Legacy.Id todo with
  | None =>
      Legacy.Filename todo +:+ ":" +:+ Fmt.d (Legacy.Line todo) +:+ ": "
      +:+ Legacy.Prefix todo +:+ "TODO: " +:+ Legacy.Suffix todo +:+ Str.NL
  | Some id =>
      Legacy.Filename todo +:+ ":" +:+ Fmt.d (Legacy.Line todo) +:+ ": "
      +:+ Legacy.Prefix todo +:+ "TODO(" +:+ id +:+ "): "
      +:+ Legacy.Suffix todo +:+ Str.NL
  end.

(** [LineAsTodo] of the first version knows the unreported shape only. *)
Definition LineAsTodo (line : string) : option Legacy.Todo :=
  match Regexp.FindStringSubmatch unreportedTodo line with
  | Some groups =>
      Some {| Legacy.Prefix := Regexp.group groups 1;
              Legacy.Suffix := Regexp.group groups 2;
              Legacy.Id := None; Legacy.Filename := ""; Legacy.Line := 0 |}
  | None => None
  end.

(** The loop [for scanner.Scan()] of [TodosOfFile]. *)
Fixpoint scanLoop (path : string) (texts : list string) (line : Z)
    (result : list Legacy.Todo) : list Legacy.Todo :=
  match texts with
  | [] => result
  | text :: rest =>
      match LineAsTodo text with
      | Some todo =>
          let todo := {| Legacy.Prefix := Legacy.Prefix todo;
                         Legacy.Suffix := Legacy.Suffix todo;
                         Legacy.Id := Legacy.Id todo;
                         Legacy.Filename := path; Legacy.Line := line |} in
          scanLoop path rest (GoInt.add line 1) (result ++ [todo])
      | None => scanLoop path rest (GoInt.add line 1) result
      end
  end.

(** [TodosOfFile]: the Todos found and [scanner.Err()], both. *)
Definition TodosOfFile (fs : OS.FS) (path : string)
    : list Legacy.Todo * option error :=
  match OS.Open fs path with
  | inl err => ([], Some err)
  | inr file =>
      let scanner := Bufio.NewScanner (OS.read fs file) in
      (scanLoop path (Bufio.tokens scanner) 1 [], Bufio.Err scanner)
  end.

End Oldest.

(** ** The Todos of a file, and visiting them in turn *)

(** The Todo with its location set, as the walker does. *)
Definition located (path : string) (line : Z) (todo : Todo) : Todo :=
  {| Prefix := Prefix todo; Suffix := Suffix todo; ID := ID todo;
     Filename := path; Line := line; Title := Title todo |}.

(** The Todos of the texts of a file, numbered from 1. *)
Definition todosOf (projectConfig : Config.ProjectConfig) (path : string)
    (texts : list string) : list Todo :=
  omap id
    (imap (λ i text,
             located path (1 + Z.of_nat i) <$> LineAsTodo projectConfig text)
          texts).

(** Visiting Todos in turn until a visit fails. *)
Fixpoint feed {St : Type} (visit : @Walk.Visit St) (todos : list Todo)
    (st : St) : St * option error :=
  match todos with
  | [] => (st, None)
  | todo :: rest =>
      match visit todo st with
      | (st', Some err) => (st', Some err)
      | (st', None) => feed visit rest st'
      end
  end.

(** The end of [WalkTodosOfFile] after the visits: the error of a visit, or
    else the error of the reader unless it is [EOF]. *)
Definition finish {St : Type} (failure : error) (r : St * option error)
    : St * option error :=
  match r with
  | (st, Some err) => (st, Some err)
  | (st, None) => (st, if decide (failure = EOF) then None else Some failure)
  end.

(** The Todos that [WalkTodosOfFile] builds from the texts of a file: the
    number of a Todo is the loop counter, an [int] that starts at 1. *)
Definition visited (projectConfig : Config.ProjectConfig) (path : string)
    (texts : list string) : list Todo :=
  omap id
    (imap (λ i text,
             located path (GoInt.wrap (1 + Z.of_nat i))
             <$> LineAsTodo projectConfig text)
          texts).

(** ** What the subcommands print *)

Module Printed.

(** The texts put end to end. *)
Definition join (ls : list string) : string :=
  foldr String.append EmptyString ls.

(** What [list] prints for the text at index [i] of a file: nothing when
    the text holds no Todo, or else the path, the line number, the text
    itself and a line feed. *)
Definition logLine (projectConfig : Config.ProjectConfig) (path : string)
    (i : nat) (text : string) : string :=
  match LineAsTodo projectConfig text with
  | Some _ =>
      path +:+ ":" +:+ Fmt.d (1 + Z.of_nat i) +:+ ": " +:+ text +:+ Str.NL
  | None => EmptyString
  end.

Definition listing (projectConfig : Config.ProjectConfig) (path : string)
    (texts : list string) : string :=
  join (imap (logLine projectConfig path) texts).

(** The question of [report], [n] times. *)
Fixpoint questions (n : nat) : string :=
  match n with
  | O => EmptyString
  | S n' => Main.question +:+ questions n'
  end.

(** A reply that is neither [yes] nor [no]. *)
Definition unclear (reply : string) : Prop :=
  reply ≠ Main.yes ∧ reply ≠ Main.no.

End Printed.

(** * Properties *)

(** ** Facts about strings *)

Module StrFacts.
Import Str.

Lemma app_nil_r (s : string) : s +:+ "" = s.
Proof. induction s as [|c s IH]; simpl; [done | by rewrite IH]. Qed.

Lemma app_assoc (a b c : string) : (a +:+ b) +:+ c = a +:+ b +:+ c.
Proof. induction a as [|x a IH]; simpl; [done | by rewrite IH]. Qed.

Lemma length_app (a b : string) :
  String.length (a +:+ b) = (String.length a + String.length b)%nat.
Proof. induction a as [|x a IH]; simpl; [done | by rewrite IH]. Qed.

Lemma app_inv_head (a b c : string) : a +:+ b = a +:+ c → b = c.
Proof. induction a as [|x a IH]; simpl; intros H; [done|]. apply IH. by simplify_eq. Qed.

(** Two ways of cutting one string differ by a middle piece. *)
Lemma app_eq_app (a b c d : string) :
  a +:+ b = c +:+ d →
  (∃ w, c = a +:+ w ∧ b = w +:+ d) ∨ (∃ w, a = c +:+ w ∧ d = w +:+ b).
Proof.
  revert c. induction a as [|x a IH]; intros c H; simpl in H.
  - left. by exists c.
  - destruct c as [|y c]; simpl in H.
    + right. exists (String x a). by subst d.
    + injection H as -> H. destruct (IH _ H) as [[w [-> ->]]|[w [-> ->]]].
      * left. by exists w.
      * right. by exists w.
Qed.

(** A cut further to the right extends a cut further to the left. *)
Lemma app_eq_app_longer (a b c d : string) :
  a +:+ b = c +:+ d → (String.length a < String.length c)%nat →
  ∃ x w, c = a +:+ String x w ∧ b = String x w +:+ d.
Proof.
  intros H Hlen. destruct (app_eq_app _ _ _ _ H) as [[w [-> ->]]|[w [-> ->]]].
  - destruct w as [|x w]; [rewrite app_nil_r in Hlen; lia|]. by exists x, w.
  - rewrite length_app in Hlen. lia.
Qed.

Lemma app_eq_length (a b c d : string) :
  a +:+ b = c +:+ d → String.length a = String.length c → a = c ∧ b = d.
Proof.
  intros H Hlen. destruct (app_eq_app _ _ _ _ H) as [[w [-> ->]]|[w [-> ->]]];
    rewrite length_app in Hlen; destruct w; simpl in Hlen; try lia;
    by rewrite app_nil_r.
Qed.

Lemma strip_prefix_Some (lit s r : string) :
  strip_prefix lit s = Some r ↔ s = lit +:+ r.
Proof.
  revert s. induction lit as [|c lit IH]; intros s; simpl.
  - split; congruence.
  - destruct s as [|d s]; [done|].
    destruct (Ascii.eqb_spec c d) as [->|Hne].
    + rewrite IH. split; [by intros -> | by intros [= ->]].
    + split; [done | by intros [= -> _]].
Qed.

Lemma strip_prefix_app (lit r : string) : strip_prefix lit (lit +:+ r) = Some r.
Proof. by apply strip_prefix_Some. Qed.

Lemma contains_true (pat s : string) :
  contains pat s = true ↔ ∃ u v, s = u +:+ pat +:+ v.
Proof.
  induction s as [|c s IH]; simpl.
  - destruct (strip_prefix pat "") as [r|] eqn:E.
    + apply strip_prefix_Some in E. split; [|done]. intros _. by exists "", r.
    + split; [done|]. intros ([|] & v & H); simpl in H; [|done].
      apply strip_prefix_Some in H. congruence.
  - destruct (strip_prefix pat (String c s)) as [r|] eqn:E.
    + apply strip_prefix_Some in E. split; [|done]. intros _. by exists "", r.
    + rewrite IH. split.
      * intros (u & v & ->). by exists (String c u), v.
      * intros ([|x u] & v & H); simpl in H.
        -- apply strip_prefix_Some in H. congruence.
        -- injection H as _ ->. by exists u, v.
Qed.

Lemma contains_false (pat s : string) :
  contains pat s = false ↔ ∀ u v, s ≠ u +:+ pat +:+ v.
Proof.
  rewrite <- not_true_iff_false, contains_true. split.
  - intros H u v E. apply H. by exists u, v.
  - intros H (u & v & E). by apply (H u v).
Qed.

Lemma no_newline_app (a b : string) :
  no_newline (a +:+ b) = no_newline a && no_newline b.
Proof. induction a as [|x a IH]; simpl; [done|]. by rewrite IH, andb_assoc. Qed.

End StrFacts.

(** ** Facts about the matcher *)

Module RegexpFacts.
Import Str StrFacts Regexp.

Section Dotstar.
Context {R : Type}.
Implicit Types (k : string → string → option R).

Lemma dotstar_ext s k1 k2 :
  (∀ a b, k1 a b = k2 a b) → dotstar s k1 = dotstar s k2.
Proof.
  revert k1 k2. induction s as [|c s IH]; intros k1 k2 H; simpl; [done|].
  rewrite (IH (λ a b, k1 (String c a) b) (λ a b, k2 (String c a) b)), !H;
    [done|]. intros a b. apply H.
Qed.

(** The greedy loop fails exactly when the continuation fails on every
    split whose left part has no line feed. *)
Lemma dotstar_None s k :
  dotstar s k = None ↔
  ∀ a b, s = a +:+ b → no_newline a = true → k a b = None.
Proof.
  revert k. induction s as [|c s IH]; intros k; simpl.
  - split.
    + intros H [|x a] b E _; simpl in E; [by subst b | done].
    + intros H. by apply H.
  - destruct (is_newline c) eqn:Hc.
    + split.
      * intros H [|x a] b E Ha; simpl in E; [by subst b|].
        injection E as <- _. simpl in Ha. by rewrite Hc in Ha.
      * intros H. by apply H.
    + destruct (dotstar s (λ a b, k (String c a) b)) as [r|] eqn:E.
      * split; [done|]. intros H. exfalso.
        assert (dotstar s (λ a b, k (String c a) b) = None) as E';
          [|congruence].
        apply IH. intros a b -> Ha. apply H; [done|].
        simpl. by rewrite Hc, Ha.
      * rewrite IH in E. split.
        -- intros H [|x a] b Eab Ha; simpl in Eab; [by subst b|].
           injection Eab as <- ->. apply E; [done|].
           simpl in Ha. by rewrite Hc in Ha.
        -- intros H. by apply H.
Qed.

(** When the greedy loop succeeds, the result comes from the longest
    split on which the continuation succeeds. *)
Lemma dotstar_Some s k r :
  dotstar s k = Some r →
  ∃ a b, s = a +:+ b ∧ no_newline a = true ∧ k a b = Some r ∧
    ∀ a' b', s = a' +:+ b' → no_newline a' = true →
             (String.length a < String.length a')%nat → k a' b' = None.
Proof.
  revert k. induction s as [|c s IH]; intros k; simpl.
  - intros H. exists "", "". repeat split; [done|].
    intros [|x a'] b' E _ Hlen; simpl in *; [lia | done].
  - destruct (is_newline c) eqn:Hc.
    + intros H. exists "", (String c s). repeat split; [done|].
      intros [|x a'] b' E Ha' Hlen; simpl in *; [lia|].
      injection E as <- _. by rewrite Hc in Ha'.
    + destruct (dotstar s (λ a b, k (String c a) b)) as [r'|] eqn:E.
      * intros [= ->]. destruct (IH _ E) as (a & b & -> & Ha & Hk & Hmax).
        exists (String c a), b. simpl. rewrite Hc, Ha. repeat split; [done|].
        intros [|x a'] b' Eab Ha' Hlen; simpl in *; [lia|].
        injection Eab as <- Eab. rewrite Hc in Ha'.
        apply (Hmax a' b'); [done | done | lia].
      * intros H. exists "", (String c s). repeat split; [done|].
        intros [|x a'] b' Eab Ha' Hlen; simpl in *; [lia|].
        injection Eab as <- ->. rewrite Hc in Ha'.
        rewrite dotstar_None in E. by apply E.
Qed.

(** Conversely, the longest successful split determines the result. *)
Lemma dotstar_longest s k a b r :
  s = a +:+ b → no_newline a = true → k a b = Some r →
  (∀ a' b', s = a' +:+ b' → no_newline a' = true →
            (String.length a < String.length a')%nat → k a' b' = None) →
  dotstar s k = Some r.
Proof.
  intros Hs Ha Hk Hmax.
  destruct (dotstar s k) as [r0|] eqn:E.
  - destruct (dotstar_Some _ _ _ E) as (a0 & b0 & Hs0 & Ha0 & Hk0 & Hmax0).
    destruct (Nat.lt_trichotomy (String.length a) (String.length a0))
      as [Hlt|[Heq|Hgt]].
    + rewrite (Hmax a0 b0 Hs0 Ha0 Hlt) in Hk0. done.
    + rewrite Hs in Hs0. destruct (app_eq_length _ _ _ _ Hs0 Heq) as [-> ->].
      congruence.
    + rewrite (Hmax0 a b Hs Ha Hgt) in Hk. done.
  - rewrite dotstar_None in E. rewrite (E a b Hs Ha) in Hk. done.
Qed.

End Dotstar.

(** A pattern that starts with the start-of-text anchor can only match at
    offset 0. *)
Lemma find_from_anchored_false re s :
  find_from (BeginText :: re) false s = None.
Proof. induction s as [|c s IH]; simpl; [done | exact IH]. Qed.

Lemma FindStringSubmatch_anchored re s :
  FindStringSubmatch (BeginText :: re) s =
  match exec re true s with
  | Some (groups, rest) =>
      Some (firstn (String.length s - String.length rest) s :: groups)
  | None => None
  end.
Proof.
  unfold FindStringSubmatch. destruct s as [|c s]; simpl.
  - by destruct (exec re true "") as [[??]|].
  - destruct (exec re true (String c s)) as [[??]|]; [done|].
    apply find_from_anchored_false.
Qed.

(** The last group and the end-of-text anchor: the rest of the text is
    captured when it has no line feed. *)
Lemma exec_last_group bot s :
  exec [CaptureDotStar; EndText] bot s =
  if no_newline s then Some ([s], "") else None.
Proof.
  simpl. destruct (no_newline s) eqn:Hs.
  - apply (dotstar_longest _ _ s ""); [by rewrite app_nil_r | done | done |].
    intros a' b' E _ Hlen. apply (f_equal String.length) in E.
    rewrite length_app in E. destruct b'; simpl in *; [lia | done].
  - apply dotstar_None. intros a [|x b] -> Ha; [|done].
    rewrite app_nil_r in Hs. congruence.
Qed.

(** *** A literal between two groups

    The tail "group, literal, group, end of text" is shared by the two
    patterns of the program.  [free lit] says that an occurrence of [lit]
    cannot overlap a later occurrence of [lit]. *)

Lemma exec_literal_last_group lit bot s :
  exec [Literal lit; CaptureDotStar; EndText] bot s =
  match strip_prefix lit s with
  | Some q => if no_newline q then Some ([q], "") else None
  | None => None
  end.
Proof.
  change (exec [Literal lit; CaptureDotStar; EndText] bot s) with
    (match strip_prefix lit s with
     | Some s' => exec [CaptureDotStar; EndText] (bot && is_empty lit) s'
     | None => None
     end).
  destruct (strip_prefix lit s); [apply exec_last_group | done].
Qed.

Lemma exec_two_groups_unfold lit bot s :
  exec (two_groups lit) bot s =
  dotstar s (λ a b,
    match strip_prefix lit b with
    | Some q => if no_newline q then Some ([a; q], "") else None
    | None => None
    end).
Proof.
  change (exec (two_groups lit) bot s) with
    (dotstar s (λ a b,
       match exec [Literal lit; CaptureDotStar; EndText]
               (bot && is_empty a) b with
       | Some (groups, rest) => Some (a :: groups, rest)
       | None => None
       end)).
  apply dotstar_ext. intros a b. rewrite exec_literal_last_group.
  by destruct (strip_prefix lit b) as [q|]; [destruct (no_newline q)|].
Qed.

Lemma two_groups_sound lit bot s groups rest :
  lit ≠ "" → no_newline lit = true →
  exec (two_groups lit) bot s = Some (groups, rest) →
  ∃ p q, groups = [p; q] ∧ rest = "" ∧ s = p +:+ lit +:+ q ∧
         no_newline s = true ∧ contains lit q = false.
Proof.
  intros Hne Hlit. rewrite exec_two_groups_unfold. intros H.
  destruct (dotstar_Some _ _ _ H) as (p & b & -> & Hp & Hk & Hmax).
  destruct (strip_prefix lit b) as [q|] eqn:Eb; [|done].
  apply strip_prefix_Some in Eb as ->.
  destruct (no_newline q) eqn:Hq; [|done]. injection Hk as <- <-.
  exists p, q. repeat split.
  - by rewrite !no_newline_app, Hp, Hlit, Hq.
  - apply contains_false. intros u v ->.
    rewrite !no_newline_app in Hq. apply andb_prop in Hq as [Hu Hv].
    apply andb_prop in Hv as [_ Hv].
    specialize (Hmax (p +:+ lit +:+ u) (lit +:+ v)).
    rewrite strip_prefix_app, Hv in Hmax. discriminate Hmax.
    + by rewrite !app_assoc.
    + by rewrite !no_newline_app, Hp, Hlit, Hu.
    + rewrite !length_app. destruct lit; simpl; [done | lia].
Qed.

Lemma two_groups_complete lit bot p q :
  free lit → no_newline (p +:+ lit +:+ q) = true → contains lit q = false →
  exec (two_groups lit) bot (p +:+ lit +:+ q) = Some ([p; q], "").
Proof.
  intros Hfree Hnl Hq. rewrite exec_two_groups_unfold.
  rewrite !no_newline_app in Hnl. apply andb_prop in Hnl as [Hp Hnl].
  apply andb_prop in Hnl as [_ Hnl].
  apply (dotstar_longest _ _ p (lit +:+ q)); [done | done | |].
  - by rewrite strip_prefix_app, Hnl.
  - intros a' b' E _ Hlen.
    destruct (strip_prefix lit b') as [q'|] eqn:Eb; [|done].
    apply strip_prefix_Some in Eb as ->.
    destruct (app_eq_app_longer _ _ _ _ E Hlen) as (x & w & -> & E').
    destruct (Hfree _ _ _ _ E') as [u ->].
    rewrite contains_false in Hq. by destruct (Hq u q').
Qed.

Lemma two_groups_exists lit bot s :
  no_newline s = true → contains lit s = true →
  exec (two_groups lit) bot s ≠ None.
Proof.
  intros Hnl (u & v & ->)%contains_true. rewrite exec_two_groups_unfold.
  rewrite dotstar_None. intros H. specialize (H u (lit +:+ v) eq_refl).
  rewrite !no_newline_app in Hnl. apply andb_prop in Hnl as [Hu Hnl].
  apply andb_prop in Hnl as [_ Hv].
  rewrite strip_prefix_app, Hv in H. by specialize (H Hu).
Qed.

(** *** Cutting a literal in two *)

Lemma splits_spec s d w : s = d +:+ w → In (d, w) (splits s).
Proof.
  revert d. induction s as [|c s IH]; intros d E.
  - destruct d; simpl in E; [subst w; by left | done].
  - destruct d as [|x d]; simpl in E; [subst w; by left|].
    injection E as <- E. right. apply in_map_iff.
    exists (d, w). split; [done | by apply IH].
Qed.

(** Enumerate the ways in which the literal of [H : lit = d +:+ w] is cut. *)
Ltac cut_literal H :=
  apply splits_spec in H; simpl in H;
  repeat (destruct H as [H|H]); try done; simplify_eq/=.

Lemma free_unreported_marker : free "TODO: ".
Proof.
  intros x w q y E.
  destruct (app_eq_app _ _ _ _ E) as [[u [Hd ->]]|[u [Hl Hy]]]; [by exists u|].
  cut_literal Hl. by exists "".
Qed.

Lemma free_close_marker : free "): ".
Proof.
  intros x w q y E.
  destruct (app_eq_app _ _ _ _ E) as [[u [Hd ->]]|[u [Hl Hy]]]; [by exists u|].
  cut_literal Hl. by exists "".
Qed.

(** *** The tail of the reported pattern *)

Lemma exec_Literal lit re bot s :
  exec (Literal lit :: re) bot s =
  match strip_prefix lit s with
  | Some s' => exec re (bot && is_empty lit) s'
  | None => None
  end.
Proof. reflexivity. Qed.

Lemma exec_reported_unfold bot s :
  exec reported_tail bot s =
  dotstar s (λ a b,
    match strip_prefix "TODO(" b with
    | Some x =>
        match exec (two_groups "): ") false x with
        | Some (groups, rest) => Some (a :: groups, rest)
        | None => None
        end
    | None => None
    end).
Proof.
  change (exec reported_tail bot s) with
    (dotstar s (λ a b,
       match exec (Literal "TODO(" :: two_groups "): ")
               (bot && is_empty a) b with
       | Some (groups, rest) => Some (a :: groups, rest)
       | None => None
       end)).
  apply dotstar_ext. intros a b. rewrite exec_Literal.
  destruct (strip_prefix "TODO(" b) as [x|]; [|done].
  by rewrite !exec_two_groups_unfold.
Qed.

Lemma reported_sound bot s groups rest :
  exec reported_tail bot s = Some (groups, rest) →
  ∃ p i q, groups = [p; i; q] ∧ rest = "" ∧
           s = p +:+ "TODO(" +:+ i +:+ "): " +:+ q ∧ no_newline s = true.
Proof.
  rewrite exec_reported_unfold. intros H.
  destruct (dotstar_Some _ _ _ H) as (p & b & -> & Hp & Hk & _).
  destruct (strip_prefix "TODO(" b) as [x|] eqn:Eb; [|done].
  apply strip_prefix_Some in Eb as ->.
  destruct (exec (two_groups "): ") false x) as [[gs r]|] eqn:Ex; [|done].
  injection Hk as <- <-.
  apply two_groups_sound in Ex as (i & q & -> & -> & -> & Hx & _); [|done..].
  exists p, i, q. repeat split.
  by rewrite no_newline_app, (no_newline_app "TODO("), Hp, Hx.
Qed.

(** No second opening marker can start after the first one when the
    identifier has no "TODO(" and the suffix has no "): ". *)
Lemma no_later_marker u i q i' q' :
  contains "TODO(" i = false → contains "): " q = false →
  i +:+ "): " +:+ q ≠ u +:+ "TODO(" +:+ i' +:+ "): " +:+ q'.
Proof.
  rewrite !contains_false. intros Hi Hq E.
  destruct (app_eq_app _ _ _ _ E) as [[v [-> Hv]]|[v [-> Hv]]].
  - destruct (app_eq_app _ _ _ _ Hv) as [[z [-> Hz]]|[z [Hl Hz]]].
    + apply (Hq (z +:+ "TODO(" +:+ i') q'). by rewrite !app_assoc.
    + cut_literal Hl. by apply (Hq ("TODO(" +:+ i') q').
  - destruct (app_eq_app _ _ _ _ Hv) as [[z [-> Hz]]|[z [Hl Hz]]].
    + by apply (Hi u z).
    + cut_literal Hl. by apply (Hi u "").
Qed.

Lemma reported_complete bot p i q :
  no_newline (p +:+ "TODO(" +:+ i +:+ "): " +:+ q) = true →
  contains "TODO(" i = false → contains "): " q = false →
  exec reported_tail bot (p +:+ "TODO(" +:+ i +:+ "): " +:+ q)
  = Some ([p; i; q], "").
Proof.
  intros Hnl Hi Hq. rewrite exec_reported_unfold.
  pose proof Hnl as Hnl'. rewrite no_newline_app in Hnl'.
  apply andb_prop in Hnl' as [Hp Hx].
  rewrite (no_newline_app "TODO(") in Hx. simpl in Hx.
  apply (dotstar_longest _ _ p ("TODO(" +:+ i +:+ "): " +:+ q));
    [done | done | |].
  - rewrite strip_prefix_app, two_groups_complete;
      [done | apply free_close_marker | done | done].
  - intros a' b' E _ Hlen.
    destruct (strip_prefix "TODO(" b') as [x'|] eqn:Eb; [|done].
    apply strip_prefix_Some in Eb as ->.
    destruct (exec (two_groups "): ") false x') as [[gs r]|] eqn:Ex; [|done].
    exfalso.
    apply two_groups_sound in Ex as (i' & q' & _ & _ & -> & _ & _); [|done..].
    destruct (app_eq_app_longer _ _ _ _ E Hlen) as (x & w & -> & E').
    destruct (app_eq_app _ _ _ _ E') as [[u [_ Hu]]|[u [Hl Hu]]].
    + by apply (no_later_marker u i q i' q').
    + cut_literal Hl. by apply (no_later_marker "" i q i' q').
Qed.

End RegexpFacts.


(** ** Facts about the parser *)

Module ParseFacts.
Import Str StrFacts Regexp RegexpFacts.

Lemma find_unreported line :
  FindStringSubmatch unreportedTodo line =
  match exec (two_groups "TODO: ") true line with
  | Some (groups, rest) =>
      Some (firstn (String.length line - String.length rest) line :: groups)
  | None => None
  end.
Proof. apply FindStringSubmatch_anchored. Qed.

Lemma find_reported line :
  FindStringSubmatch reportedTodo line =
  match exec reported_tail true line with
  | Some (groups, rest) =>
      Some (firstn (String.length line - String.length rest) line :: groups)
  | None => None
  end.
Proof. apply FindStringSubmatch_anchored. Qed.

(** The unreported shape matches a line by cutting it at its last
    "TODO: ". *)
Lemma lineAsUnreportedTodo_Some cfg line t :
  lineAsUnreportedTodo cfg line = Some t ↔
  ∃ p q, line = p +:+ "TODO: " +:+ q ∧ no_newline line = true ∧
         contains "TODO: " q = false ∧ t = unreported cfg p q.
Proof.
  unfold lineAsUnreportedTodo. rewrite find_unreported. split.
  - destruct (exec _ true line) as [[gs rest]|] eqn:E; [|done].
    apply two_groups_sound in E as (p & q & -> & -> & -> & Hnl & Hq);
      [|done..].
    intros [= <-]. by exists p, q.
  - intros (p & q & -> & Hnl & Hq & ->).
    rewrite two_groups_complete; [done | apply free_unreported_marker | done..].
Qed.

Lemma lineAsUnreportedTodo_None cfg line :
  lineAsUnreportedTodo cfg line = None ↔
  no_newline line = false ∨ contains "TODO: " line = false.
Proof.
  split.
  - intros H. destruct (no_newline line) eqn:Hnl; [|by left]. right.
    destruct (contains "TODO: " line) eqn:Hc; [|done].
    unfold lineAsUnreportedTodo in H. rewrite find_unreported in H.
    pose proof (two_groups_exists "TODO: " true line Hnl Hc) as Hex.
    by destruct (exec _ true line) as [[gs rest]|].
  - intros H. destruct (lineAsUnreportedTodo cfg line) as [t|] eqn:E; [|done].
    apply lineAsUnreportedTodo_Some in E as (p & q & -> & Hnl & _ & _).
    destruct H as [H|H]; [congruence|].
    rewrite contains_false in H. by destruct (H p q).
Qed.

Lemma lineAsReportedTodo_Some cfg line t :
  lineAsReportedTodo cfg line = Some t →
  ∃ p i q, line = p +:+ "TODO(" +:+ i +:+ "): " +:+ q ∧
           no_newline line = true ∧ t = reported cfg p i q.
Proof.
  unfold lineAsReportedTodo. rewrite find_reported.
  destruct (exec _ true line) as [[gs rest]|] eqn:E; [|done].
  apply reported_sound in E as (p & i & q & -> & -> & -> & Hnl).
  intros [= <-]. by exists p, i, q.
Qed.

(** A reported match leaves no later opening marker in the identifier and
    no later closing marker in the suffix. *)
Lemma reported_groups_greedy bot s p i q rest :
  exec reported_tail bot s = Some ([p; i; q], rest) →
  contains "TODO(" i = false ∧ contains "): " q = false.
Proof.
  rewrite exec_reported_unfold. intros H.
  destruct (dotstar_Some _ _ _ H) as (p' & b & -> & Hp & Hk & Hmax).
  destruct (strip_prefix "TODO(" b) as [x|] eqn:Eb; [|done].
  apply strip_prefix_Some in Eb as ->.
  destruct (exec (two_groups "): ") false x) as [[gs r]|] eqn:Ex; [|done].
  injection Hk as -> -> ->.
  apply two_groups_sound in Ex as (i' & q' & [= <- <-] & _ & -> & Hx & Hq);
    [|done..].
  split; [|done]. apply contains_false. intros u v ->.
  rewrite !no_newline_app in Hx.
  apply andb_prop in Hx as [[Hu Hv]%andb_prop Hx].
  apply andb_prop in Hv as [_ Hv].
  specialize (Hmax (p +:+ "TODO(" +:+ u) ("TODO(" +:+ v +:+ "): " +:+ q)).
  rewrite strip_prefix_app in Hmax.
  pose proof (two_groups_exists "): " false (v +:+ "): " +:+ q)) as Hex.
  destruct (exec (two_groups "): ") false (v +:+ "): " +:+ q)) as [[gs r]|].
  - discriminate Hmax.
    + by rewrite !app_assoc.
    + by rewrite no_newline_app, (no_newline_app "TODO("), Hp, Hu.
    + rewrite !length_app. simpl. lia.
  - apply Hex; [| |done].
    + by rewrite no_newline_app, Hv.
    + apply contains_true. by exists v, q.
Qed.

Lemma lineAsReportedTodo_greedy cfg line t id :
  lineAsReportedTodo cfg line = Some t → ID t = Some id →
  contains "TODO(" id = false ∧ contains "): " (Suffix t) = false.
Proof.
  unfold lineAsReportedTodo. rewrite find_reported.
  destruct (exec _ true line) as [[gs rest]|] eqn:E; [|done].
  pose proof E as E'.
  apply reported_sound in E' as (p & i & q & -> & -> & -> & Hnl).
  intros [= <-] [= <-]. simpl. by apply (reported_groups_greedy _ _ p _ _ _ E).
Qed.

Lemma lineAsReportedTodo_complete cfg p i q :
  no_newline (p +:+ "TODO(" +:+ i +:+ "): " +:+ q) = true →
  contains "TODO(" i = false → contains "): " q = false →
  lineAsReportedTodo cfg (p +:+ "TODO(" +:+ i +:+ "): " +:+ q)
  = Some (reported cfg p i q).
Proof.
  intros Hnl Hi Hq. unfold lineAsReportedTodo.
  by rewrite find_reported, reported_complete.
Qed.

End ParseFacts.

Module LegacyFacts.

Lemma LineAsUnreportedTodo_forget cfg line :
  Legacy.LineAsUnreportedTodo line =
  forgetTitle <$> lineAsUnreportedTodo cfg line.
Proof.
  unfold Legacy.LineAsUnreportedTodo, lineAsUnreportedTodo.
  by destruct (Regexp.FindStringSubmatch unreportedTodo line).
Qed.

Lemma LineAsReportedTodo_forget cfg line :
  Legacy.LineAsReportedTodo line = forgetTitle <$> lineAsReportedTodo cfg line.
Proof.
  unfold Legacy.LineAsReportedTodo, lineAsReportedTodo.
  by destruct (Regexp.FindStringSubmatch reportedTodo line).
Qed.

Lemma LineAsTodo_forget cfg line :
  Legacy.LineAsTodo line = forgetTitle <$> LineAsTodo cfg line.
Proof.
  unfold Legacy.LineAsTodo, LineAsTodo.
  rewrite (LineAsUnreportedTodo_forget cfg), (LineAsReportedTodo_forget cfg).
  destruct (lineAsUnreportedTodo cfg line); [done|].
  by destruct (lineAsReportedTodo cfg line).
Qed.

End LegacyFacts.

(** ** The marker grammar: properties *)

Section Grammar.
Import Str StrFacts ParseFacts.
Variable projectConfig : Config.ProjectConfig.

(** C8.  Parsing "  // TODO: fix this" yields prefix "  // ", suffix
    "fix this" and no identifier; parsing "x := 1 // TODO(#42): refactor"
    yields prefix "x := 1 // ", suffix "refactor" and identifier "#42". *)
Theorem C8_parse_examples :
  LineAsTodo projectConfig "  // TODO: fix this"
  = Some {| Prefix := "  // "; Suffix := "fix this"; ID := None;
            Filename := ""; Line := 0;
            Title := Config.Transform (Config.Title projectConfig) "fix this" |}
  ∧ lineAsUnreportedTodo projectConfig "  // TODO: fix this"
    = LineAsTodo projectConfig "  // TODO: fix this"
  ∧ LineAsTodo projectConfig "x := 1 // TODO(#42): refactor"
    = Some {| Prefix := "x := 1 // "; Suffix := "refactor"; ID := Some "#42";
              Filename := ""; Line := 0;
              Title := Config.Transform (Config.Title projectConfig) "refactor" |}
  ∧ lineAsReportedTodo projectConfig "x := 1 // TODO(#42): refactor"
    = LineAsTodo projectConfig "x := 1 // TODO(#42): refactor".
Proof. repeat split; vm_compute; reflexivity. Qed.

(** C9.  A line accepted by the unreported pattern is cut at its last
    occurrence of "TODO: ": prefix, "TODO: " and suffix put together give the
    line back, the suffix does not contain "TODO: ", and no occurrence of
    "TODO: " in the line starts after the prefix.  The same holds for the
    earlier version of the parser. *)
Theorem C9_unreported_cut_at_last_marker (line : string) (todo : Todo) :
  lineAsUnreportedTodo projectConfig line = Some todo →
  line = Prefix todo +:+ "TODO: " +:+ Suffix todo
  ∧ contains "TODO: " (Suffix todo) = false
  ∧ (∀ u v, line = u +:+ "TODO: " +:+ v →
            (String.length u ≤ String.length (Prefix todo))%nat)
  ∧ Legacy.LineAsUnreportedTodo line = Some (forgetTitle todo).
Proof.
  intros H.
  assert (Legacy.LineAsUnreportedTodo line = Some (forgetTitle todo)) as HL.
  { by rewrite (LegacyFacts.LineAsUnreportedTodo_forget projectConfig), H. }
  apply lineAsUnreportedTodo_Some in H as (p & q & -> & Hnl & Hq & ->).
  repeat split; [done | | done].
  - simpl. intros u v E. apply Nat.nlt_ge. intros Hlen.
    destruct (app_eq_app_longer _ _ _ _ E Hlen) as (x & w & -> & E').
    destruct (RegexpFacts.free_unreported_marker _ _ _ _ E') as [z ->].
    rewrite contains_false in Hq. by destruct (Hq z v).
Qed.

(** C7.  For a string matched by the unreported pattern, the canonical form
    of its parse is the string itself, so parsing it again gives the same
    Todo, with [lineAsUnreportedTodo] as with [LineAsTodo]. *)
Theorem C7_unreported_round_trip_stable (s : string) :
  Regexp.FindStringSubmatch unreportedTodo s ≠ None →
  ∃ todo, LineAsTodo projectConfig s = Some todo
    ∧ lineAsUnreportedTodo projectConfig s = Some todo
    ∧ Todo_String todo = s
    ∧ LineAsTodo projectConfig (Todo_String todo) = LineAsTodo projectConfig s
    ∧ lineAsUnreportedTodo projectConfig (Todo_String todo)
      = lineAsUnreportedTodo projectConfig s.
Proof.
  intros Hm.
  destruct (lineAsUnreportedTodo projectConfig s) as [todo|] eqn:E.
  - exists todo. unfold LineAsTodo. rewrite E.
    pose proof E as (p & q & -> & _ & _ & ->)%lineAsUnreportedTodo_Some.
    change (Todo_String (unreported projectConfig p q))
      with (p +:+ "TODO: " +:+ q).
    by rewrite E.
  - unfold lineAsUnreportedTodo in E.
    by destruct (Regexp.FindStringSubmatch unreportedTodo s).
Qed.

End Grammar.

(** Witness of C9 on the line "a TODO: b TODO: c". *)
Lemma C9_witness :
  let todo := {| Prefix := "a TODO: b "; Suffix := "c"; ID := None;
                 Filename := ""; Line := 0; Title := "c" |} in
  lineAsUnreportedTodo plainConfig "a TODO: b TODO: c" = Some todo
  ∧ "a TODO: b TODO: c" = Prefix todo +:+ "TODO: " +:+ Suffix todo
  ∧ Str.contains "TODO: " (Suffix todo) = false.
Proof.
  intros todo.
  assert (lineAsUnreportedTodo plainConfig "a TODO: b TODO: c" = Some todo)
    as H by (vm_compute; reflexivity).
  split; [exact H|].
  destruct (C9_unreported_cut_at_last_marker plainConfig _ _ H)
    as (H1 & H2 & _).
  exact (conj H1 H2).
Defined.

(** Witness of C7 on the line "// TODO: x". *)
Lemma C7_witness :
  Regexp.FindStringSubmatch unreportedTodo "// TODO: x" ≠ None
  ∧ ∃ todo, LineAsTodo plainConfig "// TODO: x" = Some todo
      ∧ LineAsTodo plainConfig (Todo_String todo)
        = LineAsTodo plainConfig "// TODO: x".
Proof.
  assert (Regexp.FindStringSubmatch unreportedTodo "// TODO: x" ≠ None)
    as H by (vm_compute; discriminate).
  split; [exact H|].
  destruct (C7_unreported_round_trip_stable plainConfig "// TODO: x" H)
    as (todo & H1 & _ & _ & H2 & _).
  exists todo. exact (conj H1 H2).
Defined.

Section RoundTrip.
Import Str StrFacts ParseFacts.
Variable projectConfig : Config.ProjectConfig.

(** C2, as amended.  Parsing the canonical form of a Todo gives back its
    prefix, suffix and identifier when the canonical form has no line feed
    and, for an unreported Todo, the suffix does not contain "TODO: "; for a
    reported Todo, the canonical form does not contain "TODO: ", the
    identifier does not contain "TODO(" and the suffix does not contain
    "): ". *)
Theorem C2_canonical_form_round_trip (todo : Todo) :
  no_newline (Todo_String todo) = true →
  match ID todo with
  | None => contains "TODO: " (Suffix todo) = false
  | Some id =>
      contains "TODO: " (Todo_String todo) = false
      ∧ contains "TODO(" id = false
      ∧ contains "): " (Suffix todo) = false
  end →
  ∃ todo', LineAsTodo projectConfig (Todo_String todo) = Some todo'
    ∧ Prefix todo' = Prefix todo
    ∧ Suffix todo' = Suffix todo
    ∧ ID todo' = ID todo.
Proof.
  destruct todo as [p q [i|] f l ti]; cbv [Todo_String ID Prefix Suffix];
    intros Hnl Hc.
  - destruct Hc as (Hu & Hi & Hq).
    exists (reported projectConfig p i q). unfold LineAsTodo.
    assert (lineAsUnreportedTodo projectConfig
              (p +:+ "TODO(" +:+ i +:+ "): " +:+ q) = None) as ->
      by (apply lineAsUnreportedTodo_None; by right).
    by rewrite lineAsReportedTodo_complete.
  - exists (unreported projectConfig p q). unfold LineAsTodo.
    assert (lineAsUnreportedTodo projectConfig (p +:+ "TODO: " +:+ q)
            = Some (unreported projectConfig p q)) as ->; [|done].
    apply lineAsUnreportedTodo_Some. by exists p, q.
Qed.

(** The conditions of C2 are also necessary. *)
Lemma round_trip_only_if (todo todo' : Todo) :
  LineAsTodo projectConfig (Todo_String todo) = Some todo' →
  Prefix todo' = Prefix todo → Suffix todo' = Suffix todo →
  ID todo' = ID todo →
  no_newline (Todo_String todo) = true
  ∧ match ID todo with
    | None => contains "TODO: " (Suffix todo) = false
    | Some id =>
        contains "TODO: " (Todo_String todo) = false
        ∧ contains "TODO(" id = false
        ∧ contains "): " (Suffix todo) = false
    end.
Proof.
  unfold LineAsTodo. intros H Hp Hq Hi.
  destruct (lineAsUnreportedTodo projectConfig (Todo_String todo))
    as [t|] eqn:Eu.
  - injection H as ->.
    apply lineAsUnreportedTodo_Some in Eu as (p & q & E & Hnl & Hc & ->).
    simpl in *. rewrite <- Hi, <- Hq. done.
  - destruct (lineAsReportedTodo projectConfig (Todo_String todo))
      as [t|] eqn:Er; [|done].
    injection H as ->.
    pose proof Er as (p & i & q & E & Hnl & ->)%lineAsReportedTodo_Some.
    simpl in *. rewrite <- Hi, <- Hq. split; [done|].
    apply lineAsUnreportedTodo_None in Eu as [Eu|Eu]; [congruence|].
    split; [done|]. by apply (lineAsReportedTodo_greedy _ _ _ i Er).
Qed.

(** C3, as amended.  [LineAsTodo] tries the unreported shape first.  A line
    that matches the unreported pattern is parsed as an unreported Todo,
    also when it matches the reported pattern; a line that matches the
    reported pattern is parsed as a reported Todo exactly when it does not
    contain "TODO: ".  The earlier version of the parser agrees. *)
Theorem C3_unreported_shape_wins (line : string) :
  (Regexp.FindStringSubmatch unreportedTodo line ≠ None →
     ∃ todo, LineAsTodo projectConfig line = Some todo ∧ ID todo = None
       ∧ lineAsUnreportedTodo projectConfig line = Some todo)
  ∧ (Regexp.FindStringSubmatch reportedTodo line ≠ None →
       (∃ todo id, LineAsTodo projectConfig line = Some todo
                   ∧ ID todo = Some id)
       ↔ contains "TODO: " line = false)
  ∧ Legacy.LineAsTodo line = forgetTitle <$> LineAsTodo projectConfig line.
Proof.
  split; [|split].
  - intros Hm. unfold LineAsTodo.
    destruct (lineAsUnreportedTodo projectConfig line) as [todo|] eqn:E.
    + exists todo. repeat split.
      by apply lineAsUnreportedTodo_Some in E as (p & q & _ & _ & _ & ->).
    + unfold lineAsUnreportedTodo in E.
      by destruct (Regexp.FindStringSubmatch unreportedTodo line).
  - intros Hm.
    destruct (lineAsReportedTodo projectConfig line) as [t|] eqn:Er.
    2:{ unfold lineAsReportedTodo in Er.
        by destruct (Regexp.FindStringSubmatch reportedTodo line). }
    pose proof Er as (p & i & q & E & Hnl & Ht)%lineAsReportedTodo_Some.
    unfold LineAsTodo. split.
    + intros (todo & id & H & Hid).
      destruct (lineAsUnreportedTodo projectConfig line) as [u|] eqn:Eu.
      * injection H as ->.
        apply lineAsUnreportedTodo_Some in Eu as (? & ? & _ & _ & _ & ->).
        done.
      * apply lineAsUnreportedTodo_None in Eu as [Eu|Eu]; congruence.
    + intros Hc.
      assert (lineAsUnreportedTodo projectConfig line = None) as ->
        by (apply lineAsUnreportedTodo_None; by right).
      exists t, i. rewrite Er. by rewrite Ht.
  - apply LegacyFacts.LineAsTodo_forget.
Qed.

End RoundTrip.

(** C2 fails as stated: the canonical form of the unreported Todo with empty
    prefix and suffix "TODO: x" is parsed with prefix "TODO: " and suffix
    "x"; the canonical form of the reported Todo with identifier "#1" and
    suffix "TODO: x" is parsed as an unreported Todo. *)
Lemma C2_counterexample :
  let u := {| Prefix := ""; Suffix := "TODO: x"; ID := None;
              Filename := ""; Line := 0; Title := "" |} in
  let r := {| Prefix := ""; Suffix := "TODO: x"; ID := Some "#1";
              Filename := ""; Line := 0; Title := "" |} in
  (∃ todo', LineAsTodo plainConfig (Todo_String u) = Some todo'
            ∧ Prefix todo' = "TODO: " ∧ Prefix todo' ≠ Prefix u
            ∧ Suffix todo' = "x" ∧ Suffix todo' ≠ Suffix u)
  ∧ (∃ todo', LineAsTodo plainConfig (Todo_String r) = Some todo'
              ∧ ID todo' = None ∧ ID todo' ≠ ID r).
Proof.
  intros u r. split; eexists; (split; [vm_compute; reflexivity|]);
    simpl; repeat split; discriminate.
Qed.

(** Witness of C2 on a reported Todo. *)
Lemma C2_witness :
  let todo := {| Prefix := "x := 1 // "; Suffix := "refactor";
                 ID := Some "#42"; Filename := "main.go"; Line := 7;
                 Title := "refactor" |} in
  Str.no_newline (Todo_String todo) = true
  ∧ (Str.contains "TODO: " (Todo_String todo) = false
     ∧ Str.contains "TODO(" "#42" = false
     ∧ Str.contains "): " (Suffix todo) = false)
  ∧ ∃ todo', LineAsTodo plainConfig (Todo_String todo) = Some todo'
      ∧ Prefix todo' = Prefix todo ∧ Suffix todo' = Suffix todo
      ∧ ID todo' = ID todo.
Proof.
  intros todo.
  assert (Str.no_newline (Todo_String todo) = true) as H1 by reflexivity.
  assert (Str.contains "TODO: " (Todo_String todo) = false
          ∧ Str.contains "TODO(" "#42" = false
          ∧ Str.contains "): " (Suffix todo) = false) as H2
    by (repeat split; reflexivity).
  exact (conj H1 (conj H2
           (C2_canonical_form_round_trip plainConfig todo H1 H2))).
Defined.

(** C3 fails as stated: the line "TODO(#1): TODO: x" matches the reported
    pattern and is parsed as an unreported Todo. *)
Lemma C3_counterexample :
  Regexp.FindStringSubmatch reportedTodo "TODO(#1): TODO: x"
  = Some ["TODO(#1): TODO: x"; ""; "#1"; "TODO: x"]
  ∧ LineAsTodo plainConfig "TODO(#1): TODO: x"
    = Some {| Prefix := "TODO(#1): "; Suffix := "x"; ID := None;
              Filename := ""; Line := 0; Title := "x" |}
  ∧ Legacy.LineAsTodo "TODO(#1): TODO: x"
    = Some {| Legacy.Prefix := "TODO(#1): "; Legacy.Suffix := "x";
              Legacy.Id := None; Legacy.Filename := ""; Legacy.Line := 0 |}.
Proof. repeat split; vm_compute; reflexivity. Qed.

(** Witness of C3 on the line "TODO(#1): TODO: x", which matches both
    patterns. *)
Lemma C3_witness :
  Regexp.FindStringSubmatch unreportedTodo "TODO(#1): TODO: x" ≠ None
  ∧ ∃ todo, LineAsTodo plainConfig "TODO(#1): TODO: x" = Some todo
      ∧ ID todo = None.
Proof.
  assert (Regexp.FindStringSubmatch unreportedTodo "TODO(#1): TODO: x" ≠ None)
    as H by (vm_compute; discriminate).
  split; [exact H|].
  destruct (C3_unreported_shape_wins plainConfig "TODO(#1): TODO: x")
    as (H1 & _).
  destruct (H1 H) as (todo & Ht & Hid & _).
  exists todo. exact (conj Ht Hid).
Defined.

(** ** Facts about the scanner and the rewriter *)

Module RewriteFacts.
Import Str StrFacts Text.

Lemma split_LF_nonempty data : Bufio.split_LF data ≠ [].
Proof.
  induction data as [|c data IH]; simpl; [done|].
  destruct (is_newline c); [done|]. by destruct (Bufio.split_LF data).
Qed.

Lemma split_LF_empty data : Bufio.split_LF data = [EmptyString] → data = "".
Proof.
  destruct data as [|c data]; simpl; [done|].
  pose proof (split_LF_nonempty data).
  destruct (is_newline c); destruct (Bufio.split_LF data); naive_solver.
Qed.

Lemma split_LF_no_newline data :
  Forall (λ seg, no_newline seg = true) (Bufio.split_LF data).
Proof.
  induction data as [|c data IH]; simpl; [by repeat constructor|].
  destruct (is_newline c) eqn:Hc; [by constructor|].
  destruct (Bufio.split_LF data) as [|seg segs].
  - repeat constructor. simpl. by rewrite Hc.
  - inversion_clear IH. constructor; [|done]. simpl. by rewrite Hc.
Qed.

(** A line without line feed, followed by a line feed, is the first
    segment. *)
Lemma split_LF_line l rest :
  no_newline l = true →
  Bufio.split_LF (l +:+ String LF rest) = l :: Bufio.split_LF rest.
Proof.
  induction l as [|c l IH]; simpl; [done|].
  intros [Hc Hl]%andb_prop. apply negb_true_iff in Hc. rewrite Hc.
  by rewrite (IH Hl).
Qed.

Lemma chop_cons seg segs : segs ≠ [] → chop (seg :: segs) = seg :: chop segs.
Proof. by destruct segs. Qed.

Lemma lines_unlines ls :
  Forall (λ l, no_newline l = true) ls → lines (unlines ls) = ls.
Proof.
  unfold lines. induction 1 as [|l ls Hl _ IH]; simpl; [done|].
  rewrite split_LF_line, chop_cons, IH; [done | apply split_LF_nonempty | done].
Qed.

Lemma lines_no_newline data : Forall (λ l, no_newline l = true) (lines data).
Proof.
  unfold lines. pose proof (split_LF_no_newline data) as H.
  induction H as [|seg segs Hs _ IH]; simpl; [done|].
  destruct segs; [by destruct (is_empty seg); repeat constructor|].
  by constructor.
Qed.

(** Rebuilding a text from its lines only adds the missing final line
    feed. *)
Lemma unlines_lines data : unlines (lines data) = normalize_eof data.
Proof.
  unfold lines, normalize_eof. induction data as [|c data IH]; [done|].
  simpl Bufio.split_LF. pose proof (split_LF_nonempty data) as Hne.
  pose proof (split_LF_empty data) as Hemp.
  unfold is_newline, LF in *.
  destruct (Ascii.eqb_spec c "010") as [->|Hc].
  - rewrite chop_cons by done. simpl unlines. rewrite IH.
    destruct data as [|d data]; [done|]. simpl.
    by repeat case_match.
  - destruct (Bufio.split_LF data) as [|seg segs] eqn:E; [done|].
    destruct data as [|d data].
    + injection E as <- <-. simpl.
      by destruct (Ascii.eqb_spec c "010").
    + assert (chop (String c seg :: segs) = String c seg :: chop segs
              ∧ chop (seg :: segs) = seg :: chop segs) as [-> E'].
      { destruct segs; [|done]. simpl. destruct seg; [|done].
        by specialize (Hemp eq_refl). }
      rewrite E' in IH. simpl in IH |- *. rewrite IH.
      by repeat case_match.
Qed.

Lemma dropCR_id seg : ends_with CR seg = false → Bufio.dropCR seg = seg.
Proof.
  induction seg as [|c seg IH]; simpl; [done|].
  destruct seg as [|d seg]; [by intros ->|]. intros H. by rewrite IH.
Qed.

Lemma dropCR_no_newline l :
  no_newline l = true → no_newline (Bufio.dropCR l) = true.
Proof.
  induction l as [|c l IH]; [done|]. intros H.
  change (negb (is_newline c) && no_newline l = true) in H.
  apply andb_prop in H as [Hc Hl]. destruct l as [|d l].
  - simpl. destruct (Ascii.eqb c CR); [done|]. simpl. by rewrite Hc.
  - change (negb (is_newline c) && no_newline (Bufio.dropCR (String d l))
            = true).
    by rewrite Hc, (IH Hl).
Qed.

(** When every line fits the buffer the scanner delivers the lines of the
    text, each without its terminal carriage return, and ends without
    error. *)
Lemma NewScanner_short data :
  short data = true →
  Bufio.NewScanner (Bufio.Buffer data)
  = Bufio.mkScanner (Bufio.dropCR <$> lines data) None.
Proof.
  unfold short, Bufio.NewScanner, Bufio.Buffer, lines. simpl.
  induction (Bufio.split_LF data) as [|seg segs IH]; simpl; [done|].
  intros [Hl Hs]%andb_prop. apply negb_true_iff in Hl. rewrite Hl.
  destruct segs as [|seg' segs]; [by destruct seg|].
  specialize (IH Hs). destruct (Bufio.scan_segments (seg' :: segs)) as [toks e].
  injection IH as -> He. destruct e; by simplify_eq.
Qed.

(** Without terminal carriage returns the scanner delivers the lines as
    they are. *)
Lemma map_dropCR_no_cr data :
  no_cr data = true → Bufio.dropCR <$> lines data = lines data.
Proof.
  unfold no_cr, lines.
  induction (Bufio.split_LF data) as [|seg segs IH]; simpl; [done|].
  intros [Hcr Hs]%andb_prop. apply negb_true_iff in Hcr.
  destruct segs as [|seg' segs].
  - destruct (is_empty seg); [done|]. simpl. by rewrite dropCR_id.
  - rewrite fmap_cons, (dropCR_id _ Hcr). f_equal. by apply IH.
Qed.

Lemma copy_no_cr data : no_cr data = true → copy data = normalize_eof data.
Proof. intros H. unfold copy. by rewrite map_dropCR_no_cr, unlines_lines. Qed.

Lemma lines_copy data : lines (copy data) = Bufio.dropCR <$> lines data.
Proof.
  apply lines_unlines, Forall_fmap.
  eapply Forall_impl; [apply lines_no_newline|].
  intros l. apply dropCR_no_newline.
Qed.

Lemma wrap_in_range z : GoInt.in_range z → GoInt.wrap z = z.
Proof.
  unfold GoInt.in_range, GoInt.wrap. intros H.
  rewrite Z.mod_small; lia.
Qed.

Lemma written_identity ls n : written (λ _ line, (line, false)) ls n = ls.
Proof. revert n. induction ls as [|l ls IH]; intros n; simpl; [done | by rewrite IH]. Qed.

(** The counter does not reach a target outside of its course. *)
Lemma written_miss target hit ls n :
  - 2 ^ 63 ≤ n → n + Z.of_nat (length ls) ≤ 2 ^ 63 →
  target < n ∨ n + Z.of_nat (length ls) ≤ target →
  written (at_line target hit) ls n = ls.
Proof.
  revert n. induction ls as [|l ls IH]; intros n Hlo Hhi Ht; [done|].
  cbn [written length] in *. unfold at_line at 1.
  destruct (Z.eqb_spec n target) as [->|Hne]; [lia|].
  simpl. f_equal. destruct ls as [|l' ls]; [done|].
  cbn [length] in *. unfold GoInt.add.
  rewrite wrap_in_range by (unfold GoInt.in_range; lia).
  apply IH; cbn [length]; lia.
Qed.

(** [Remove]'s callback drops the line the counter meets at the target. *)
Lemma written_remove target ls n :
  - 2 ^ 63 ≤ n → n + Z.of_nat (length ls) ≤ 2 ^ 63 →
  n ≤ target < n + Z.of_nat (length ls) →
  written (at_line target (EmptyString, true)) ls n
  = delete (Z.to_nat (target - n)) ls.
Proof.
  revert n. induction ls as [|l ls IH]; intros n Hlo Hhi Ht;
    cbn [length] in *; [lia|].
  cbn [written]. unfold at_line at 1.
  assert (ls = [] ∨ GoInt.add n 1 = n + 1) as [->|Hadd].
  { destruct ls; [by left | right]. cbn [length] in *. unfold GoInt.add.
    apply wrap_in_range. unfold GoInt.in_range. lia. }
  { cbn [length] in *. assert (n = target) as -> by lia.
    rewrite Z.eqb_refl, Z.sub_diag. done. }
  rewrite Hadd. destruct (Z.eqb_spec n target) as [->|Hne].
  - rewrite Z.sub_diag. simpl. apply written_miss; lia.
  - replace (Z.to_nat (target - n)) with (S (Z.to_nat (target - (n + 1))))
      by lia.
    simpl. f_equal. apply IH; lia.
Qed.

Lemma fs_eta fs : OS.mkFS (OS.files fs) (OS.locked fs) (OS.faults fs) = fs.
Proof. by destruct fs. Qed.

(** The loop appends the printed lines to the output file and touches
    nothing else. *)
Lemma scanLoop_spec cb out ls n fs :
  is_Some (OS.files fs !! out) →
  scanLoop cb out ls n fs
  = OS.mkFS (<[out := OS.contents fs out +:+ unlines (written cb ls n)]>
               (OS.files fs)) (OS.locked fs) (OS.faults fs).
Proof.
  revert n fs. induction ls as [|l ls IH]; intros n fs [d Hd]; simpl.
  - unfold OS.contents. rewrite Hd. simpl.
    rewrite app_nil_r, insert_id by done. by rewrite fs_eta.
  - destruct (cb n l) as [replace [|]]; simpl.
    + by apply IH.
    + rewrite IH by (simpl; rewrite lookup_insert_eq; eauto).
      unfold OS.contents at 1. simpl.
      rewrite lookup_insert_eq, insert_insert_eq. simpl.
      by rewrite !app_assoc.
Qed.

Lemma snitch_path_fresh (name : string) : name +:+ ".snitch" ≠ name.
Proof.
  intros H. apply (f_equal String.length) in H.
  rewrite length_app in H. simpl in H. lia.
Qed.

(** [updateToFile] into another, creatable path: the output file receives
    the printed lines; the result is always nil. *)
Lemma updateToFile_spec todo out cb fs data :
  OS.files fs !! Filename todo = Some data →
  out ≠ Filename todo → out ∉ OS.locked fs →
  updateToFile todo out cb fs
  = (OS.mkFS
       (<[out := unlines
                   (written cb
                      (Bufio.tokens
                         (Bufio.NewScanner (OS.read fs (Filename todo)))) 1)]>
          (OS.files fs)) (OS.locked fs) (OS.faults fs), None).
Proof.
  intros Hd Hne Hl. unfold updateToFile, OS.Open, OS.Create.
  rewrite Hd. rewrite decide_False by done.
  rewrite scanLoop_spec by (simpl; rewrite lookup_insert_eq; eauto).
  unfold OS.read, OS.contents. simpl.
  rewrite lookup_insert_eq, (lookup_insert_ne _ out (Filename todo)) by done.
  by rewrite insert_insert_eq.
Qed.

(** [updateInPlace] when nothing is locked: the file receives the printed
    lines, the temporary file is gone and no other file changes. *)
Lemma updateInPlace_spec todo cb fs data :
  OS.files fs !! Filename todo = Some data →
  Filename todo +:+ ".snitch" ∉ OS.locked fs →
  Filename todo ∉ OS.locked fs →
  ∃ fs', updateInPlace todo cb fs = (fs', None)
    ∧ OS.files fs' !! Filename todo
      = Some (unlines
                (written cb
                   (Bufio.tokens
                      (Bufio.NewScanner (OS.read fs (Filename todo)))) 1))
    ∧ OS.files fs' !! (Filename todo +:+ ".snitch") = None
    ∧ ∀ other, other ≠ Filename todo →
        other ≠ Filename todo +:+ ".snitch" →
        OS.files fs' !! other = OS.files fs !! other.
Proof.
  intros Hd Ht Hl. pose proof (snitch_path_fresh (Filename todo)) as Hne.
  unfold updateInPlace. rewrite (updateToFile_spec _ _ _ _ data) by done.
  unfold OS.Rename. simpl. rewrite lookup_insert_eq, decide_False by done.
  eexists. split; [done|]. simpl. repeat split.
  - by rewrite lookup_insert_eq.
  - by rewrite lookup_insert_ne, lookup_delete_eq.
  - intros other H1 H2.
    by rewrite lookup_insert_ne, lookup_delete_ne, lookup_insert_ne.
Qed.

(** A file without fault is read to its end. *)
Lemma read_healthy fs f data :
  OS.files fs !! f = Some data → OS.faults fs !! f = None →
  OS.read fs f = Bufio.Buffer data.
Proof. intros Hd Hf. unfold OS.read, OS.contents. by rewrite Hf, Hd. Qed.

(** The temporary file apart, the loop leaves every file as it was. *)
Lemma updateToFile_frame todo out cb fs fs' err other :
  updateToFile todo out cb fs = (fs', err) → other ≠ out →
  OS.files fs' !! other = OS.files fs !! other.
Proof.
  unfold updateToFile, OS.Open, OS.Create. intros H Hne.
  destruct (OS.files fs !! Filename todo); [|by injection H as <- _].
  destruct (decide (out ∈ OS.locked fs)); [by injection H as <- _|].
  rewrite scanLoop_spec in H by (simpl; rewrite lookup_insert_eq; eauto).
  injection H as <- _. simpl. by rewrite !lookup_insert_ne.
Qed.

(** When [updateInPlace] does return an error, the original file is as it
    was. *)
Lemma updateInPlace_error_keeps_original todo cb fs fs' err :
  updateInPlace todo cb fs = (fs', Some err) →
  OS.files fs' !! Filename todo = OS.files fs !! Filename todo.
Proof.
  unfold updateInPlace. intros H.
  destruct (updateToFile todo (Filename todo +:+ ".snitch") cb fs)
    as [fs1 e] eqn:E.
  apply (updateToFile_frame _ _ _ _ _ _ (Filename todo)) in E;
    [|by intros ?%eq_sym%snitch_path_fresh].
  destruct e; [by injection H as <- _|].
  unfold OS.Rename in H. repeat case_match; by simplify_eq.
Qed.

End RewriteFacts.

(** ** The in-place rewriter: properties *)

Section Rewriter.
Import Str StrFacts Text RewriteFacts.

(** C5, as amended.  When every line of the input is shorter than 65536
    bytes, [updateToFile] with the identity transform writes, to another
    path that can be created, the lines of the input, each without its
    terminal carriage return and followed by a line feed.  When no line ends
    with a carriage return that is the input byte for byte, with a line feed
    added at the end when the input is not empty and lacks it. *)
Theorem C5_identity_rewrite (todo : Todo) (out : string) (fs : OS.FS)
    (data : string) :
  OS.files fs !! Filename todo = Some data →
  OS.faults fs !! Filename todo = None →
  out ≠ Filename todo → out ∉ OS.locked fs →
  short data = true →
  (updateToFile todo out (λ _ line, (line, false)) fs).2 = None
  ∧ OS.files (updateToFile todo out (λ _ line, (line, false)) fs).1 !! out
    = Some (copy data)
  ∧ (no_cr data = true → copy data = normalize_eof data).
Proof.
  intros Hd Hr Hne Hl Hp. rewrite (updateToFile_spec _ _ _ _ data) by done.
  simpl. rewrite lookup_insert_eq, (read_healthy _ _ data) by done.
  rewrite NewScanner_short by done. simpl.
  rewrite written_identity. repeat split. apply copy_no_cr.
Qed.

(** C6, as amended.  When every line of the file is shorter than 65536
    bytes, the file has fewer than 2^63 lines and nothing is locked,
    [Remove] on a Todo whose line number is in the file succeeds and leaves
    a file with one line fewer: the other lines of the old file, in order,
    each without its terminal carriage return; so the other lines as they
    were when no line ends with a carriage return. *)
Theorem C6_remove_deletes_one_line (todo : Todo) (fs : OS.FS) (data : string) :
  OS.files fs !! Filename todo = Some data →
  OS.faults fs !! Filename todo = None →
  Filename todo +:+ ".snitch" ∉ OS.locked fs →
  Filename todo ∉ OS.locked fs →
  short data = true →
  1 ≤ Line todo ≤ Z.of_nat (length (lines data)) →
  Z.of_nat (length (lines data)) < 2 ^ 63 →
  ∃ fs' data', Remove todo fs = (fs', None)
    ∧ OS.files fs' !! Filename todo = Some data'
    ∧ lines data'
      = delete (Z.to_nat (Line todo - 1)) (Bufio.dropCR <$> lines data)
    ∧ (length (lines data') + 1 = length (lines data))%nat
    ∧ (no_cr data = true →
       lines data' = delete (Z.to_nat (Line todo - 1)) (lines data)).
Proof.
  intros Hd Hr Ht Hl Hp Hn Hlen. unfold Remove.
  destruct (updateInPlace_spec todo
              (at_line (Line todo) (EmptyString, true)) fs data Hd Ht Hl)
    as (fs' & Hrun & Hf & _).
  rewrite (read_healthy _ _ data), NewScanner_short in Hf by done.
    cbn [Bufio.tokens] in Hf.
  rewrite written_remove in Hf by (rewrite ?length_fmap; lia).
  set (kept := delete (Z.to_nat (Line todo - 1))
                 (Bufio.dropCR <$> lines data)) in *.
  assert (lines (unlines kept) = kept) as Hlines.
  { apply lines_unlines, Forall_delete. rewrite <- lines_copy.
    apply lines_no_newline. }
  exists fs', (unlines kept). repeat split; [exact Hrun | exact Hf | exact Hlines | |].
  - rewrite Hlines. unfold kept. rewrite length_delete, length_fmap; [lia|].
    apply lookup_lt_is_Some. rewrite length_fmap. lia.
  - intros Hcr. rewrite Hlines. unfold kept. by rewrite map_dropCR_no_cr.
Qed.

(** C10, as amended.  When every line of the file is shorter than 65536
    bytes and nothing is locked, [Update] and [Remove] on a Todo whose line
    number exceeds the number of lines of the file succeed and replace no
    line and remove none: the file keeps its lines, each without its
    terminal carriage return; when no line ends with a carriage return the
    lines are unchanged and the content only gains a line feed at the end
    when it lacked one. *)
Theorem C10_out_of_range_is_noop (todo : Todo) (fs : OS.FS) (data : string) :
  OS.files fs !! Filename todo = Some data →
  OS.faults fs !! Filename todo = None →
  Filename todo +:+ ".snitch" ∉ OS.locked fs →
  Filename todo ∉ OS.locked fs →
  short data = true →
  Z.of_nat (length (lines data)) < Line todo < 2 ^ 63 →
  (∃ fs', Update todo fs = (fs', None)
     ∧ OS.files fs' !! Filename todo = Some (copy data))
  ∧ (∃ fs', Remove todo fs = (fs', None)
       ∧ OS.files fs' !! Filename todo = Some (copy data))
  ∧ lines (copy data) = Bufio.dropCR <$> lines data
  ∧ (no_cr data = true →
     copy data = normalize_eof data ∧ lines (copy data) = lines data).
Proof.
  intros Hd Hr Ht Hl Hp Hn. repeat split.
  - destruct (updateInPlace_spec todo
                (at_line (Line todo) (Todo_String todo, false)) fs data
                Hd Ht Hl) as (fs' & Hrun & Hf & _).
    rewrite (read_healthy _ _ data), NewScanner_short in Hf by done.
    cbn [Bufio.tokens] in Hf.
    rewrite written_miss in Hf by (rewrite ?length_fmap; lia).
    by exists fs'.
  - destruct (updateInPlace_spec todo
                (at_line (Line todo) (EmptyString, true)) fs data
                Hd Ht Hl) as (fs' & Hrun & Hf & _).
    rewrite (read_healthy _ _ data), NewScanner_short in Hf by done.
    cbn [Bufio.tokens] in Hf.
    rewrite written_miss in Hf by (rewrite ?length_fmap; lia).
    by exists fs'.
  - apply lines_copy.
  - by apply copy_no_cr.
  - rewrite lines_copy. by apply map_dropCR_no_cr.
Qed.

End Rewriter.

(** C5 fails as stated: the identity rewrite of a file with lines ended by
    carriage return and line feed drops every carriage return, which is not
    a change at the end of the file only. *)
Lemma C5_counterexample :
  let run := updateToFile (Sample.todoAt "f" 1) "g" Sample.identity
               (Sample.disk Sample.dosText) in
  run.2 = None
  ∧ OS.files run.1 !! "g" = Some Sample.unixText
  ∧ Sample.unixText ≠ Text.normalize_eof Sample.dosText.
Proof. repeat split; vm_compute; (reflexivity || discriminate). Qed.

(** Witness of C5 on a file of two lines ended by carriage return and line
    feed. *)
Lemma C5_witness :
  let todo := Sample.todoAt "f" 1 in
  let fs := Sample.disk Sample.dosText in
  OS.files fs !! Filename todo = Some Sample.dosText
  ∧ OS.faults fs !! Filename todo = None
  ∧ "g" ≠ Filename todo
  ∧ ("g" ∉ OS.locked fs)
  ∧ Text.short Sample.dosText = true
  ∧ (updateToFile todo "g" (λ _ line, (line, false)) fs).2 = None
  ∧ OS.files (updateToFile todo "g" (λ _ line, (line, false)) fs).1 !! "g"
    = Some (Text.copy Sample.dosText).
Proof.
  intros todo fs.
  assert (OS.files fs !! Filename todo = Some Sample.dosText) as H1
    by reflexivity.
  assert (OS.faults fs !! Filename todo = None) as H0 by reflexivity.
  assert ("g" ≠ Filename todo) as H2 by discriminate.
  assert ("g" ∉ OS.locked fs) as H3 by apply not_elem_of_empty.
  assert (Text.short Sample.dosText = true) as H4 by reflexivity.
  destruct (C5_identity_rewrite todo "g" fs Sample.dosText H1 H0 H2 H3 H4)
    as (H5 & H6 & _).
  exact (conj H1 (conj H0 (conj H2 (conj H3 (conj H4 (conj H5 H6)))))).
Defined.

(** C6 fails as stated: removing line 2 of a file whose line 1 ends with a
    carriage return of its own changes line 1, whether the lines of a file
    are what stands between its line feeds or what the scanner delivers. *)
Lemma C6_counterexample :
  let run := Remove (Sample.todoAt "f" 2) (Sample.disk Sample.crText) in
  let data' := "a" +:+ String Str.CR Str.NL in
  run.2 = None
  ∧ OS.files run.1 !! "f" = Some data'
  ∧ Text.lines data' ≠ delete 1%nat (Text.lines Sample.crText)
  ∧ Bufio.tokens (Bufio.NewScanner (Bufio.Buffer data'))
    ≠ delete 1%nat
        (Bufio.tokens (Bufio.NewScanner (Bufio.Buffer Sample.crText))).
Proof. repeat split; vm_compute; (reflexivity || discriminate). Qed.

(** Witness of C6: line 1 of a file of two lines. *)
Lemma C6_witness :
  let todo := Sample.todoAt "f" 1 in
  let fs := Sample.disk Sample.unixText in
  OS.files fs !! Filename todo = Some Sample.unixText
  ∧ OS.faults fs !! Filename todo = None
  ∧ (Filename todo +:+ ".snitch" ∉ OS.locked fs)
  ∧ (Filename todo ∉ OS.locked fs)
  ∧ Text.short Sample.unixText = true
  ∧ 1 ≤ Line todo ≤ Z.of_nat (length (Text.lines Sample.unixText))
  ∧ Z.of_nat (length (Text.lines Sample.unixText)) < 2 ^ 63
  ∧ ∃ fs' data', Remove todo fs = (fs', None)
      ∧ OS.files fs' !! Filename todo = Some data'
      ∧ (length (Text.lines data') + 1
         = length (Text.lines Sample.unixText))%nat
      ∧ (Text.no_cr Sample.unixText = true →
         Text.lines data'
         = delete (Z.to_nat (Line todo - 1)) (Text.lines Sample.unixText)).
Proof.
  intros todo fs.
  assert (OS.files fs !! Filename todo = Some Sample.unixText) as H1
    by reflexivity.
  assert (OS.faults fs !! Filename todo = None) as H0 by reflexivity.
  assert (Filename todo +:+ ".snitch" ∉ OS.locked fs) as H2
    by apply not_elem_of_empty.
  assert (Filename todo ∉ OS.locked fs) as H3 by apply not_elem_of_empty.
  assert (Text.short Sample.unixText = true) as H4 by reflexivity.
  assert (1 ≤ Line todo ≤ Z.of_nat (length (Text.lines Sample.unixText)))
    as H5 by (vm_compute; split; discriminate).
  assert (Z.of_nat (length (Text.lines Sample.unixText)) < 2 ^ 63) as H6
    by (vm_compute; reflexivity).
  destruct (C6_remove_deletes_one_line todo fs Sample.unixText
              H1 H0 H2 H3 H4 H5 H6) as (fs' & data' & R1 & R2 & _ & R3 & R4).
  refine (conj H1 (conj H0 (conj H2 (conj H3 (conj H4 (conj H5 (conj H6 _))))))).
  exists fs', data'. exact (conj R1 (conj R2 (conj R3 R4))).
Defined.

(** C10 fails as stated: [Update] with a line number beyond the end of a
    file whose only line ends with a carriage return of its own succeeds and
    changes that line. *)
Lemma C10_counterexample :
  let data := "a" +:+ String Str.CR (String Str.CR Str.NL) in
  let data' := "a" +:+ String Str.CR Str.NL in
  let run := Update (Sample.todoAt "f" 5) (Sample.disk data) in
  run.2 = None
  ∧ OS.files run.1 !! "f" = Some data'
  ∧ Text.lines data' ≠ Text.lines data
  ∧ Bufio.tokens (Bufio.NewScanner (Bufio.Buffer data'))
    ≠ Bufio.tokens (Bufio.NewScanner (Bufio.Buffer data)).
Proof. repeat split; vm_compute; (reflexivity || discriminate). Qed.

(** Witness of C10: line 5 of a file of two lines. *)
Lemma C10_witness :
  let todo := Sample.todoAt "f" 5 in
  let fs := Sample.disk Sample.unixText in
  OS.files fs !! Filename todo = Some Sample.unixText
  ∧ OS.faults fs !! Filename todo = None
  ∧ (Filename todo +:+ ".snitch" ∉ OS.locked fs)
  ∧ (Filename todo ∉ OS.locked fs)
  ∧ Text.short Sample.unixText = true
  ∧ Z.of_nat (length (Text.lines Sample.unixText)) < Line todo < 2 ^ 63
  ∧ (∃ fs', Update todo fs = (fs', None)
       ∧ OS.files fs' !! Filename todo = Some (Text.copy Sample.unixText))
  ∧ (∃ fs', Remove todo fs = (fs', None)
       ∧ OS.files fs' !! Filename todo = Some (Text.copy Sample.unixText)).
Proof.
  intros todo fs.
  assert (OS.files fs !! Filename todo = Some Sample.unixText) as H1
    by reflexivity.
  assert (OS.faults fs !! Filename todo = None) as H0 by reflexivity.
  assert (Filename todo +:+ ".snitch" ∉ OS.locked fs) as H2
    by apply not_elem_of_empty.
  assert (Filename todo ∉ OS.locked fs) as H3 by apply not_elem_of_empty.
  assert (Text.short Sample.unixText = true) as H4 by reflexivity.
  assert (Z.of_nat (length (Text.lines Sample.unixText)) < Line todo < 2 ^ 63)
    as H5 by (vm_compute; split; reflexivity).
  destruct (C10_out_of_range_is_noop todo fs Sample.unixText
              H1 H0 H2 H3 H4 H5) as (R1 & R2 & _).
  exact (conj H1 (conj H0 (conj H2 (conj H3 (conj H4 (conj H5 (conj R1 R2))))))).
Defined.

(** C1 asks that a rewrite that meets a read or write error return an error
    and leave the original file as it was.  The code does not: on a file
    whose second line has 65536 bytes the scanner stops with [ErrTooLong]
    after the first line; [updateInPlace] (here with the identity transform,
    and through [Update] and [Remove]) returns nil all the same and replaces
    the file by its first line.  The same happens on a file of two lines
    whose reading fails after two bytes.  (When [updateInPlace] does return
    an error the original is intact:
    [RewriteFacts.updateInPlace_error_keeps_original].) *)
Theorem C1_read_error_truncates_the_file :
  let todo := Sample.todoAt "f" 9 in
  let fs := Sample.disk Sample.longText in
  let bad := Sample.badDisk Sample.unixText 2 in
  Bufio.Err (Bufio.NewScanner (OS.read fs "f")) = Some ErrTooLong
  ∧ (updateInPlace todo Sample.identity fs).2 = None
  ∧ OS.files (updateInPlace todo Sample.identity fs).1 !! "f"
    = Some ("a" +:+ Str.NL)
  ∧ (Update todo fs).2 = None
  ∧ OS.files (Update todo fs).1 !! "f" = Some ("a" +:+ Str.NL)
  ∧ (Remove todo fs).2 = None
  ∧ OS.files (Remove todo fs).1 !! "f" = Some ("a" +:+ Str.NL)
  ∧ Bufio.Err (Bufio.NewScanner (OS.read bad "f"))
    = Some (PathError "read" "f" "input/output error")
  ∧ (updateInPlace todo Sample.identity bad).2 = None
  ∧ OS.files (updateInPlace todo Sample.identity bad).1 !! "f"
    = Some ("a" +:+ Str.NL).
Proof. repeat split; vm_compute; reflexivity. Qed.

(** ** The tree walker: properties *)

Module WalkFacts.
Import Walk.

Section Facts.
Context {St : Type}.
Variable projectConfig : Config.ProjectConfig.
Variable w : World.
Variable visit : @Visit St.

(** One turn of the loop of [WalkTodosOfFile], in terms of [ReadLine]. *)
Lemma walkLines_ReadLine path reader line st :
  walkLines projectConfig path visit (pending reader) (failure reader) line st
  = match ReadLine reader with
    | (text, None, reader') =>
        match LineAsTodo projectConfig text with
        | Some todo =>
            match visit {| Prefix := Prefix todo; Suffix := Suffix todo;
                           ID := ID todo; Filename := path; Line := line;
                           Title := Title todo |} st with
            | (st', Some err) => (st', Some err)
            | (st', None) =>
                walkLines projectConfig path visit (pending reader')
                  (failure reader') (GoInt.add line 1) st'
            end
        | None =>
            walkLines projectConfig path visit (pending reader')
              (failure reader') (GoInt.add line 1) st
        end
    | (_, Some err, _) => (st, if decide (err = EOF) then None else Some err)
    end.
Proof. unfold ReadLine. by destruct (pending reader). Qed.

(** A read error ends the loop of [WalkTodosOfFile] with that error when
    no visit fails before. *)
Lemma walkLines_read_error path texts failure line st :
  (∀ todo s, (visit todo s).2 = None) → failure ≠ EOF →
  (walkLines projectConfig path visit texts failure line st).2 = Some failure.
Proof.
  intros Hv Hf. revert line st.
  induction texts as [|text rest IH]; intros line st; simpl.
  - by rewrite decide_False.
  - destruct (LineAsTodo projectConfig text) as [todo|]; [|apply IH].
    match goal with |- context [visit ?t st] =>
      specialize (Hv t st); destruct (visit t st) as [st' [e|]] end;
      [done | apply IH].
Qed.

(** Walking a list of files is walking a first part and, when that gave no
    error, the rest. *)
Lemma walkFiles_app before rest st :
  walkFiles projectConfig w visit (before ++ rest) st =
  match walkFiles projectConfig w visit before st with
  | (st1, None) => walkFiles projectConfig w visit rest st1
  | (st1, Some err) => (st1, Some err)
  end.
Proof.
  revert st. induction before as [|f before IH]; intros st; simpl; [done|].
  destruct (WalkTodosOfFile projectConfig w f visit st) as [st1 [e|]];
    [done | apply IH].
Qed.

(** An error of the walk over a list of files is the error of the first
    file whose walk fails. *)
Lemma walkFiles_error filepaths st st' err :
  walkFiles projectConfig w visit filepaths st = (st', Some err) →
  ∃ before f after st1,
    filepaths = before ++ f :: after
    ∧ walkFiles projectConfig w visit before st = (st1, None)
    ∧ WalkTodosOfFile projectConfig w f visit st1 = (st', Some err).
Proof.
  revert st. induction filepaths as [|f rest IH]; intros st; simpl; [done|].
  destruct (WalkTodosOfFile projectConfig w f visit st) as [st1 [e|]] eqn:E.
  - intros [= <- <-]. by exists [], f, rest, st.
  - intros (before & g & after & st2 & -> & Hb & Hg)%IH.
    exists (f :: before), g, after, st2. simpl. by rewrite E, Hb.
Qed.

(** The loop counter after [k] turns. *)
Lemma wrap_add_1 a : GoInt.add (GoInt.wrap a) 1 = GoInt.wrap (a + 1).
Proof.
  unfold GoInt.add, GoInt.wrap. f_equal.
  replace ((a + 2 ^ 63) mod 2 ^ 64 - 2 ^ 63 + 1 + 2 ^ 63)
    with ((a + 2 ^ 63) mod 2 ^ 64 + 1) by lia.
  rewrite Zplus_mod_idemp_l. f_equal. lia.
Qed.

Lemma feed_app todos1 todos2 st :
  feed visit (todos1 ++ todos2) st =
  match feed visit todos1 st with
  | (st1, None) => feed visit todos2 st1
  | (st1, Some err) => (st1, Some err)
  end.
Proof.
  revert st. induction todos1 as [|t todos1 IH]; intros st; simpl; [done|].
  destruct (visit t st) as [st1 [e|]]; [done | apply IH].
Qed.

(** The first visit that fails ends the visits, with its error. *)
Lemma feed_stops todos1 todo todos2 st st1 st2 err :
  feed visit todos1 st = (st1, None) →
  visit todo st1 = (st2, Some err) →
  feed visit (todos1 ++ todo :: todos2) st = (st2, Some err).
Proof. intros H1 H2. rewrite feed_app, H1. simpl. by rewrite H2. Qed.

(** An error of the visits is the error of the first visit that fails. *)
Lemma feed_error todos st st' err :
  feed visit todos st = (st', Some err) →
  ∃ todos1 todo todos2 st1,
    todos = todos1 ++ todo :: todos2
    ∧ feed visit todos1 st = (st1, None)
    ∧ visit todo st1 = (st', Some err).
Proof.
  revert st. induction todos as [|t rest IH]; intros st; simpl; [done|].
  destruct (visit t st) as [st1 [e|]] eqn:E.
  - intros [= <- <-]. by exists [], t, rest, st.
  - intros (todos1 & todo & todos2 & st2 & -> & H1 & H2)%IH.
    exists (t :: todos1), todo, todos2, st2. simpl. by rewrite E.
Qed.

(** The loop of [WalkTodosOfFile] after [k] turns: the Todos of the texts
    that remain are visited in turn, each with the value of the counter. *)
Lemma walkLines_visited path texts failure k st :
  walkLines projectConfig path visit texts failure
    (GoInt.wrap (1 + Z.of_nat k)) st
  = finish failure
      (feed visit
         (omap id
            (imap (λ i text,
                     located path (GoInt.wrap (1 + Z.of_nat (k + i)))
                     <$> LineAsTodo projectConfig text) texts)) st).
Proof.
  revert k st. induction texts as [|text rest IH]; intros k st; [done|].
  cbn [walkLines]. rewrite imap_cons. cbn [omap list_omap].
  assert (∀ st',
    walkLines projectConfig path visit rest failure
      (GoInt.add (GoInt.wrap (1 + Z.of_nat k)) 1) st'
    = finish failure
        (feed visit
           (omap id
              (imap ((λ i text0,
                        located path (GoInt.wrap (1 + Z.of_nat (k + i)))
                        <$> LineAsTodo projectConfig text0) ∘ S) rest)) st'))
    as Hrest.
  { intros st'. rewrite wrap_add_1.
    replace (1 + Z.of_nat k + 1) with (1 + Z.of_nat (S k)) by lia.
    rewrite IH.
    assert (imap (λ i text0,
                    located path (GoInt.wrap (1 + Z.of_nat (S k + i)))
                    <$> LineAsTodo projectConfig text0) rest
            = imap ((λ i text0,
                       located path (GoInt.wrap (1 + Z.of_nat (k + i)))
                       <$> LineAsTodo projectConfig text0) ∘ S) rest)
      as ->; [|done].
    apply imap_ext. intros i x _. simpl. do 4 f_equal. lia. }
  replace (k + 0)%nat with k by lia.
  destruct (LineAsTodo projectConfig text) as [todo|]; simpl.
  - unfold located at 1.
    destruct (visit _ st) as [st' [e|]]; [done | apply Hrest].
  - apply Hrest.
Qed.

(** [WalkTodosOfFile] on a file that opens: the visits, then the end of the
    reading. *)
Lemma WalkTodosOfFile_visited path reader st :
  os_Open w path = inr reader →
  WalkTodosOfFile projectConfig w path visit st
  = finish (failure reader)
      (feed visit (visited projectConfig path (pending reader)) st).
Proof.
  intros Ho. unfold WalkTodosOfFile. rewrite Ho.
  exact (walkLines_visited path (pending reader) (failure reader) 0 st).
Qed.

End Facts.

End WalkFacts.

Section Walker.
Import Walk WalkFacts.
Context {St : Type}.
Variable projectConfig : Config.ProjectConfig.
Variable w : World.
Variable visit : @Visit St.

(** C4.  The walk fails fast.  In [WalkTodosOfFile] an error of [os.Open]
    is returned at once, without a visit.  An error of the visitor is
    returned as it is, with the state the visitor had at that moment: the
    Todos after it are not visited and the rest of the file is not read.
    An error of [ReadLine] other than [EOF] is returned after the visits
    of the Todos read before it.  An error of [WalkTodosOfFile] is one of
    these three, alone.  In [WalkTodosOfDir] an error of the listing is
    returned without a visit; the error of the first failing file, in the
    order of the listing, is returned as it is, with the state the visitor
    had at that moment, so that no later file is walked; conversely an
    error of [WalkTodosOfDir] after a successful listing is the error of
    the first failing file alone.  In particular an error of the visitor on
    a Todo of a listed file is what [WalkTodosOfDir] returns. *)
Theorem C4_walk_fails_fast :
  (∀ path err st,
     os_Open w path = inl err →
     WalkTodosOfFile projectConfig w path visit st = (st, Some err))
  ∧ (∀ path reader todos1 todo todos2 st st1 st2 err,
       os_Open w path = inr reader →
       visited projectConfig path (pending reader)
       = todos1 ++ todo :: todos2 →
       feed visit todos1 st = (st1, None) →
       visit todo st1 = (st2, Some err) →
       WalkTodosOfFile projectConfig w path visit st = (st2, Some err))
  ∧ (∀ path reader st st1,
       os_Open w path = inr reader → failure reader ≠ EOF →
       feed visit (visited projectConfig path (pending reader)) st
       = (st1, None) →
       WalkTodosOfFile projectConfig w path visit st
       = (st1, Some (failure reader)))
  ∧ (∀ path st st' err,
       WalkTodosOfFile projectConfig w path visit st = (st', Some err) →
       (os_Open w path = inl err ∧ st' = st)
       ∨ (∃ reader todos1 todo todos2 st1,
            os_Open w path = inr reader
            ∧ visited projectConfig path (pending reader)
              = todos1 ++ todo :: todos2
            ∧ feed visit todos1 st = (st1, None)
            ∧ visit todo st1 = (st', Some err))
       ∨ (∃ reader,
            os_Open w path = inr reader
            ∧ failure reader = err ∧ err ≠ EOF
            ∧ feed visit (visited projectConfig path (pending reader)) st
              = (st', None)))
  ∧ (∀ dirpath err outb st,
       git_ls_files w dirpath = (Some err, outb) →
       WalkTodosOfDir projectConfig w dirpath visit st = (st, Some err))
  ∧ (∀ dirpath outb before f after st st1 st2 err,
       git_ls_files w dirpath = (None, outb) →
       Bufio.tokens (Bufio.NewScanner (Bufio.Buffer outb))
       = before ++ f :: after →
       walkFiles projectConfig w visit before st = (st1, None) →
       WalkTodosOfFile projectConfig w f visit st1 = (st2, Some err) →
       WalkTodosOfDir projectConfig w dirpath visit st = (st2, Some err))
  ∧ (∀ dirpath outb st st' err,
       git_ls_files w dirpath = (None, outb) →
       WalkTodosOfDir projectConfig w dirpath visit st = (st', Some err) →
       ∃ before f after st1,
         Bufio.tokens (Bufio.NewScanner (Bufio.Buffer outb))
         = before ++ f :: after
         ∧ walkFiles projectConfig w visit before st = (st1, None)
         ∧ WalkTodosOfFile projectConfig w f visit st1 = (st', Some err))
  ∧ (∀ dirpath outb before f after reader todos1 todo todos2
       st st1 st2 st3 err,
       git_ls_files w dirpath = (None, outb) →
       Bufio.tokens (Bufio.NewScanner (Bufio.Buffer outb))
       = before ++ f :: after →
       walkFiles projectConfig w visit before st = (st1, None) →
       os_Open w f = inr reader →
       visited projectConfig f (pending reader) = todos1 ++ todo :: todos2 →
       feed visit todos1 st1 = (st2, None) →
       visit todo st2 = (st3, Some err) →
       WalkTodosOfDir projectConfig w dirpath visit st = (st3, Some err)).
Proof.
  assert (∀ path reader todos1 todo todos2 st st1 st2 err,
            os_Open w path = inr reader →
            visited projectConfig path (pending reader)
            = todos1 ++ todo :: todos2 →
            feed visit todos1 st = (st1, None) →
            visit todo st1 = (st2, Some err) →
            WalkTodosOfFile projectConfig w path visit st = (st2, Some err))
    as Hvisit.
  { intros path reader todos1 todo todos2 st st1 st2 err Ho Hs H1 H2.
    rewrite (WalkTodosOfFile_visited _ _ _ path reader st Ho), Hs.
    by rewrite (feed_stops _ todos1 todo todos2 st st1 st2 err H1 H2). }
  assert (∀ dirpath outb before f after st st1 st2 err,
            git_ls_files w dirpath = (None, outb) →
            Bufio.tokens (Bufio.NewScanner (Bufio.Buffer outb))
            = before ++ f :: after →
            walkFiles projectConfig w visit before st = (st1, None) →
            WalkTodosOfFile projectConfig w f visit st1 = (st2, Some err) →
            WalkTodosOfDir projectConfig w dirpath visit st = (st2, Some err))
    as Hfile.
  { intros dirpath outb before f after st st1 st2 err Hg Hl Hb Hf.
    unfold WalkTodosOfDir. rewrite Hg, Hl, walkFiles_app, Hb. simpl.
    by rewrite Hf. }
  split; [|split; [exact Hvisit|split; [|split; [|split; [|split;
    [exact Hfile|split]]]]]].
  - intros path err st H. unfold WalkTodosOfFile. by rewrite H.
  - intros path reader st st1 Ho Hf H.
    rewrite (WalkTodosOfFile_visited _ _ _ path reader st Ho), H. simpl.
    by rewrite decide_False.
  - intros path st st' err H.
    destruct (os_Open w path) as [e|reader] eqn:Ho.
    + left. unfold WalkTodosOfFile in H. rewrite Ho in H.
      by injection H as <- <-.
    + right. rewrite (WalkTodosOfFile_visited _ _ _ path reader st Ho) in H.
      destruct (feed visit _ st) as [st1 [e|]] eqn:E; simpl in H.
      * injection H as <- <-. left.
        apply feed_error in E as (todos1 & todo & todos2 & st2 & Hs & H1 & H2).
        by exists reader, todos1, todo, todos2, st2.
      * destruct (decide (failure reader = EOF)) as [Heof|Hne]; [done|].
        injection H as <- <-. right. by exists reader.
  - intros dirpath err outb st Hg. unfold WalkTodosOfDir. by rewrite Hg.
  - intros dirpath outb st st' err Hg. unfold WalkTodosOfDir. rewrite Hg.
    apply walkFiles_error.
  - intros dirpath outb before f after reader todos1 todo todos2
      st st1 st2 st3 err Hg Hl Hb Ho Hs H1 H2.
    apply (Hfile dirpath outb before f after st st1 st3 err Hg Hl Hb).
    by apply (Hvisit f reader todos1 todo todos2 st1 st2 st3 err).
Qed.

End Walker.

(** Witness of C4: in the sample world a visitor that fails on the Todo of
    "a" ends the walk with its error; nothing of "b" and "c" is seen. *)
Lemma C4_witness :
  let reader := Walk.mkReader ["// TODO: in a"] EOF in
  let todo := {| Prefix := "// "; Suffix := "in a"; ID := None;
                 Filename := "a"; Line := 1; Title := "in a" |} in
  let err := OtherError "refused" in
  let outb := "a" +:+ Str.NL +:+ "b" +:+ Str.NL +:+ "c" +:+ Str.NL in
  Walk.git_ls_files SampleWalk.world "." = (None, outb)
  ∧ Bufio.tokens (Bufio.NewScanner (Bufio.Buffer outb))
    = [] ++ "a" :: ["b"; "c"]
  ∧ Walk.walkFiles plainConfig SampleWalk.world SampleWalk.refuse [] []
    = ([], None)
  ∧ Walk.os_Open SampleWalk.world "a" = inr reader
  ∧ visited plainConfig "a" (Walk.pending reader) = [] ++ todo :: []
  ∧ feed SampleWalk.refuse [] [] = ([], None)
  ∧ SampleWalk.refuse todo [] = ([todo], Some err)
  ∧ Walk.WalkTodosOfDir plainConfig SampleWalk.world "." SampleWalk.refuse []
    = ([todo], Some err).
Proof.
  intros reader todo err outb.
  assert (Walk.git_ls_files SampleWalk.world "." = (None, outb)) as H1
    by reflexivity.
  assert (Bufio.tokens (Bufio.NewScanner (Bufio.Buffer outb))
          = [] ++ "a" :: ["b"; "c"]) as H2 by reflexivity.
  assert (Walk.walkFiles plainConfig SampleWalk.world SampleWalk.refuse [] []
          = ([], None)) as H3 by reflexivity.
  assert (Walk.os_Open SampleWalk.world "a" = inr reader) as H4
    by reflexivity.
  assert (visited plainConfig "a" (Walk.pending reader) = [] ++ todo :: [])
    as H5 by (vm_compute; reflexivity).
  assert (feed SampleWalk.refuse [] [] = ([], None)) as H6 by reflexivity.
  assert (SampleWalk.refuse todo [] = ([todo], Some err)) as H7
    by reflexivity.
  destruct (C4_walk_fails_fast plainConfig SampleWalk.world SampleWalk.refuse)
    as (_ & _ & _ & _ & _ & _ & _ & Hdir).
  exact (conj H1 (conj H2 (conj H3 (conj H4 (conj H5 (conj H6 (conj H7
    (Hdir "." outb [] "a" ["b"; "c"] reader [] todo [] [] [] [] [todo] err
       H1 H2 H3 H4 H5 H6 H7)))))))).
Defined.

(** * Further properties of the code *)

(** ** The parser *)

Module ParseMore.
Import Str StrFacts Regexp RegexpFacts ParseFacts.

(** A line feed free text that holds "TODO(", and "): " somewhere after it,
    matches the reported pattern. *)
Lemma reported_exists bot p i q :
  no_newline (p +:+ "TODO(" +:+ i +:+ "): " +:+ q) = true →
  exec reported_tail bot (p +:+ "TODO(" +:+ i +:+ "): " +:+ q) ≠ None.
Proof.
  intros Hnl. rewrite exec_reported_unfold, dotstar_None. intros H.
  rewrite no_newline_app in Hnl. apply andb_prop in Hnl as [Hp Hx].
  rewrite (no_newline_app "TODO(") in Hx. simpl in Hx.
  specialize (H p ("TODO(" +:+ i +:+ "): " +:+ q) eq_refl Hp).
  rewrite strip_prefix_app in H.
  pose proof (two_groups_exists "): " false (i +:+ "): " +:+ q) Hx) as Hex.
  destruct (exec (two_groups "): ") false (i +:+ "): " +:+ q)) as [[gs r]|];
    [done|].
  apply Hex; [|done]. apply contains_true. by exists i, q.
Qed.

Lemma lineAsReportedTodo_None cfg line :
  lineAsReportedTodo cfg line = None ↔
  no_newline line = false
  ∨ ∀ p i q, line ≠ p +:+ "TODO(" +:+ i +:+ "): " +:+ q.
Proof.
  split.
  - intros H. destruct (no_newline line) eqn:Hnl; [right | by left].
    intros p i q ->. unfold lineAsReportedTodo in H.
    rewrite find_reported in H.
    pose proof (reported_exists true p i q Hnl) as Hex.
    by destruct (exec reported_tail true _) as [[gs r]|].
  - intros H. destruct (lineAsReportedTodo cfg line) as [t|] eqn:E; [|done].
    apply lineAsReportedTodo_Some in E as (p & i & q & -> & Hnl & _).
    destruct H as [H|H]; [congruence | by destruct (H p i q)].
Qed.

(** The prefix of a reported match is cut at the last "TODO(" that has a
    "): " after it. *)
Lemma reported_prefix_longest p i q u v w :
  contains "TODO(" i = false → contains "): " q = false →
  p +:+ "TODO(" +:+ i +:+ "): " +:+ q = u +:+ "TODO(" +:+ v +:+ "): " +:+ w →
  (String.length u ≤ String.length p)%nat.
Proof.
  intros Hi Hq E. apply Nat.nlt_ge. intros Hlen.
  destruct (app_eq_app_longer _ _ _ _ E Hlen) as (x & z & -> & E').
  destruct (app_eq_app _ _ _ _ E') as [[y [_ Hy]]|[y [Hl Hy]]].
  - by apply (no_later_marker y i q v w).
  - cut_literal Hl. by apply (no_later_marker "" i q v w).
Qed.

End ParseMore.

Section ParserProperties.
Import Str StrFacts ParseFacts ParseMore.
Variable projectConfig : Config.ProjectConfig.

(** X1.  [LineAsTodo] finds no Todo exactly in the lines that hold a line
    feed, and in those that hold neither "TODO: " nor a "TODO(" with a
    "): " somewhere after it. *)
Theorem X1_not_a_todo (line : string) :
  LineAsTodo projectConfig line = None ↔
  no_newline line = false
  ∨ (contains "TODO: " line = false
     ∧ ∀ p i q, line ≠ p +:+ "TODO(" +:+ i +:+ "): " +:+ q).
Proof.
  unfold LineAsTodo. split.
  - destruct (lineAsUnreportedTodo projectConfig line) eqn:Eu; [done|].
    destruct (lineAsReportedTodo projectConfig line) eqn:Er; [done|].
    intros _. apply lineAsUnreportedTodo_None in Eu as [Eu|Eu]; [by left|].
    apply lineAsReportedTodo_None in Er as [Er|Er]; [by left | by right].
  - intros H.
    assert (lineAsUnreportedTodo projectConfig line = None) as ->.
    { apply lineAsUnreportedTodo_None.
      destruct H as [H|[H _]]; [by left | by right]. }
    assert (lineAsReportedTodo projectConfig line = None) as ->; [|done].
    apply lineAsReportedTodo_None.
    destruct H as [H|[_ H]]; [by left | by right].
Qed.

(** X2.  The canonical form of whatever [LineAsTodo] makes of a line, of
    either shape, is the line itself: parsing loses nothing and parsing the
    canonical form again gives the same Todo.  The Todo carries no location
    yet, and its title is the transformed suffix. *)
Theorem X2_parse_keeps_the_line (line : string) (todo : Todo) :
  LineAsTodo projectConfig line = Some todo →
  Todo_String todo = line
  ∧ LineAsTodo projectConfig (Todo_String todo) = Some todo
  ∧ no_newline line = true
  ∧ Filename todo = EmptyString ∧ Line todo = 0
  ∧ Title todo
    = Config.Transform (Config.Title projectConfig) (Suffix todo).
Proof.
  intros H. pose proof H as H'. unfold LineAsTodo in H'.
  assert (Todo_String todo = line ∧ no_newline line = true
          ∧ Filename todo = EmptyString ∧ Line todo = 0
          ∧ Title todo
            = Config.Transform (Config.Title projectConfig) (Suffix todo))
    as (Hs & Hnl & Hf & Hl & Ht).
  { destruct (lineAsUnreportedTodo projectConfig line) as [t|] eqn:Eu.
    - injection H' as ->.
      by apply lineAsUnreportedTodo_Some in Eu as (p & q & -> & ? & _ & ->).
    - destruct (lineAsReportedTodo projectConfig line) as [t|] eqn:Er; [|done].
      injection H' as ->.
      by apply lineAsReportedTodo_Some in Er as (p & i & q & -> & ? & ->). }
  by rewrite Hs.
Qed.

(** X3.  A line accepted by the reported pattern is cut at its last "TODO("
    that has a "): " after it, and the identifier runs to the last "): ":
    prefix, "TODO(", identifier, "): " and suffix give the line back, the
    identifier holds no "TODO(", the suffix holds no "): ", and no other
    cut of the line in this shape has a longer prefix. *)
Theorem X3_reported_cut (line : string) (todo : Todo) :
  lineAsReportedTodo projectConfig line = Some todo →
  ∃ id, ID todo = Some id
    ∧ line = Prefix todo +:+ "TODO(" +:+ id +:+ "): " +:+ Suffix todo
    ∧ contains "TODO(" id = false
    ∧ contains "): " (Suffix todo) = false
    ∧ ∀ u v w, line = u +:+ "TODO(" +:+ v +:+ "): " +:+ w →
        (String.length u ≤ String.length (Prefix todo))%nat.
Proof.
  intros H.
  pose proof H as (p & i & q & -> & Hnl & ->)%lineAsReportedTodo_Some.
  destruct (lineAsReportedTodo_greedy _ _ _ i H eq_refl) as [Hi Hq].
  exists i. repeat split; [done..|].
  intros u v w E. by apply (reported_prefix_longest p i q u v w).
Qed.

End ParserProperties.

(** Witness of X2 on a reported line. *)
Lemma X2_witness :
  let line := "x := 1 // TODO(#42): refactor" in
  let todo := {| Prefix := "x := 1 // "; Suffix := "refactor";
                 ID := Some "#42"; Filename := ""; Line := 0;
                 Title := "refactor" |} in
  LineAsTodo plainConfig line = Some todo
  ∧ Todo_String todo = line
  ∧ LineAsTodo plainConfig (Todo_String todo) = Some todo.
Proof.
  intros line todo.
  assert (LineAsTodo plainConfig line = Some todo) as H
    by (vm_compute; reflexivity).
  destruct (X2_parse_keeps_the_line plainConfig line todo H) as (H1 & H2 & _).
  exact (conj H (conj H1 H2)).
Defined.

(** Witness of X3 on a line with two opening and two closing markers. *)
Lemma X3_witness :
  let line := "TODO(a): TODO(b): c): d" in
  let todo := {| Prefix := "TODO(a): "; Suffix := "d"; ID := Some "b): c";
                 Filename := ""; Line := 0; Title := "d" |} in
  lineAsReportedTodo plainConfig line = Some todo
  ∧ ∃ id, ID todo = Some id
      ∧ line = Prefix todo +:+ "TODO(" +:+ id +:+ "): " +:+ Suffix todo
      ∧ Str.contains "TODO(" id = false
      ∧ Str.contains "): " (Suffix todo) = false.
Proof.
  intros line todo.
  assert (lineAsReportedTodo plainConfig line = Some todo) as H
    by (vm_compute; reflexivity).
  destruct (X3_reported_cut plainConfig line todo H)
    as (id & H1 & H2 & H3 & H4 & _).
  split; [exact H|]. exists id. exact (conj H1 (conj H2 (conj H3 H4))).
Defined.

(** ** The rewriter *)

Module RewriteMore.
Import Str StrFacts Text RewriteFacts ParseFacts.

(** [Update]'s callback puts the canonical form in the place of the line
    that the counter meets at the target. *)
Lemma written_update target s ls n :
  - 2 ^ 63 ≤ n → n + Z.of_nat (length ls) ≤ 2 ^ 63 →
  n ≤ target < n + Z.of_nat (length ls) →
  written (at_line target (s, false)) ls n
  = <[Z.to_nat (target - n) := s]> ls.
Proof.
  revert n. induction ls as [|l ls IH]; intros n Hlo Hhi Ht;
    cbn [length] in *; [lia|].
  cbn [written]. unfold at_line at 1.
  destruct (Z.eqb_spec n target) as [->|Hne].
  - rewrite Z.sub_diag. simpl. f_equal.
    destruct ls as [|l' ls]; [done|]. cbn [length] in *.
    apply written_miss; unfold GoInt.add;
      rewrite wrap_in_range by (unfold GoInt.in_range; lia);
      cbn [length]; lia.
  - replace (Z.to_nat (target - n)) with (S (Z.to_nat (target - (n + 1))))
      by lia.
    simpl. f_equal. destruct ls as [|l' ls]; [cbn [length] in *; lia|].
    cbn [length] in *. unfold GoInt.add.
    rewrite wrap_in_range by (unfold GoInt.in_range; lia).
    apply IH; cbn [length]; lia.
Qed.

(** A success of [updateInPlace] needs the file, and both paths free. *)
Lemma updateInPlace_None todo cb fs :
  (updateInPlace todo cb fs).2 = None ↔
  is_Some (OS.files fs !! Filename todo)
  ∧ (Filename todo +:+ ".snitch" ∉ OS.locked fs)
  ∧ (Filename todo ∉ OS.locked fs).
Proof.
  split.
  - unfold updateInPlace, updateToFile, OS.Open, OS.Create, OS.Rename.
    destruct (OS.files fs !! Filename todo) as [data|]; [|done].
    destruct (decide (Filename todo +:+ ".snitch" ∈ OS.locked fs)); [done|].
    rewrite scanLoop_spec by (simpl; rewrite lookup_insert_eq; eauto).
    simpl. rewrite lookup_insert_eq.
    destruct (decide (Filename todo ∈ OS.locked fs)); [done|]. eauto.
  - intros ([data Hd] & Ht & Hl).
    destruct (updateInPlace_spec todo cb fs data Hd Ht Hl) as (fs' & -> & _).
    done.
Qed.

(** The canonical form of a Todo is parsed back to its prefix, suffix and
    identifier when no marker text occurs a second time. *)
Lemma canonical_form_parses cfg todo :
  no_newline (Todo_String todo) = true →
  match ID todo with
  | None => contains "TODO: " (Suffix todo) = false
  | Some id =>
      contains "TODO: " (Todo_String todo) = false
      ∧ contains "TODO(" id = false
      ∧ contains "): " (Suffix todo) = false
  end →
  ∃ todo', LineAsTodo cfg (Todo_String todo) = Some todo'
    ∧ Prefix todo' = Prefix todo ∧ Suffix todo' = Suffix todo
    ∧ ID todo' = ID todo.
Proof.
  destruct todo as [p q [i|] f l ti]; cbv [Todo_String ID Prefix Suffix];
    intros Hnl Hc; unfold LineAsTodo.
  - destruct Hc as (Hu & Hi & Hq). exists (reported cfg p i q).
    assert (lineAsUnreportedTodo cfg (p +:+ "TODO(" +:+ i +:+ "): " +:+ q)
            = None) as -> by (apply lineAsUnreportedTodo_None; by right).
    by rewrite lineAsReportedTodo_complete.
  - exists (unreported cfg p q).
    assert (lineAsUnreportedTodo cfg (p +:+ "TODO: " +:+ q)
            = Some (unreported cfg p q)) as ->; [|done].
    apply lineAsUnreportedTodo_Some. by exists p, q.
Qed.

End RewriteMore.

Section RewriterProperties.
Import Str StrFacts Text RewriteFacts RewriteMore.

(** X4.  When the file is read without error, every line is shorter than
    65536 bytes, the file has fewer than 2^63 lines and nothing is locked,
    [Update] on a Todo whose line number is in the file succeeds and puts
    the canonical form of the Todo in the place of that line; the other
    lines are kept in order, each without its terminal carriage return.
    When the canonical form has no line feed the file has as many lines as
    before. *)
Theorem X4_update_replaces_one_line (todo : Todo) (fs : OS.FS)
    (data : string) :
  OS.files fs !! Filename todo = Some data →
  OS.faults fs !! Filename todo = None →
  Filename todo +:+ ".snitch" ∉ OS.locked fs →
  Filename todo ∉ OS.locked fs →
  short data = true →
  1 ≤ Line todo ≤ Z.of_nat (length (lines data)) →
  Z.of_nat (length (lines data)) < 2 ^ 63 →
  ∃ fs' data', Update todo fs = (fs', None)
    ∧ OS.files fs' !! Filename todo = Some data'
    ∧ data' = unlines (<[Z.to_nat (Line todo - 1) := Todo_String todo]>
                         (Bufio.dropCR <$> lines data))
    ∧ (no_newline (Todo_String todo) = true →
       lines data' = <[Z.to_nat (Line todo - 1) := Todo_String todo]>
                       (Bufio.dropCR <$> lines data)
       ∧ length (lines data') = length (lines data)).
Proof.
  intros Hd Hr Ht Hl Hp Hn Hlen. unfold Update.
  destruct (updateInPlace_spec todo
              (at_line (Line todo) (Todo_String todo, false)) fs data Hd Ht Hl)
    as (fs' & Hrun & Hf & _).
  rewrite (read_healthy _ _ data), NewScanner_short in Hf by done.
  cbn [Bufio.tokens] in Hf.
  rewrite written_update in Hf by (rewrite ?length_fmap; lia).
  eexists fs', _. repeat split; [exact Hrun | exact Hf | |].
  - apply lines_unlines, Forall_insert; [|done].
    rewrite <- lines_copy. apply lines_no_newline.
  - rewrite lines_unlines, length_insert, length_fmap; [done|].
    apply Forall_insert; [|done].
    rewrite <- lines_copy. apply lines_no_newline.
Qed.

(** X5.  [updateInPlace] returns the error of one of three calls, and no
    other.  When [os.Open] of the file fails, its error is returned as it
    is and nothing has changed; so it is when [os.Open] succeeds and
    [os.Create] of the temporary file fails.  When both succeed, an error
    of [updateInPlace] is the error of [os.Rename]: the file is then as it
    was and the temporary file is left behind.  The result is nil exactly
    when the file opens, the temporary file is created and the replacement
    of the file is not refused: no error of reading or of writing is ever
    returned. *)
Theorem X5_updateInPlace_errors (todo : Todo) (cb : LineCallback)
    (fs : OS.FS) :
  (∀ err, OS.Open fs (Filename todo) = inl err →
     updateInPlace todo cb fs = (fs, Some err))
  ∧ (∀ file err,
       OS.Open fs (Filename todo) = inr file →
       OS.Create fs (Filename todo +:+ ".snitch") = inl err →
       updateInPlace todo cb fs = (fs, Some err))
  ∧ (∀ file created fs' err,
       OS.Open fs (Filename todo) = inr file →
       OS.Create fs (Filename todo +:+ ".snitch") = inr created →
       updateInPlace todo cb fs = (fs', Some err) →
       OS.Rename fs' (Filename todo +:+ ".snitch") (Filename todo)
       = (fs', Some err)
       ∧ OS.files fs' !! Filename todo = OS.files fs !! Filename todo
       ∧ is_Some (OS.files fs' !! (Filename todo +:+ ".snitch")))
  ∧ ((updateInPlace todo cb fs).2 = None ↔
     (∃ file, OS.Open fs (Filename todo) = inr file)
     ∧ (∃ created,
          OS.Create fs (Filename todo +:+ ".snitch") = inr created)
     ∧ (Filename todo ∉ OS.locked fs)).
Proof.
  split; [|split; [|split]].
  - intros err Ho. unfold updateInPlace, updateToFile. by rewrite Ho.
  - intros file err Ho Hc. unfold updateInPlace, updateToFile.
    by rewrite Ho, Hc.
  - intros file created fs' err Ho Hc Hrun.
    unfold OS.Open in Ho.
    destruct (OS.files fs !! Filename todo) as [data|] eqn:Hd; [|done].
    unfold OS.Create in Hc.
    destruct (decide (Filename todo +:+ ".snitch" ∈ OS.locked fs))
      as [|Ht]; [done|].
    pose proof (snitch_path_fresh (Filename todo)) as Hne.
    unfold updateInPlace in Hrun.
    rewrite (updateToFile_spec _ _ _ _ data) in Hrun by done.
    unfold OS.Rename in Hrun. simpl in Hrun.
    rewrite lookup_insert_eq in Hrun.
    destruct (decide (Filename todo ∈ OS.locked fs)) as [Hl|]; [|done].
    injection Hrun as <- <-. unfold OS.Rename. simpl.
    rewrite !lookup_insert_eq, decide_True by done.
    split; [done|]. rewrite lookup_insert_ne by done. eauto.
  - rewrite updateInPlace_None. unfold OS.Open, OS.Create. split.
    + intros ([data Hd] & Ht & Hl). rewrite Hd, decide_False by done. eauto.
    + intros ([file Ho] & [created Hc] & Hl).
      destruct (OS.files fs !! Filename todo) as [data|]; [|done].
      destruct (decide (Filename todo +:+ ".snitch" ∈ OS.locked fs));
        [done|]. eauto.
Qed.

(** X6.  A success of [updateInPlace] leaves no file at the temporary path,
    also when there was one before, and changes no file but the one of the
    Todo; the locked paths and the faults are as before. *)
Theorem X6_updateInPlace_frame (todo : Todo) (cb : LineCallback)
    (fs fs' : OS.FS) :
  updateInPlace todo cb fs = (fs', None) →
  OS.files fs' !! (Filename todo +:+ ".snitch") = None
  ∧ (∀ other, other ≠ Filename todo →
       other ≠ Filename todo +:+ ".snitch" →
       OS.files fs' !! other = OS.files fs !! other)
  ∧ OS.locked fs' = OS.locked fs
  ∧ OS.faults fs' = OS.faults fs.
Proof.
  intros H.
  assert ((updateInPlace todo cb fs).2 = None) as Hok by (by rewrite H).
  apply updateInPlace_None in Hok as ([data Hd] & Ht & Hl).
  pose proof (snitch_path_fresh (Filename todo)) as Hne.
  unfold updateInPlace in H.
  rewrite (updateToFile_spec _ _ _ _ data) in H by done.
  unfold OS.Rename in H. simpl in H.
  rewrite lookup_insert_eq, decide_False in H by done.
  injection H as <-. simpl. repeat split.
  - by rewrite lookup_insert_ne, lookup_delete_eq.
  - intros other H1 H2.
    by rewrite lookup_insert_ne, lookup_delete_ne, lookup_insert_ne.
Qed.

(** X7.  [updateToFile] onto the file of the Todo itself empties the file
    and returns nil, whatever the callback: the file is truncated before
    its first line is read. *)
Theorem X7_updateToFile_onto_itself (todo : Todo) (cb : LineCallback)
    (fs : OS.FS) :
  is_Some (OS.files fs !! Filename todo) →
  Filename todo ∉ OS.locked fs →
  updateToFile todo (Filename todo) cb fs
  = (OS.mkFS (<[Filename todo := EmptyString]> (OS.files fs)) (OS.locked fs)
       (OS.faults fs), None).
Proof.
  intros [data Hd] Hl. unfold updateToFile, OS.Open, OS.Create.
  rewrite Hd, decide_False by done.
  assert (Bufio.tokens
            (Bufio.NewScanner
               (OS.read
                  (OS.mkFS (<[Filename todo := EmptyString]> (OS.files fs))
                     (OS.locked fs) (OS.faults fs)) (Filename todo))) = [])
    as ->.
  { unfold OS.read, OS.contents. simpl. rewrite lookup_insert_eq. simpl.
    case_match; [|reflexivity]. case_match.
    match goal with |- context [firstn ?k _] => by destruct k end. }
  done.
Qed.

(** X8.  What [Update] writes is read back: under the conditions of X4,
    when the canonical form of the Todo has no line feed and no marker text
    occurs in it a second time, the line of the new file at the number of
    the Todo is parsed by [LineAsTodo] to the prefix, suffix and identifier
    of the Todo. *)
Theorem X8_update_then_parse (projectConfig : Config.ProjectConfig)
    (todo : Todo) (fs : OS.FS) (data : string) :
  OS.files fs !! Filename todo = Some data →
  OS.faults fs !! Filename todo = None →
  Filename todo +:+ ".snitch" ∉ OS.locked fs →
  Filename todo ∉ OS.locked fs →
  short data = true →
  1 ≤ Line todo ≤ Z.of_nat (length (lines data)) →
  Z.of_nat (length (lines data)) < 2 ^ 63 →
  no_newline (Todo_String todo) = true →
  match ID todo with
  | None => contains "TODO: " (Suffix todo) = false
  | Some id =>
      contains "TODO: " (Todo_String todo) = false
      ∧ contains "TODO(" id = false
      ∧ contains "): " (Suffix todo) = false
  end →
  ∃ fs' data' text todo',
    Update todo fs = (fs', None)
    ∧ OS.files fs' !! Filename todo = Some data'
    ∧ lines data' !! Z.to_nat (Line todo - 1) = Some text
    ∧ LineAsTodo projectConfig text = Some todo'
    ∧ Prefix todo' = Prefix todo ∧ Suffix todo' = Suffix todo
    ∧ ID todo' = ID todo.
Proof.
  intros Hd Hr Ht Hl Hp Hn Hlen Hnl Hc. unfold Update.
  destruct (updateInPlace_spec todo
              (at_line (Line todo) (Todo_String todo, false)) fs data Hd Ht Hl)
    as (fs' & Hrun & Hf & _).
  rewrite (read_healthy _ _ data), NewScanner_short in Hf by done.
  cbn [Bufio.tokens] in Hf.
  rewrite written_update in Hf by (rewrite ?length_fmap; lia).
  destruct (canonical_form_parses projectConfig todo Hnl Hc)
    as (todo' & Hparse & Hfields).
  eexists fs', _, (Todo_String todo), todo'.
  repeat split; [exact Hrun | exact Hf | | exact Hparse | apply Hfields..].
  rewrite lines_unlines.
  - apply list_lookup_insert_eq. rewrite length_fmap. lia.
  - apply Forall_insert; [|done].
    rewrite <- lines_copy. apply lines_no_newline.
Qed.

End RewriterProperties.

(** Witness of X4: the second line of a file of two lines. *)
Lemma X4_witness :
  let todo := Sample.todoAt "f" 2 in
  let fs := Sample.disk Sample.unixText in
  OS.files fs !! Filename todo = Some Sample.unixText
  ∧ OS.faults fs !! Filename todo = None
  ∧ (Filename todo +:+ ".snitch" ∉ OS.locked fs)
  ∧ (Filename todo ∉ OS.locked fs)
  ∧ Text.short Sample.unixText = true
  ∧ 1 ≤ Line todo ≤ Z.of_nat (length (Text.lines Sample.unixText))
  ∧ Z.of_nat (length (Text.lines Sample.unixText)) < 2 ^ 63
  ∧ ∃ fs' data', Update todo fs = (fs', None)
      ∧ OS.files fs' !! Filename todo = Some data'
      ∧ data' = Text.unlines
                  (<[Z.to_nat (Line todo - 1) := Todo_String todo]>
                     (Bufio.dropCR <$> Text.lines Sample.unixText)).
Proof.
  intros todo fs.
  assert (OS.files fs !! Filename todo = Some Sample.unixText) as H1
    by reflexivity.
  assert (OS.faults fs !! Filename todo = None) as H2 by reflexivity.
  assert (Filename todo +:+ ".snitch" ∉ OS.locked fs) as H3
    by apply not_elem_of_empty.
  assert (Filename todo ∉ OS.locked fs) as H4 by apply not_elem_of_empty.
  assert (Text.short Sample.unixText = true) as H5 by reflexivity.
  assert (1 ≤ Line todo ≤ Z.of_nat (length (Text.lines Sample.unixText)))
    as H6 by (vm_compute; split; discriminate).
  assert (Z.of_nat (length (Text.lines Sample.unixText)) < 2 ^ 63) as H7
    by reflexivity.
  destruct (X4_update_replaces_one_line todo fs Sample.unixText
              H1 H2 H3 H4 H5 H6 H7) as (fs' & data' & Ha & Hb & Hc & _).
  exact (conj H1 (conj H2 (conj H3 (conj H4 (conj H5 (conj H6 (conj H7
    (ex_intro _ fs' (ex_intro _ data' (conj Ha (conj Hb Hc))))))))))).
Defined.

(** Witness of X5: a file that cannot be replaced. *)
Lemma X5_witness :
  let todo := Sample.todoAt "f" 1 in
  let fs := OS.mkFS {[ "f" := Sample.unixText ]} {[ "f" ]} ∅ in
  let fs' := (updateInPlace todo Sample.identity fs).1 in
  let err := LinkError "rename" "f.snitch" "f" "permission denied" in
  OS.Open fs (Filename todo) = inr "f"
  ∧ OS.Create fs (Filename todo +:+ ".snitch")
    = inr ("f.snitch",
           OS.mkFS (<["f.snitch" := EmptyString]> (OS.files fs))
             (OS.locked fs) (OS.faults fs))
  ∧ updateInPlace todo Sample.identity fs = (fs', Some err)
  ∧ OS.files fs' !! Filename todo = OS.files fs !! Filename todo
  ∧ is_Some (OS.files fs' !! (Filename todo +:+ ".snitch")).
Proof.
  intros todo fs fs' err.
  assert (OS.Open fs (Filename todo) = inr "f") as H1 by reflexivity.
  assert (OS.Create fs (Filename todo +:+ ".snitch")
          = inr ("f.snitch",
                 OS.mkFS (<["f.snitch" := EmptyString]> (OS.files fs))
                   (OS.locked fs) (OS.faults fs))) as H2
    by (vm_compute; reflexivity).
  assert (updateInPlace todo Sample.identity fs = (fs', Some err)) as H3
    by (vm_compute; reflexivity).
  destruct (X5_updateInPlace_errors todo Sample.identity fs)
    as (_ & _ & H & _).
  destruct (H _ _ fs' err H1 H2 H3) as (_ & H4 & H5).
  exact (conj H1 (conj H2 (conj H3 (conj H4 H5)))).
Defined.

(** Witness of X6: a rewrite while a temporary file of an earlier run is
    still there. *)
Lemma X6_witness :
  let todo := Sample.todoAt "f" 1 in
  let fs := OS.mkFS {[ "f" := Sample.unixText; "f.snitch" := "old" ]} ∅ ∅ in
  ∃ fs', updateInPlace todo Sample.identity fs = (fs', None)
    ∧ OS.files fs' !! (Filename todo +:+ ".snitch") = None
    ∧ OS.locked fs' = OS.locked fs
    ∧ OS.faults fs' = OS.faults fs.
Proof.
  intros todo fs.
  assert (updateInPlace todo Sample.identity fs
          = ((updateInPlace todo Sample.identity fs).1, None)) as H
    by (vm_compute; reflexivity).
  destruct (X6_updateInPlace_frame todo Sample.identity fs _ H)
    as (Ha & _ & Hb & Hc).
  exact (ex_intro _ _ (conj H (conj Ha (conj Hb Hc)))).
Defined.

(** Witness of X7. *)
Lemma X7_witness :
  let todo := Sample.todoAt "f" 1 in
  let fs := Sample.disk Sample.unixText in
  is_Some (OS.files fs !! Filename todo)
  ∧ (Filename todo ∉ OS.locked fs)
  ∧ updateToFile todo (Filename todo) Sample.identity fs
    = (OS.mkFS (<[Filename todo := EmptyString]> (OS.files fs)) (OS.locked fs)
         (OS.faults fs), None).
Proof.
  intros todo fs.
  assert (is_Some (OS.files fs !! Filename todo)) as H1
    by (exists Sample.unixText; reflexivity).
  assert (Filename todo ∉ OS.locked fs) as H2 by apply not_elem_of_empty.
  exact (conj H1 (conj H2
    (X7_updateToFile_onto_itself todo Sample.identity fs H1 H2))).
Defined.

(** Witness of X8: a reported Todo written at the first line. *)
Lemma X8_witness :
  let todo := Sample.todoAt "f" 1 in
  let fs := Sample.disk Sample.unixText in
  OS.files fs !! Filename todo = Some Sample.unixText
  ∧ OS.faults fs !! Filename todo = None
  ∧ (Filename todo +:+ ".snitch" ∉ OS.locked fs)
  ∧ (Filename todo ∉ OS.locked fs)
  ∧ Text.short Sample.unixText = true
  ∧ 1 ≤ Line todo ≤ Z.of_nat (length (Text.lines Sample.unixText))
  ∧ Z.of_nat (length (Text.lines Sample.unixText)) < 2 ^ 63
  ∧ Str.no_newline (Todo_String todo) = true
  ∧ (Str.contains "TODO: " (Todo_String todo) = false
     ∧ Str.contains "TODO(" "#7" = false
     ∧ Str.contains "): " (Suffix todo) = false)
  ∧ ∃ fs' data' text todo',
      Update todo fs = (fs', None)
      ∧ OS.files fs' !! Filename todo = Some data'
      ∧ Text.lines data' !! Z.to_nat (Line todo - 1) = Some text
      ∧ LineAsTodo plainConfig text = Some todo'
      ∧ Prefix todo' = Prefix todo ∧ Suffix todo' = Suffix todo
      ∧ ID todo' = ID todo.
Proof.
  intros todo fs.
  assert (OS.files fs !! Filename todo = Some Sample.unixText) as H1
    by reflexivity.
  assert (OS.faults fs !! Filename todo = None) as H2 by reflexivity.
  assert (Filename todo +:+ ".snitch" ∉ OS.locked fs) as H3
    by apply not_elem_of_empty.
  assert (Filename todo ∉ OS.locked fs) as H4 by apply not_elem_of_empty.
  assert (Text.short Sample.unixText = true) as H5 by reflexivity.
  assert (1 ≤ Line todo ≤ Z.of_nat (length (Text.lines Sample.unixText)))
    as H6 by (vm_compute; split; discriminate).
  assert (Z.of_nat (length (Text.lines Sample.unixText)) < 2 ^ 63) as H7
    by reflexivity.
  assert (Str.no_newline (Todo_String todo) = true) as H8 by reflexivity.
  assert (Str.contains "TODO: " (Todo_String todo) = false
          ∧ Str.contains "TODO(" "#7" = false
          ∧ Str.contains "): " (Suffix todo) = false) as H9
    by (repeat split; reflexivity).
  exact (conj H1 (conj H2 (conj H3 (conj H4 (conj H5 (conj H6 (conj H7
    (conj H8 (conj H9
      (X8_update_then_parse plainConfig todo fs Sample.unixText
         H1 H2 H3 H4 H5 H6 H7 H8 H9)))))))))).
Defined.

(** ** The walker *)

Module WalkMore.
Import Walk Str StrFacts ParseFacts.

(** The canonical form of a parse is the line. *)
Lemma LineAsTodo_String cfg line todo :
  LineAsTodo cfg line = Some todo → Todo_String todo = line.
Proof.
  unfold LineAsTodo.
  destruct (lineAsUnreportedTodo cfg line) as [t|] eqn:Eu.
  - intros [= <-].
    by apply lineAsUnreportedTodo_Some in Eu as (p & q & -> & _ & _ & ->).
  - destruct (lineAsReportedTodo cfg line) as [t|] eqn:Er; [|done].
    intros [= <-].
    by apply lineAsReportedTodo_Some in Er as (p & i & q & -> & _ & ->).
Qed.

Lemma LogString_String todo :
  LogString todo
  = Filename todo +:+ ":" +:+ Fmt.d (Line todo) +:+ ": " +:+ Todo_String todo.
Proof. unfold LogString, Todo_String. by destruct (ID todo). Qed.

Section Laws.
Context {St : Type}.
Variable projectConfig : Config.ProjectConfig.
Variable visit : @Visit St.

(** Texts without Todo are passed over, whatever their number. *)
Lemma walkLines_no_todo path texts failure line st :
  Forall (λ text, LineAsTodo projectConfig text = None) texts →
  walkLines projectConfig path visit texts failure line st
  = (st, if decide (failure = EOF) then None else Some failure).
Proof.
  intros H. revert line. induction H as [|text rest Ht _ IH]; intros line;
    simpl; [done|]. rewrite Ht. apply IH.
Qed.

(** The walk changes the state of the visitor through the visits only. *)
Lemma walkLines_invariant (P : St → Prop) path texts failure line st :
  (∀ todo s, P s → P (visit todo s).1) → P st →
  P (walkLines projectConfig path visit texts failure line st).1.
Proof.
  intros Hv. revert line st.
  induction texts as [|text rest IH]; intros line st Hst; simpl; [done|].
  destruct (LineAsTodo projectConfig text) as [todo|]; [|by apply IH].
  match goal with |- context [visit ?t st] =>
    pose proof (Hv t st Hst) as Hst'; destruct (visit t st) as [st' [e|]] end;
    [done | by apply IH].
Qed.

Lemma walkFiles_invariant (P : St → Prop) w paths st :
  (∀ todo s, P s → P (visit todo s).1) → P st →
  P (walkFiles projectConfig w visit paths st).1.
Proof.
  intros Hv. revert st. induction paths as [|f rest IH]; intros st Hst;
    simpl; [done|].
  assert (P (WalkTodosOfFile projectConfig w f visit st).1) as Hf.
  { unfold WalkTodosOfFile. destruct (os_Open w f); [done|].
    by apply walkLines_invariant. }
  destruct (WalkTodosOfFile projectConfig w f visit st) as [st' [e|]];
    [done | by apply IH].
Qed.

(** Files that open and are read to their end are walked one after the
    other. *)
Lemma walkFiles_visited w (bytes : string → string) paths st :
  Forall (λ path, os_Open w path = inr (ReadLine.NewReader (bytes path)))
    paths →
  walkFiles projectConfig w visit paths st
  = feed visit
      (paths ≫= λ path,
         visited projectConfig path (ReadLine.texts (bytes path))) st.
Proof.
  intros H. revert st. induction H as [|path rest Ho _ IH]; intros st; [done|].
  cbn [walkFiles]. rewrite bind_cons, WalkFacts.feed_app.
  rewrite (WalkFacts.WalkTodosOfFile_visited _ _ _ path _ st Ho).
  cbn [ReadLine.NewReader pending failure]. unfold finish.
  destruct (feed visit _ st) as [st' [e|]]; [done|].
  rewrite decide_True by done. apply IH.
Qed.

End Laws.

(** As long as the counter does not wrap around, the number of a Todo is
    the number of its text, counted from 1. *)
Lemma visited_todosOf cfg path texts :
  Z.of_nat (length texts) < 2 ^ 63 →
  visited cfg path texts = todosOf cfg path texts.
Proof.
  intros Hlen. unfold visited, todosOf. f_equal.
  apply imap_ext. intros i text Hi. apply lookup_lt_Some in Hi.
  rewrite RewriteFacts.wrap_in_range; [done|].
  unfold GoInt.in_range. lia.
Qed.

(** The Todos of a file: each one comes from a text of the file, carries the
    path and the value of the counter at that text, and has the text as its
    canonical form. *)
Lemma elem_of_visited cfg path texts todo :
  todo ∈ visited cfg path texts ↔
  ∃ i text parsed, texts !! i = Some text
    ∧ LineAsTodo cfg text = Some parsed
    ∧ todo = located path (GoInt.wrap (1 + Z.of_nat i)) parsed.
Proof.
  unfold visited. rewrite list_elem_of_omap. split.
  - intros (o & Ho & Hid). simpl in Hid. subst o.
    apply elem_of_lookup_imap in Ho as (i & text & Ho & Hi).
    destruct (LineAsTodo cfg text) as [parsed|] eqn:E; [|done].
    injection Ho as ->. by exists i, text, parsed.
  - intros (i & text & parsed & Hi & Hp & ->).
    exists (Some (located path (GoInt.wrap (1 + Z.of_nat i)) parsed)).
    split; [|done].
    apply elem_of_lookup_imap. exists i, text. by rewrite Hp.
Qed.

Lemma firstn_drop n seg : Str.firstn n seg +:+ ReadLine.drop n seg = seg.
Proof.
  revert seg. induction n as [|n IH]; intros [|c seg]; simpl; try done.
  by rewrite IH.
Qed.

Lemma length_drop n seg :
  String.length (ReadLine.drop n seg) = (String.length seg - n)%nat.
Proof.
  revert seg. induction n as [|n IH]; intros [|c seg]; simpl; try done.
Qed.

Lemma dropCR_app p r :
  r ≠ EmptyString → Bufio.dropCR (p +:+ r) = p +:+ Bufio.dropCR r.
Proof.
  intros Hr. induction p as [|d p IH]; [done|].
  change (String d p +:+ r) with (String d (p +:+ r)). cbn [Bufio.dropCR].
  destruct (p +:+ r) eqn:E.
  - destruct p; simpl in E; [congruence | done].
  - by rewrite IH.
Qed.

Lemma bufsize_large : (2 ≤ ReadLine.defaultBufSize)%nat.
Proof. apply Nat.leb_le. vm_compute. reflexivity. Qed.

Lemma taken_bounds seg :
  (1 ≤ ReadLine.taken seg ≤ ReadLine.defaultBufSize)%nat
  ∧ (ReadLine.taken seg = ReadLine.defaultBufSize →
     Text.ends_with Str.CR (Str.firstn ReadLine.defaultBufSize seg) = false).
Proof.
  pose proof bufsize_large as H. unfold ReadLine.taken.
  destruct (Text.ends_with _ _); split; try lia; try done.
Qed.

(** The texts returned for a segment are the segment, cut in pieces: the
    fuel is enough and no byte is lost but the carriage return before the
    line feed. *)
Lemma pieces_whole fuel terminated seg :
  (String.length seg < fuel)%nat →
  Printed.join (ReadLine.pieces fuel terminated seg)
  = if terminated then Bufio.dropCR seg else seg.
Proof.
  revert seg. induction fuel as [|fuel IH]; intros seg Hlen; [lia|].
  cbn [ReadLine.pieces].
  destruct (String.length seg <? ReadLine.defaultBufSize)%nat eqn:Hb.
  - destruct terminated; [simpl; apply StrFacts.app_nil_r|].
    destruct seg; [done|]. simpl. by rewrite StrFacts.app_nil_r.
  - apply Nat.ltb_ge in Hb.
    destruct (taken_bounds seg) as [Ht Hfull].
    cbn [Printed.join foldr].
    change (foldr String.append EmptyString ?l) with (Printed.join l).
    rewrite IH by (rewrite length_drop; lia).
    destruct terminated; [|apply firstn_drop].
    destruct (ReadLine.drop (ReadLine.taken seg) seg) as [|c r] eqn:E.
    + pose proof (length_drop (ReadLine.taken seg) seg) as Hd.
      rewrite E in Hd. simpl in Hd.
      assert (ReadLine.taken seg = ReadLine.defaultBufSize) as Heq by lia.
      pose proof (firstn_drop (ReadLine.taken seg) seg) as Hs.
      rewrite E, StrFacts.app_nil_r in Hs.
      rewrite Hs at 1. simpl. rewrite StrFacts.app_nil_r.
      symmetry. apply RewriteFacts.dropCR_id.
      rewrite <- Hs at 1. rewrite Heq. by apply Hfull.
    + rewrite <- dropCR_app by done. by rewrite <- E, firstn_drop.
Qed.

(** A line that fits the buffer is returned by one call. *)
Lemma pieces_brief fuel terminated seg :
  (String.length seg <? ReadLine.defaultBufSize)%nat = true →
  ReadLine.pieces (S fuel) terminated seg
  = if terminated then [Bufio.dropCR seg]
    else if Str.is_empty seg then [] else [seg].
Proof. intros H. cbn [ReadLine.pieces]. by rewrite H. Qed.

(** On a text whose lines fit the buffer, [ReadLine] returns the lines. *)
Lemma texts_brief data :
  ReadLine.brief data = true → ReadLine.texts data = ReadLine.rows data.
Proof.
  unfold ReadLine.brief, ReadLine.texts, ReadLine.rows.
  induction (Bufio.split_LF data) as [|seg segs IH]; [done|].
  cbn [forallb ReadLine.texts_of ReadLine.rows_of].
  intros [Hs Hrest]%andb_prop.
  destruct segs as [|seg' segs]; rewrite pieces_brief by done; [done|].
  by rewrite IH.
Qed.

End WalkMore.

Section WalkerProperties.
Import Walk WalkMore.
Context {St : Type}.
Variable projectConfig : Config.ProjectConfig.
Variable w : World.
Variable visit : @Visit St.

(** X9.  On a file that opens and is read to its end, [WalkTodosOfFile]
    visits in turn, until a visit fails, the Todos of the texts that
    [ReadLine] returns, which are the lines of the file or, for a line of
    4096 bytes or more, its pieces; it returns the error of the visit that
    failed, or nil.  A Todo visited carries the path and the number of its
    text, counted from 1 in an [int], and its canonical form is the text.
    When every line of the file is shorter than 4096 bytes and there are
    fewer than 2^63 of them, the texts are the lines, each without the
    carriage return before its line feed, and the number of a Todo is the
    number of its line. *)
Theorem X9_walk_visits_the_todos_of_the_file (path data : string) (st : St) :
  os_Open w path = inr (ReadLine.NewReader data) →
  WalkTodosOfFile projectConfig w path visit st
  = feed visit (visited projectConfig path (ReadLine.texts data)) st
  ∧ (∀ todo, todo ∈ visited projectConfig path (ReadLine.texts data) ↔
       ∃ i text parsed, ReadLine.texts data !! i = Some text
         ∧ LineAsTodo projectConfig text = Some parsed
         ∧ Todo_String parsed = text
         ∧ todo = located path (GoInt.wrap (1 + Z.of_nat i)) parsed)
  ∧ (ReadLine.brief data = true →
     Z.of_nat (length (ReadLine.rows data)) < 2 ^ 63 →
     ReadLine.texts data = ReadLine.rows data
     ∧ WalkTodosOfFile projectConfig w path visit st
       = feed visit (todosOf projectConfig path (ReadLine.rows data)) st).
Proof.
  intros Ho.
  assert (WalkTodosOfFile projectConfig w path visit st
          = feed visit (visited projectConfig path (ReadLine.texts data)) st)
    as Hwalk.
  { rewrite (WalkFacts.WalkTodosOfFile_visited _ _ _ path _ st Ho).
    cbn [ReadLine.NewReader pending failure]. unfold finish.
    destruct (feed visit _ st) as [st' [e|]]; [done|].
    by rewrite decide_True. }
  split; [exact Hwalk|split].
  - intros todo. rewrite elem_of_visited. split.
    + intros (i & text & parsed & Hi & Hp & ->).
      exists i, text, parsed.
      by rewrite (LineAsTodo_String projectConfig text parsed Hp).
    + intros (i & text & parsed & Hi & Hp & _ & ->). by exists i, text, parsed.
  - intros Hb Hlen. rewrite Hwalk, (texts_brief data Hb).
    by rewrite (visited_todosOf projectConfig path _ Hlen).
Qed.

(** X10.  On a file that opens and in which no text holds a Todo,
    [WalkTodosOfFile] calls the visitor not once: the state is unchanged
    and the result is nil when the reader ends with [EOF], the error of the
    reader otherwise; this needs no bound on the number of texts. *)
Theorem X10_walk_without_todo (path : string) (reader : Reader) (st : St) :
  os_Open w path = inr reader →
  Forall (λ text, LineAsTodo projectConfig text = None) (pending reader) →
  WalkTodosOfFile projectConfig w path visit st
  = (st, if decide (failure reader = EOF) then None
         else Some (failure reader)).
Proof.
  intros Ho H. unfold WalkTodosOfFile. rewrite Ho.
  by apply walkLines_no_todo.
Qed.

(** X11.  When the listing fails, [WalkTodosOfDir] returns its error and
    visits nothing.  When the listing succeeds and every listed file opens
    and is read to its end, [WalkTodosOfDir] visits the Todos of the texts
    that [ReadLine] returns, file after file in the order of the listing
    and text after text, until a visit fails, and returns the error of that
    visit or nil.  When moreover every line of these files is shorter than
    4096 bytes and no file has 2^63 lines, these are the Todos of the lines
    of the files, each with the number of its line. *)
Theorem X11_walk_of_a_directory (dirpath : string) (bytes : string → string)
    (st : St) :
  (∀ err outb, git_ls_files w dirpath = (Some err, outb) →
     WalkTodosOfDir projectConfig w dirpath visit st = (st, Some err))
  ∧ (∀ outb,
       git_ls_files w dirpath = (None, outb) →
       Forall (λ path, os_Open w path = inr (ReadLine.NewReader (bytes path)))
         (Bufio.tokens (Bufio.NewScanner (Bufio.Buffer outb))) →
       WalkTodosOfDir projectConfig w dirpath visit st
       = feed visit
           (Bufio.tokens (Bufio.NewScanner (Bufio.Buffer outb)) ≫= λ path,
              visited projectConfig path (ReadLine.texts (bytes path))) st
       ∧ (Forall (λ path, ReadLine.brief (bytes path) = true
                          ∧ Z.of_nat (length (ReadLine.rows (bytes path)))
                            < 2 ^ 63)
            (Bufio.tokens (Bufio.NewScanner (Bufio.Buffer outb))) →
          WalkTodosOfDir projectConfig w dirpath visit st
          = feed visit
              (Bufio.tokens (Bufio.NewScanner (Bufio.Buffer outb)) ≫= λ path,
                 todosOf projectConfig path (ReadLine.rows (bytes path))) st)).
Proof.
  split.
  - intros err outb Hg. unfold WalkTodosOfDir. by rewrite Hg.
  - intros outb Hg H.
    assert (WalkTodosOfDir projectConfig w dirpath visit st
            = feed visit
                (Bufio.tokens (Bufio.NewScanner (Bufio.Buffer outb)) ≫=
                   λ path,
                   visited projectConfig path (ReadLine.texts (bytes path)))
                st) as Hwalk.
    { unfold WalkTodosOfDir. rewrite Hg. by apply walkFiles_visited. }
    split; [exact Hwalk|].
    intros Hb. rewrite Hwalk. f_equal. clear Hwalk H.
    induction Hb as [|path rest [Hp Hlen] _ IH]; [done|].
    rewrite !bind_cons, IH, (texts_brief _ Hp).
    by rewrite (visited_todosOf projectConfig path _ Hlen).
Qed.

End WalkerProperties.

(** Witness of X9: a file whose first line has 4096 bytes.  The line is
    returned in two texts, the second one empty, so that the Todo of the
    second line is visited with the number 3. *)
Lemma X9_witness :
  let data := Str.replicate 4096 "x" +:+ Str.NL +:+ "// TODO: late" in
  let w := Walk.mkWorld (λ _, inr (ReadLine.NewReader data))
             (λ _, (None, EmptyString)) in
  Walk.os_Open w "f" = inr (ReadLine.NewReader data)
  ∧ Walk.WalkTodosOfFile plainConfig w "f" SampleWalk.record []
    = ([ {| Prefix := "// "; Suffix := "late"; ID := None; Filename := "f";
            Line := 3; Title := "late" |} ], None).
Proof.
  intros data w.
  assert (Walk.os_Open w "f" = inr (ReadLine.NewReader data)) as H1
    by reflexivity.
  destruct (X9_walk_visits_the_todos_of_the_file plainConfig w
              SampleWalk.record "f" data [] H1) as [H2 _].
  assert (visited plainConfig "f" (ReadLine.texts data)
          = [ {| Prefix := "// "; Suffix := "late"; ID := None;
                 Filename := "f"; Line := 3; Title := "late" |} ]) as E
    by (vm_compute; reflexivity).
  rewrite E in H2.
  exact (conj H1 H2).
Defined.

(** Witness of X10: a file of two texts without marker. *)
Lemma X10_witness :
  let reader := Walk.mkReader ["package main"; "func main() {}"] EOF in
  let w := Walk.mkWorld (λ _, inr reader) (λ _, (None, EmptyString)) in
  Walk.os_Open w "main.go" = inr reader
  ∧ Forall (λ text, LineAsTodo plainConfig text = None) (Walk.pending reader)
  ∧ Walk.WalkTodosOfFile plainConfig w "main.go" SampleWalk.record []
    = ([], None).
Proof.
  intros reader w.
  assert (Walk.os_Open w "main.go" = inr reader) as H1 by reflexivity.
  assert (Forall (λ text, LineAsTodo plainConfig text = None)
            (Walk.pending reader)) as H2
    by (repeat constructor; vm_compute; reflexivity).
  exact (conj H1 (conj H2
    (X10_walk_without_todo plainConfig w SampleWalk.record "main.go" reader
       [] H1 H2))).
Defined.

(** Witness of X11: two listed files, the first one with lines that end
    with carriage return and line feed. *)
Lemma X11_witness :
  let bytes := λ path : string,
    if String.eqb path "a"
    then "x" +:+ String Str.CR Str.NL +:+ "// TODO: in a"
         +:+ String Str.CR Str.NL
    else "// TODO(#7): in b" +:+ Str.NL in
  let w := Walk.mkWorld (λ path, inr (ReadLine.NewReader (bytes path)))
             (λ _, (None, "a" +:+ Str.NL +:+ "b" +:+ Str.NL)) in
  let paths := Bufio.tokens (Bufio.NewScanner (Bufio.Buffer
                 ("a" +:+ Str.NL +:+ "b" +:+ Str.NL))) in
  Walk.git_ls_files w "." = (None, "a" +:+ Str.NL +:+ "b" +:+ Str.NL)
  ∧ Forall (λ path, Walk.os_Open w path = inr (ReadLine.NewReader (bytes path)))
      paths
  ∧ Forall (λ path, ReadLine.brief (bytes path) = true
                    ∧ Z.of_nat (length (ReadLine.rows (bytes path))) < 2 ^ 63)
      paths
  ∧ Walk.WalkTodosOfDir plainConfig w "." SampleWalk.record []
    = feed SampleWalk.record
        (paths ≫= λ path, todosOf plainConfig path (ReadLine.rows (bytes path)))
        [].
Proof.
  intros bytes w paths.
  assert (Walk.git_ls_files w "."
          = (None, "a" +:+ Str.NL +:+ "b" +:+ Str.NL)) as H1 by reflexivity.
  assert (Forall (λ path, Walk.os_Open w path
                          = inr (ReadLine.NewReader (bytes path))) paths)
    as H2 by (repeat constructor).
  assert (Forall (λ path, ReadLine.brief (bytes path) = true
                          ∧ Z.of_nat (length (ReadLine.rows (bytes path)))
                            < 2 ^ 63) paths) as H3
    by (repeat constructor).
  destruct (X11_walk_of_a_directory plainConfig w SampleWalk.record "." bytes
              []) as [_ H].
  destruct (H _ H1 H2) as [_ H4].
  exact (conj H1 (conj H2 (conj H3 (H4 H3)))).
Defined.

(** ** The subcommands *)

Module MainMore.
Import Walk Str StrFacts WalkMore Main Printed.

(** The visitor of [list] on the Todos of the texts from the number
    [1 + k]. *)
Lemma feed_listing cfg path texts k c :
  feed listVisit
    (omap id
       (imap (λ i text,
                located path (1 + Z.of_nat (k + i)) <$> LineAsTodo cfg text)
          texts)) c
  = (mkConsole (stdin c)
       (stdout c +:+ join (imap (λ i, logLine cfg path (k + i)) texts)),
     None).
Proof.
  revert k c. induction texts as [|text rest IH]; intros k c.
  - simpl. rewrite app_nil_r. by destruct c.
  - rewrite !imap_cons. cbn [omap list_omap join foldr].
    change (foldr String.append EmptyString ?l) with (join l).
    assert (imap ((λ i text0,
                     located path (1 + Z.of_nat (k + i))
                     <$> LineAsTodo cfg text0) ∘ S) rest
            = imap (λ i text0,
                      located path (1 + Z.of_nat (S k + i))
                      <$> LineAsTodo cfg text0) rest) as ->.
    { apply imap_ext. intros i x _. simpl. do 3 f_equal. lia. }
    assert (imap ((λ i, logLine cfg path (k + i)) ∘ S) rest
            = imap (λ i, logLine cfg path (S k + i)) rest) as ->.
    { apply imap_ext. intros i x _. simpl. f_equal. lia. }
    replace (k + 0)%nat with k by lia. unfold logLine at 1.
    destruct (LineAsTodo cfg text) as [todo|] eqn:E;
      cbn [fmap option_fmap option_map omap list_omap id feed].
    + unfold listVisit at 1. cbv beta. rewrite IH. cbn [stdin stdout].
      rewrite LogString_String. cbn [Filename Line located].
      change (Todo_String _) with (Todo_String todo).
      rewrite (LineAsTodo_String cfg text todo E).
      by rewrite !app_assoc.
    + apply IH.
Qed.

Lemma unclear_test reply :
  unclear reply →
  negb (String.eqb reply yes) && negb (String.eqb reply no) = true.
Proof.
  intros [Hy Hn]. apply String.eqb_neq in Hy, Hn. by rewrite Hy, Hn.
Qed.

Lemma questions_snoc n : questions n +:+ question = questions (S n).
Proof.
  induction n as [|n IH]; [done|]. cbn [questions].
  by rewrite app_assoc, IH.
Qed.

(** Replies that are not clear are asked again. *)
Lemma ask_unclear junk replies failure out :
  Forall unclear junk →
  ask (junk ++ replies) failure out
  = ask replies failure (out +:+ questions (length junk)).
Proof.
  intros H. revert out. induction H as [|reply junk Hr _ IH]; intros out.
  - simpl. by rewrite app_nil_r.
  - cbn [app ask length]. rewrite (unclear_test _ Hr), IH. cbn [questions].
    by rewrite app_assoc.
Qed.

(** What a visit of [report] does to the list of Todos to report. *)
Lemma reportVisit_collects todo st :
  todosToReport (reportVisit todo st).1 = todosToReport st
  ∨ (ID todo = None
     ∧ todosToReport (reportVisit todo st).1 = todosToReport st ++ [todo]).
Proof.
  unfold reportVisit. destruct (ID todo); [by left|].
  destruct (ask _ _ _) as [[[text [e|]] rest] out]; [by left|].
  destruct (String.eqb text no); [by left | by right].
Qed.

End MainMore.

Section SubcommandProperties.
Import Walk WalkMore Main Printed MainMore.
Variable projectConfig : Config.ProjectConfig.

(** X13.  Given in turn the Todos that [LineAsTodo] finds in a list of
    texts, each with a path and the number of its text counted from 1, the
    visitor of [list] prints for each of them the path, a colon, the
    number, a colon and a space, the text as it is, and a line feed; it
    prints nothing else, reads nothing and never fails. *)
Theorem X13_list_prints_location_and_line (path : string)
    (texts : list string) (c : Console) :
  feed listVisit (todosOf projectConfig path texts) c
  = (mkConsole (stdin c) (stdout c +:+ listing projectConfig path texts),
     None).
Proof. exact (feed_listing projectConfig path texts 0 c). Qed.

(** X14.  The visitor of [report], on an unreported Todo, prints the log
    form and asks its question until the reply is "y" or "n" followed by a
    line feed: after [k] other replies the question has been printed
    [k + 1] times, the replies up to the clear one are consumed, the Todo
    is added at the end of the Todos to report when the reply is "y" and is
    left out when it is "n", and the visit returns nil. *)
Theorem X14_report_asks_until_answered (todo : Todo) (st : ReportState)
    (junk : list string) (answer : string) (rest : list string) :
  ID todo = None →
  pending (stdin (console st)) = junk ++ answer :: rest →
  Forall unclear junk →
  answer = yes ∨ answer = no →
  reportVisit todo st
  = (mkReportState
       (mkConsole (mkReader rest (failure (stdin (console st))))
          (stdout (console st) +:+ LogString todo +:+ Str.NL
           +:+ questions (S (length junk))))
       (if decide (answer = yes) then todosToReport st ++ [todo]
        else todosToReport st),
     None).
Proof.
  intros Hid Hin Hjunk Hans. unfold reportVisit. rewrite Hid, Hin.
  rewrite (ask_unclear junk _ _ _ Hjunk). cbn [ask].
  assert (negb (String.eqb answer yes) && negb (String.eqb answer no) = false)
    as ->.
  { destruct Hans as [-> | ->]; reflexivity. }
  assert (stdout (console st) +:+ LogString todo +:+ Str.NL
          +:+ questions (S (length junk))
          = (stdout (console st) +:+ LogString todo +:+ Str.NL +:+ question)
            +:+ questions (length junk)) as ->.
  { cbn [questions]. by rewrite !StrFacts.app_assoc. }
  destruct Hans as [-> | ->].
  - by rewrite decide_True.
  - by rewrite decide_False.
Qed.

(** X15.  When the standard input ends, or fails, before a clear reply,
    the visitor of [report] returns the error of the read; every reply has
    been consumed, the question has been printed once more than there were
    replies, and the Todo is not added to the Todos to report. *)
Theorem X15_report_input_ends (todo : Todo) (st : ReportState) :
  ID todo = None →
  Forall unclear (pending (stdin (console st))) →
  reportVisit todo st
  = (mkReportState
       (mkConsole (mkReader [] (failure (stdin (console st))))
          (stdout (console st) +:+ LogString todo +:+ Str.NL
           +:+ questions (S (length (pending (stdin (console st)))))))
       (todosToReport st),
     Some (failure (stdin (console st)))).
Proof.
  intros Hid Hjunk. unfold reportVisit. rewrite Hid.
  rewrite <- (app_nil_r (pending (stdin (console st)))) at 1.
  rewrite (ask_unclear _ [] _ _ Hjunk). cbn [ask questions].
  by rewrite !StrFacts.app_assoc.
Qed.

(** X16.  A reported Todo leaves the state of the visitor of [report] as it
    is: nothing is printed and no reply is consumed.  Through a whole walk
    of a directory the Todos to report only grow at the end, and when they
    were all unreported before the walk they are all unreported after it,
    whether the walk fails or not. *)
Theorem X16_report_collects_unreported_only (w : World) (dirpath : string)
    (st : ReportState) :
  (∀ todo s, ID todo ≠ None → reportVisit todo s = (s, None))
  ∧ (Forall (λ todo, ID todo = None) (todosToReport st) →
     Forall (λ todo, ID todo = None)
       (todosToReport
          (WalkTodosOfDir projectConfig w dirpath reportVisit st).1))
  ∧ todosToReport st
    `prefix_of` todosToReport
                  (WalkTodosOfDir projectConfig w dirpath reportVisit st).1.
Proof.
  split; [|split].
  - intros todo s H. unfold reportVisit. by destruct (ID todo).
  - intros H. unfold WalkTodosOfDir.
    destruct (git_ls_files w dirpath) as [[e|] outb]; [done|].
    apply (walkFiles_invariant projectConfig reportVisit
             (λ s, Forall (λ todo, ID todo = None) (todosToReport s)));
      [|done].
    intros todo s Hs.
    destruct (reportVisit_collects todo s) as [-> | [Hid ->]]; [done|].
    apply Forall_app. by repeat constructor.
  - unfold WalkTodosOfDir.
    destruct (git_ls_files w dirpath) as [[e|] outb]; [done|].
    apply (walkFiles_invariant projectConfig reportVisit
             (λ s, todosToReport st `prefix_of` todosToReport s)); [|done].
    intros todo s Hs.
    destruct (reportVisit_collects todo s) as [-> | [Hid ->]]; [done|].
    by apply prefix_app_r.
Qed.

End SubcommandProperties.

(** An instance of X13: three texts, of which two hold a Todo. *)
Lemma X13_witness :
  let texts := ["// TODO: one"; "x := 1"; "// TODO(#7): two"] in
  let c := Main.mkConsole (Walk.mkReader [] EOF) EmptyString in
  feed Main.listVisit (todosOf plainConfig "main.go" texts) c
  = (Main.mkConsole (Walk.mkReader [] EOF)
       ("main.go:1: // TODO: one" +:+ Str.NL
        +:+ "main.go:3: // TODO(#7): two" +:+ Str.NL),
     None).
Proof.
  intros texts c.
  exact (X13_list_prints_location_and_line plainConfig "main.go" texts c).
Defined.

(** Witness of X14: an empty reply, then "y". *)
Lemma X14_witness :
  let todo := {| Prefix := "// "; Suffix := "fix"; ID := None;
                 Filename := "f"; Line := 1; Title := "fix" |} in
  let st := Main.mkReportState
              (Main.mkConsole (Walk.mkReader [Str.NL; Main.yes; Main.no] EOF)
                 EmptyString) [] in
  ID todo = None
  ∧ Walk.pending (Main.stdin (Main.console st))
    = [Str.NL] ++ Main.yes :: [Main.no]
  ∧ Forall Printed.unclear [Str.NL]
  ∧ (Main.yes = Main.yes ∨ Main.yes = Main.no)
  ∧ Main.reportVisit todo st
    = (Main.mkReportState
         (Main.mkConsole (Walk.mkReader [Main.no] EOF)
            ("f:1: // TODO: fix" +:+ Str.NL +:+ Main.question
             +:+ Main.question))
         [todo],
       None).
Proof.
  intros todo st.
  assert (ID todo = None) as H1 by reflexivity.
  assert (Walk.pending (Main.stdin (Main.console st))
          = [Str.NL] ++ Main.yes :: [Main.no]) as H2 by reflexivity.
  assert (Forall Printed.unclear [Str.NL]) as H3
    by (repeat constructor; discriminate).
  assert (Main.yes = Main.yes ∨ Main.yes = Main.no) as H4
    by (left; reflexivity).
  exact (conj H1 (conj H2 (conj H3 (conj H4
    (X14_report_asks_until_answered todo st [Str.NL] Main.yes [Main.no]
       H1 H2 H3 H4))))).
Defined.

(** Witness of X15: the input ends after a reply without line feed. *)
Lemma X15_witness :
  let todo := {| Prefix := "// "; Suffix := "fix"; ID := None;
                 Filename := "f"; Line := 1; Title := "fix" |} in
  let st := Main.mkReportState
              (Main.mkConsole (Walk.mkReader ["yes" +:+ Str.NL] EOF)
                 EmptyString) [] in
  ID todo = None
  ∧ Forall Printed.unclear (Walk.pending (Main.stdin (Main.console st)))
  ∧ Main.reportVisit todo st
    = (Main.mkReportState
         (Main.mkConsole (Walk.mkReader [] EOF)
            ("f:1: // TODO: fix" +:+ Str.NL +:+ Main.question
             +:+ Main.question))
         [],
       Some EOF).
Proof.
  intros todo st.
  assert (ID todo = None) as H1 by reflexivity.
  assert (Forall Printed.unclear
            (Walk.pending (Main.stdin (Main.console st)))) as H2
    by (repeat constructor; discriminate).
  exact (conj H1 (conj H2 (X15_report_input_ends todo st H1 H2))).
Defined.

(** Witness of X16: a walk of the sample world, which fails at its second
    file, after one Todo has been accepted. *)
Lemma X16_witness :
  let st := Main.mkReportState
              (Main.mkConsole (Walk.mkReader [Main.yes] EOF) EmptyString) [] in
  Forall (λ todo, ID todo = None) (Main.todosToReport st)
  ∧ Forall (λ todo, ID todo = None)
      (Main.todosToReport
         (Walk.WalkTodosOfDir plainConfig SampleWalk.world "."
            Main.reportVisit st).1)
  ∧ length (Main.todosToReport
              (Walk.WalkTodosOfDir plainConfig SampleWalk.world "."
                 Main.reportVisit st).1) = 1%nat.
Proof.
  intros st.
  assert (Forall (λ todo, ID todo = None) (Main.todosToReport st)) as H1
    by constructor.
  destruct (X16_report_collects_unreported_only plainConfig SampleWalk.world
              "." st) as (_ & H & _).
  exact (conj H1 (conj (H H1) eq_refl)).
Defined.

(** ** The walker of the earlier version *)

Module LegacyMore.
Import Text.




(** The loop of the earlier walker from the counter [1 + k]: the Todos of
    the current parser, without their titles, are visited in turn. *)
Lemma scanLoop_feed {St} cfg path (visit : @LegacyWalk.Visit St) texts k st :
  Z.of_nat (k + length texts) < 2 ^ 63 →
  LegacyWalk.scanLoop path visit texts (1 + Z.of_nat k) st
  = match feed (λ todo, visit (forgetTitle todo))
            (omap id
               (imap (λ i text,
                        located path (1 + Z.of_nat (k + i))
                        <$> LineAsTodo cfg text) texts)) st with
    | (st', Some err) => inl (st', Some err)
    | (st', None) => inr st'
    end.
Proof.
  revert k st. induction texts as [|text rest IH]; intros k st Hlen; [done|].
  cbn [LegacyWalk.scanLoop]. rewrite imap_cons. cbn [omap list_omap].
  assert (∀ st',
    LegacyWalk.scanLoop path visit rest (GoInt.add (1 + Z.of_nat k) 1) st'
    = match feed (λ todo, visit (forgetTitle todo))
              (omap id
                 (imap ((λ i text0,
                           located path (1 + Z.of_nat (k + i))
                           <$> LineAsTodo cfg text0) ∘ S) rest)) st' with
      | (st'', Some err) => inl (st'', Some err)
      | (st'', None) => inr st''
      end) as Hrest.
  { intros st'. destruct rest as [|text' rest]; [done|].
    cbn [length] in Hlen. unfold GoInt.add.
    rewrite RewriteFacts.wrap_in_range by (unfold GoInt.in_range; lia).
    replace (1 + Z.of_nat k + 1) with (1 + Z.of_nat (S k)) by lia.
    rewrite IH by (cbn [length]; lia).
    assert (imap (λ i text, located path (1 + Z.of_nat (S k + i))
                            <$> LineAsTodo cfg text) (text' :: rest)
            = imap ((λ i text0, located path (1 + Z.of_nat (k + i))
                                <$> LineAsTodo cfg text0) ∘ S) (text' :: rest))
      as ->; [|done].
    apply imap_ext. intros i x _. simpl. do 3 f_equal. lia. }
  replace (k + 0)%nat with k by lia.
  rewrite (LegacyFacts.LineAsTodo_forget cfg).
  destruct (LineAsTodo cfg text) as [todo|]; simpl.
  - change (visit _ st)
      with (visit (forgetTitle (located path (1 + Z.of_nat k) todo)) st).
    destruct (visit _ st) as [st' [e|]]; [done | apply Hrest].
  - apply Hrest.
Qed.

End LegacyMore.

Section LegacyWalkerProperties.
Import LegacyMore.
Context {St : Type}.


(** X18.  The earlier [WalkTodosOfFile], on a file that exists and whose
    scanner delivers fewer than 2^63 tokens, visits the Todos that the
    current parser finds in the tokens, without their titles, in the order
    of the file and with the path and the number of the token counted from
    1; it stops at the first visit that fails and returns its error, and
    after the last visit it returns [Err()] of the scanner. *)
Theorem X18_earlier_walker_visits_in_order
    (projectConfig : Config.ProjectConfig) (fs : OS.FS) (path : string)
    (visit : @LegacyWalk.Visit St) (st : St) :
  is_Some (OS.files fs !! path) →
  Z.of_nat (length (Bufio.tokens (Bufio.NewScanner (OS.read fs path))))
  < 2 ^ 63 →
  LegacyWalk.WalkTodosOfFile fs path visit st
  = match feed (λ todo, visit (forgetTitle todo))
            (todosOf projectConfig path
               (Bufio.tokens (Bufio.NewScanner (OS.read fs path)))) st with
    | (st', Some err) => (st', Some err)
    | (st', None) => (st', Bufio.Err (Bufio.NewScanner (OS.read fs path)))
    end.
Proof.
  intros [data Hd] Hlen. unfold LegacyWalk.WalkTodosOfFile, OS.Open.
  rewrite Hd.
  rewrite (scanLoop_feed projectConfig path visit _ 0 st) by exact Hlen.
  unfold todosOf.
  by destruct (feed _ _ st) as [st' [e|]].
Qed.

End LegacyWalkerProperties.

(** Witness of X18: a file with two Todos and a visitor that records the
    suffix and the line number. *)
Lemma X18_witness :
  let data := "// TODO: one" +:+ String Str.CR Str.NL +:+ "x" +:+ Str.NL
              +:+ "// TODO(#7): two" in
  let fs := Sample.disk data in
  let visit : @LegacyWalk.Visit (list (Z * string)) :=
    λ todo seen, (seen ++ [(Legacy.Line todo, Legacy.Suffix todo)], None) in
  is_Some (OS.files fs !! "f")
  ∧ Z.of_nat (length (Bufio.tokens (Bufio.NewScanner (OS.read fs "f"))))
    < 2 ^ 63
  ∧ LegacyWalk.WalkTodosOfFile fs "f" visit []
    = ([(1, "one"); (3, "two")], None).
Proof.
  intros data fs visit.
  assert (is_Some (OS.files fs !! "f")) as H1 by (exists data; reflexivity).
  assert (Z.of_nat (length (Bufio.tokens (Bufio.NewScanner (OS.read fs "f"))))
          < 2 ^ 63) as H2 by (vm_compute; reflexivity).
  exact (conj H1 (conj H2
    (X18_earlier_walker_visits_in_order plainConfig fs "f" visit [] H1 H2))).
Defined.


(** ** The first version *)

Module OldestMore.

(** What the current parser says of a text, seen from the first version. *)
Lemma LineAsTodo_cases cfg text :
  match Oldest.LineAsTodo text with
  | Some old =>
      ∃ todo, LineAsTodo cfg text = Some todo ∧ ID todo = None
              ∧ old = forgetTitle todo
  | None =>
      match LineAsTodo cfg text with
      | Some todo => ID todo ≠ None
      | None => True
      end
  end.
Proof.
  change (Oldest.LineAsTodo text) with (Legacy.LineAsUnreportedTodo text).
  rewrite (LegacyFacts.LineAsUnreportedTodo_forget cfg). unfold LineAsTodo.
  destruct (lineAsUnreportedTodo cfg text) as [todo|] eqn:E; simpl.
  - exists todo. repeat split.
    unfold lineAsUnreportedTodo in E.
    destruct (Regexp.FindStringSubmatch unreportedTodo text); [|done].
    by injection E as <-.
  - destruct (lineAsReportedTodo cfg text) as [todo|] eqn:R; [|done].
    unfold lineAsReportedTodo in R.
    destruct (Regexp.FindStringSubmatch reportedTodo text); [|done].
    by injection R as <-.
Qed.

(** The loop of [TodosOfFile] from the counter [1 + k]. *)
Lemma scanLoop_unreported cfg path texts k result :
  Z.of_nat (k + length texts) < 2 ^ 63 →
  Oldest.scanLoop path texts (1 + Z.of_nat k) result
  = result
    ++ (forgetTitle
        <$> filter (λ todo, ID todo = None)
              (omap id
                 (imap (λ i text,
                          located path (1 + Z.of_nat (k + i))
                          <$> LineAsTodo cfg text) texts))).
Proof.
  revert k result.
  induction texts as [|text rest IH]; intros k result Hlen.
  { simpl. by rewrite app_nil_r. }
  cbn [Oldest.scanLoop]. rewrite imap_cons. cbn [omap list_omap].
  assert (∀ result',
    Oldest.scanLoop path rest (GoInt.add (1 + Z.of_nat k) 1) result'
    = result'
      ++ (forgetTitle
          <$> filter (λ todo, ID todo = None)
                (omap id
                   (imap ((λ i text0,
                             located path (1 + Z.of_nat (k + i))
                             <$> LineAsTodo cfg text0) ∘ S) rest))))
    as Hrest.
  { intros result'. destruct rest as [|text' rest].
    { simpl. by rewrite app_nil_r. }
    cbn [length] in Hlen. unfold GoInt.add.
    rewrite RewriteFacts.wrap_in_range by (unfold GoInt.in_range; lia).
    replace (1 + Z.of_nat k + 1) with (1 + Z.of_nat (S k)) by lia.
    rewrite IH by (cbn [length]; lia).
    assert (imap (λ i text, located path (1 + Z.of_nat (S k + i))
                            <$> LineAsTodo cfg text) (text' :: rest)
            = imap ((λ i text0, located path (1 + Z.of_nat (k + i))
                                <$> LineAsTodo cfg text0) ∘ S) (text' :: rest))
      as ->; [|done].
    apply imap_ext. intros i x _. simpl. do 3 f_equal. lia. }
  replace (k + 0)%nat with k by lia.
  pose proof (LineAsTodo_cases cfg text) as Hc.
  destruct (Oldest.LineAsTodo text) as [old|].
  - destruct Hc as (todo & -> & Hid & ->). simpl.
    rewrite filter_cons_True by done.
    rewrite Hrest, fmap_cons, <- app_assoc. reflexivity.
  - destruct (LineAsTodo cfg text) as [todo|]; simpl; [|apply Hrest].
    rewrite filter_cons_False by done. apply Hrest.
Qed.

End OldestMore.

Section OldestProperties.
Import OldestMore.
Variable projectConfig : Config.ProjectConfig.

(** X19.  [TodosOfFile] of the first version, on a file that exists and
    whose scanner delivers fewer than 2^63 tokens, returns the Todos that
    the current parser finds in the tokens and that are unreported, without
    their titles, in the order of the file and with the path and the number
    of the token counted from 1; it returns them together with [Err()] of
    the scanner, also when that is an error.  The log form of the first
    version is the current log form followed by a line feed. *)
Theorem X19_first_version_lists_the_unreported (fs : OS.FS) (path : string) :
  is_Some (OS.files fs !! path) →
  Z.of_nat (length (Bufio.tokens (Bufio.NewScanner (OS.read fs path))))
  < 2 ^ 63 →
  Oldest.TodosOfFile fs path
  = (forgetTitle
     <$> filter (λ todo, ID todo = None)
           (todosOf projectConfig path
              (Bufio.tokens (Bufio.NewScanner (OS.read fs path)))),
     Bufio.Err (Bufio.NewScanner (OS.read fs path)))
  ∧ ∀ todo, Oldest.String (forgetTitle todo) = LogString todo +:+ Str.NL.
Proof.
  intros [data Hd] Hlen. split.
  - unfold Oldest.TodosOfFile, OS.Open. rewrite Hd.
    by rewrite (scanLoop_unreported projectConfig path _ 0 []) by exact Hlen.
  - intros todo. unfold Oldest.String, LogString.
    cbn [forgetTitle Legacy.Id Legacy.Filename Legacy.Line Legacy.Prefix
         Legacy.Suffix].
    destruct (ID todo); by rewrite !StrFacts.app_assoc.
Qed.

End OldestProperties.

(** Witness of X19: the file with a line of 65536 bytes after its first
    line; the Todo of the first line is returned with the error. *)
Lemma X19_witness :
  let data := "// TODO: one" +:+ Str.NL +:+ "// TODO(#7): two" +:+ Str.NL
              +:+ Str.replicate 65536 "x" +:+ Str.NL +:+ "// TODO: three" in
  let fs := Sample.disk data in
  is_Some (OS.files fs !! "f")
  ∧ Z.of_nat (length (Bufio.tokens (Bufio.NewScanner (OS.read fs "f"))))
    < 2 ^ 63
  ∧ Oldest.TodosOfFile fs "f"
    = ([ {| Legacy.Prefix := "// "; Legacy.Suffix := "one";
            Legacy.Id := None; Legacy.Filename := "f"; Legacy.Line := 1 |} ],
       Some ErrTooLong).
Proof.
  intros data fs.
  assert (is_Some (OS.files fs !! "f")) as H1 by (exists data; reflexivity).
  assert (Z.of_nat (length (Bufio.tokens (Bufio.NewScanner (OS.read fs "f"))))
          < 2 ^ 63) as H2 by (vm_compute; reflexivity).
  destruct (X19_first_version_lists_the_unreported plainConfig fs "f" H1 H2)
    as [H3 _].
  assert (Bufio.NewScanner (OS.read fs "f")
          = Bufio.mkScanner ["// TODO: one"; "// TODO(#7): two"]
              (Some ErrTooLong)) as E by (vm_compute; reflexivity).
  rewrite E in H3.
  exact (conj H1 (conj H2 H3)).
Defined.
